(** * Aevo grid-trading client: the connection layer and the fill-driven
      order-replacement engine of [aevo.py]

    The development embeds the methods of [AevoClient] as functions of a
    small state-and-exception monad.  The client object ([self]) and the
    outside world (the websocket transport, the clock, the random number
    generator, the log, the file system) are explicit state; every call
    into the outside world is recorded in a chronological trace and its
    outcome is read from a script, so that a run of a method is a
    function of the initial state.

    Python values are modelled as the code uses them: [float] is IEEE
    binary64 ([PrimFloat]), [int] is [Z], [str] is [string] (code points
    below 128), decoded JSON is the inductive type [json].  Library
    functions whose code is not part of the repository ([json.loads],
    [json.dumps], the EIP-712 encoder, keccak, the ECDSA signer) are
    fields of the record [Lib]. *)

From Stdlib Require Import ZArith List String Ascii Bool Lia.
From Stdlib Require Import PrimFloat SpecFloat FloatOps.
From Stdlib Require DecimalString.
Import ListNotations.
Open Scope string_scope.
Open Scope Z_scope.

Set Implicit Arguments.

(* ================================================================= *)
(** ** Exceptions *)

(** The exception classes that the modelled code can meet.  All of them
    derive from [Exception]; [JSONDecodeError] derives from
    [ValueError]; the two [ConnectionClosed...] classes are the
    subclasses of [websockets.ConnectionClosed]. *)
Inductive exn : Type :=
| ValueError
| TypeError
| AttributeError
| OverflowError
| KeyError
| TimeoutError
| ConnectionClosedError
| ConnectionClosedOK
| JSONDecodeError
| OSError
| OtherException (tag : string).

Definition exn_eqb (a b : exn) : bool :=
  match a, b with
  | ValueError, ValueError => true
  | TypeError, TypeError => true
  | AttributeError, AttributeError => true
  | OverflowError, OverflowError => true
  | KeyError, KeyError => true
  | TimeoutError, TimeoutError => true
  | ConnectionClosedError, ConnectionClosedError => true
  | ConnectionClosedOK, ConnectionClosedOK => true
  | JSONDecodeError, JSONDecodeError => true
  | OSError, OSError => true
  | OtherException s, OtherException t => String.eqb s t
  | _, _ => false
  end.

(** [isinstance(e, ValueError)] *)
Definition is_ValueError (e : exn) : bool :=
  match e with
  | ValueError | JSONDecodeError => true
  | _ => false
  end.

(** The result of evaluating a Python expression that may raise. *)
Inductive result (A : Type) : Type :=
| Ok (a : A)
| Raise (e : exn).
Arguments Ok {A} a.
Arguments Raise {A} e.

Definition rbind {A B} (r : result A) (k : A -> result B) : result B :=
  match r with
  | Ok a => k a
  | Raise e => Raise e
  end.

(* ================================================================= *)
(** ** Python numbers *)

Module PyNum.

(** Nearest binary64 value (ties to even) of the rational [p / q],
    [0 <= p], [0 < q], with sign [s]: the quotient is computed with at
    least 64 significant bits and a sticky bit, then rounded once. *)
Definition Zdiv_to_SF (s : bool) (p q : Z) : spec_float :=
  if p =? 0 then S754_zero s else
  let sh := Z.max 0 (Z.log2 q + 66 - Z.log2 p) in
  let '(d, r) := Z.div_eucl (p * 2 ^ sh) q in
  let m := 2 * d + (if r =? 0 then 0 else 1) in
  binary_normalize prec emax (if s then - m else m) (- sh - 1) s.

(** Nearest integer of [p / q] ([0 <= p], [0 < q]), ties to even. *)
Definition round_half_even_div (p q : Z) : Z :=
  let '(d, r) := Z.div_eucl p q in
  match 2 * r ?= q with
  | Lt => d
  | Gt => d + 1
  | Eq => if Z.even d then d else d + 1
  end.

(** Nearest integer of [p / q] ([0 <= p], [0 < q]), ties away from
    zero: the rounding the specification names. *)
Definition round_half_away_div (p q : Z) : Z :=
  let '(d, r) := Z.div_eucl p q in
  if 2 * r <? q then d else d + 1.

Definition is_finite (x : float) : bool :=
  negb (is_nan x || is_infinity x).

(** [float(n)] for an [int] n: correctly rounded, [OverflowError] when
    the integer is too large. *)
Definition float_of_Z (z : Z) : result float :=
  let f := SF2Prim (binary_normalize prec emax z 0 false) in
  if is_infinity f then Raise OverflowError else Ok f.

(** [int(x)] for a [float] x: truncation toward zero. *)
Definition Z_of_float (x : float) : result Z :=
  match Prim2SF x with
  | S754_nan => Raise ValueError
  | S754_infinity _ => Raise OverflowError
  | S754_zero _ => Ok 0
  | S754_finite s m e =>
      let a := if 0 <=? e then Z.pos m * 2 ^ e else Z.pos m / 2 ^ (- e) in
      Ok (if s then - a else a)
  end.

(** [round(x, ndigits)] for a [float] x and an [int] ndigits.  CPython
    rounds the exact binary value of [x] to [ndigits] decimal places,
    ties to even, and converts the decimal back to the nearest double;
    non-finite values round to themselves and a result too large for a
    double raises [OverflowError]. *)
Definition round_float (x : float) (ndigits : Z) : result float :=
  match Prim2SF x with
  | S754_finite s m e =>
      let up := 10 ^ Z.max ndigits 0 in
      let down := 10 ^ Z.max (- ndigits) 0 in
      let p := Z.pos m * up * 2 ^ Z.max e 0 in
      let q := down * 2 ^ Z.max (- e) 0 in
      let k := round_half_even_div p q in
      let f := SF2Prim (Zdiv_to_SF s (k * down) up) in
      if is_infinity f then Raise OverflowError else Ok f
  | _ => Ok x
  end.

(** [round(n, ndigits)] for an [int] n: the integer itself when
    [ndigits >= 0], otherwise the nearest multiple of [10^-ndigits],
    ties to even. *)
Definition round_int (n : Z) (ndigits : Z) : Z :=
  if 0 <=? ndigits then n
  else
    let q := 10 ^ (- ndigits) in
    let k := round_half_even_div (Z.abs n) q in
    Z.sgn n * k * q.

(** A Python number: an [int] or a [float]. *)
Inductive num : Type :=
| PInt (z : Z)
| PFloat (f : float).

(** [x * n] for a number x and an [int] n. *)
Definition mul_int (x : num) (n : Z) : result num :=
  match x with
  | PInt z => Ok (PInt (z * n))
  | PFloat f => rbind (float_of_Z n) (fun g => Ok (PFloat (f * g)%float))
  end.

(** [round(x, ndigits)] with [ndigits] given (so a float stays a float). *)
Definition round_num (x : num) (ndigits : Z) : result num :=
  match x with
  | PInt z => Ok (PInt (round_int z ndigits))
  | PFloat f => rbind (round_float f ndigits) (fun g => Ok (PFloat g))
  end.

(** [int(x)] *)
Definition int_num (x : num) : result Z :=
  match x with
  | PInt z => Ok z
  | PFloat f => Z_of_float f
  end.

(** [int(b)] for a [bool] b, as [round] reads a bool given for
    [ndigits]. *)
Definition Z_of_bool (b : bool) : Z := if b then 1 else 0.

End PyNum.

(* ================================================================= *)
(** ** Python strings *)

Module PyStr.

Definition is_digit (c : ascii) : bool :=
  let n := nat_of_ascii c in (48 <=? n)%nat && (n <=? 57)%nat.

Definition digit_val (c : ascii) : Z := Z.of_nat (nat_of_ascii c) - 48.

(** The white space that [float] and [int] skip around an ASCII
    literal. *)
Definition is_space (c : ascii) : bool :=
  let n := nat_of_ascii c in
  ((9 <=? n)%nat && (n <=? 13)%nat) || (n =? 32)%nat.

Definition lower_ascii (c : ascii) : ascii :=
  let n := nat_of_ascii c in
  if (65 <=? n)%nat && (n <=? 90)%nat then ascii_of_nat (n + 32) else c.

(** [s.lower()] *)
Fixpoint lower (s : string) : string :=
  match s with
  | EmptyString => EmptyString
  | String c r => String (lower_ascii c) (lower r)
  end.

Fixpoint drop_spaces (l : list ascii) : list ascii :=
  match l with
  | c :: r => if is_space c then drop_spaces r else l
  | [] => []
  end.

(** The literal with leading and trailing white space removed. *)
Definition strip (l : list ascii) : list ascii :=
  rev (drop_spaces (rev (drop_spaces l))).

(** A run of decimal digits in which single underscores may separate
    digits: the accumulated value, the number of digits read and the
    rest of the input. *)
Fixpoint scan_digits (acc n : Z) (l : list ascii) : Z * Z * list ascii :=
  match l with
  | c :: r =>
      if is_digit c then scan_digits (10 * acc + digit_val c) (n + 1) r
      else if (0 <? n) && Ascii.eqb c "_"
                && match r with d :: _ => is_digit d | [] => false end
           then scan_digits acc n r
           else (acc, n, l)
  | [] => (acc, n, l)
  end.

Definition scan_sign (l : list ascii) : bool * list ascii :=
  match l with
  | c :: r =>
      if Ascii.eqb c "-" then (true, r)
      else if Ascii.eqb c "+" then (false, r)
      else (false, l)
  | [] => (false, l)
  end.

(** [int(s)] for a string s (base 10); [None] stands for [ValueError]. *)
Definition parse_int (s : string) : option Z :=
  let '(neg, l) := scan_sign (strip (list_ascii_of_string s)) in
  let '(v, n, rest) := scan_digits 0 0 l in
  match rest with
  | [] => if 0 <? n then Some (if neg then - v else v) else None
  | _ => None
  end.

Definition lower_list (l : list ascii) : string :=
  lower (string_of_list_ascii l).

(** The optional exponent of a float literal; [None] when an exponent
    mark is not followed by digits. *)
Definition scan_exponent (l : list ascii) : option (Z * list ascii) :=
  match l with
  | c :: r =>
      if Ascii.eqb (lower_ascii c) "e" then
        let '(neg, r1) := scan_sign r in
        let '(v, n, rest) := scan_digits 0 0 r1 in
        if 0 <? n then Some (if neg then - v else v, rest) else None
      else Some (0, l)
  | [] => Some (0, l)
  end.

(** [float(s)] for a string s; [None] stands for [ValueError]. *)
Definition parse_float (s : string) : option float :=
  let '(neg, l) := scan_sign (strip (list_ascii_of_string s)) in
  let w := lower_list l in
  if String.eqb w "inf" || String.eqb w "infinity" then
    Some (if neg then neg_infinity else infinity)
  else if String.eqb w "nan" then Some nan
  else
    let '(ip, ni, r1) := scan_digits 0 0 l in
    let '(fp, nf, r2) :=
      match r1 with
      | c :: r => if Ascii.eqb c "." then scan_digits ip 0 r else (ip, 0, r1)
      | [] => (ip, 0, r1)
      end in
    if 0 <? ni + nf then
      match scan_exponent r2 with
      | Some (ex, []) =>
          let e10 := ex - nf in
          Some (SF2Prim (PyNum.Zdiv_to_SF neg (fp * 10 ^ Z.max e10 0)
                                          (10 ^ Z.max (- e10) 0)))
      | _ => None
      end
    else None.

(** [str(n)] for an [int] n. *)
Definition str_of_Z (z : Z) : string :=
  DecimalString.NilZero.string_of_int (Z.to_int z).

Definition hex_digit (n : N) : ascii :=
  ascii_of_N (if (n <? 10)%N then 48 + n else 87 + n)%N.

(** [b.hex()] for a byte string b. *)
Fixpoint hex (b : list Byte.byte) : string :=
  match b with
  | [] => EmptyString
  | x :: r =>
      let n := Byte.to_N x in
      String (hex_digit (n / 16)) (String (hex_digit (n mod 16)) (hex r))
  end.

(** [s.startswith(p)] *)
Definition startswith (p s : string) : bool := String.prefix p s.

(** [s.split(":")[-1]]: what follows the last colon. *)
Fixpoint last_segment_from (acc s : string) : string :=
  match s with
  | EmptyString => acc
  | String c r =>
      if Ascii.eqb c ":" then last_segment_from EmptyString r
      else last_segment_from (acc ++ String c EmptyString) r
  end.

Definition last_segment (s : string) : string :=
  last_segment_from EmptyString s.

End PyStr.

(* ================================================================= *)
(** ** Decoded JSON and the Python operations the code applies to it *)

(** What [json.loads] returns: [None], [bool], [int], [float], [str],
    [list] and [dict] (keys are strings; a key is looked up at its first
    entry). *)
#[warnings="-register-all"]
Inductive json : Type :=
| JNull
| JBool (b : bool)
| JInt (z : Z)
| JFloat (f : float)
| JStr (s : string)
| JList (l : list json)
| JDict (d : list (string * json)).

Module Py.

(** Truth value of an object, as [if x], [not x] and [all] test it. *)
Definition truthy (v : json) : bool :=
  match v with
  | JNull => false
  | JBool b => b
  | JInt z => negb (z =? 0)
  | JFloat f => negb (PrimFloat.eqb f zero)
  | JStr s => negb (String.eqb s "")
  | JList l => match l with [] => false | _ => true end
  | JDict d => match d with [] => false | _ => true end
  end.

(** [all(xs)] *)
Definition all (xs : list json) : bool := forallb truthy xs.

Fixpoint lookup (k : string) (d : list (string * json)) : option json :=
  match d with
  | [] => None
  | (k', v) :: r => if String.eqb k k' then Some v else lookup k r
  end.

(** [x.get(k, default)]: only a [dict] has the method. *)
Definition get (x : json) (k : string) (default : json) : result json :=
  match x with
  | JDict d =>
      Ok (match lookup k d with Some v => v | None => default end)
  | _ => Raise AttributeError
  end.

(** [float(x)] *)
Definition to_float (x : json) : result float :=
  match x with
  | JStr s =>
      match PyStr.parse_float s with
      | Some f => Ok f
      | None => Raise ValueError
      end
  | JInt z => PyNum.float_of_Z z
  | JFloat f => Ok f
  | JBool b => Ok (if b then one else zero)
  | _ => Raise TypeError
  end.

(** [int(x)] *)
Definition to_int (x : json) : result Z :=
  match x with
  | JStr s =>
      match PyStr.parse_int s with
      | Some z => Ok z
      | None => Raise ValueError
      end
  | JInt z => Ok z
  | JFloat f => PyNum.Z_of_float f
  | JBool b => Ok (PyNum.Z_of_bool b)
  | _ => Raise TypeError
  end.

(** [x.lower()]: only a [str] has the method. *)
Definition lower (x : json) : result string :=
  match x with
  | JStr s => Ok (PyStr.lower s)
  | _ => Raise AttributeError
  end.

(** [x.startswith(p)]: only a [str] has the method. *)
Definition startswith (x : json) (p : string) : result bool :=
  match x with
  | JStr s => Ok (PyStr.startswith p s)
  | _ => Raise AttributeError
  end.

(** [x == s] for a string literal s. *)
Definition eq_str (x : json) (s : string) : bool :=
  match x with
  | JStr t => String.eqb t s
  | _ => false
  end.

Fixpoint is_substring (p s : string) : bool :=
  String.prefix p s ||
  match s with
  | EmptyString => false
  | String _ r => is_substring p r
  end.

(** [k in x] for a string literal k. *)
Definition contains (x : json) (k : string) : result bool :=
  match x with
  | JDict d => Ok (match lookup k d with Some _ => true | None => false end)
  | JList l => Ok (existsb (fun v => eq_str v k) l)
  | JStr s => Ok (is_substring k s)
  | _ => Raise TypeError
  end.

(** The elements that [for y in x] visits. *)
Definition iterate (x : json) : result (list json) :=
  match x with
  | JList l => Ok l
  | JDict d => Ok (map (fun kv => JStr (fst kv)) d)
  | JStr s =>
      Ok (map (fun c => JStr (String c EmptyString)) (list_ascii_of_string s))
  | _ => Raise TypeError
  end.

(** [d[k] = v] on the entries of a [dict]. *)
Fixpoint setitem (k : string) (v : json) (d : list (string * json))
  : list (string * json) :=
  match d with
  | [] => [(k, v)]
  | (k', v') :: r =>
      if String.eqb k k' then (k, v) :: r else (k', v') :: setitem k v r
  end.

(** [q.append(x)] on a [deque(maxlen=n)]. *)
Definition deque_append (n : nat) (q : list json) (x : json) : list json :=
  let q' := (q ++ [x])%list in
  skipn (List.length q' - n) q'.

End Py.

(* ================================================================= *)
(** ** Configuration *)

Inductive network : Type := testnet | mainnet.

Record signing_domain_t : Type := mkDomain {
  name : string;
  version : string;
  chainId : string }.

Record config : Type := mkConfig {
  cfg_rest_url : string;
  cfg_ws_url : string;
  cfg_signing_domain : signing_domain_t }.

(** [CONFIG[env]] *)
Definition CONFIG (env : network) : config :=
  match env with
  | testnet =>
      mkConfig "https://api-testnet.aevo.xyz" "wss://ws-testnet.aevo.xyz"
               (mkDomain "Aevo Testnet" "1" "11155111")
  | mainnet =>
      mkConfig "https://api.aevo.xyz" "wss://ws.aevo.xyz"
               (mkDomain "Aevo Mainnet" "1" "1")
  end.

(** [class Order(EIP712Struct)] with the values given to its
    constructor. *)
Record Order : Type := mkOrder {
  maker : string;
  isBuy : bool;
  limitPrice : Z;
  amount : Z;
  salt : Z;
  instrument : Z;
  timestamp : Z }.

(** The functions of the libraries that the client calls.  A decoder
    answer [None] stands for [json.JSONDecodeError]; the encoder and the
    signer may raise (a value that does not fit [Uint(256)], a missing
    or malformed key). *)
Record Lib : Type := mkLib {
  json_loads : string -> option json;
  json_dumps : json -> string;
  signable_bytes : Order -> signing_domain_t -> result (list Byte.byte);
  keccak : list Byte.byte -> list Byte.byte;
  sign_hash : list Byte.byte -> string -> result string }.

(* ================================================================= *)
(** ** The client object and the outside world *)

(** A websocket connection object is named by a number. *)
Definition handle : Type := nat.

Inductive level : Type := DEBUG | INFO | WARNING | ERROR.

(** A log record: the fixed text of the message (in English) and what
    is interpolated in it. *)
Inductive logmsg : Type :=
| LogText (text : string)
| LogExn (text : string) (e : exn)
| LogStr (text : string) (s : string)
| LogJson (text : string) (v : json).

(** What a bounded wait on [recv()] can end in. *)
Inductive incoming : Type :=
| Frame (text : string)
| Silence
| Broken (e : exn).

(** A call into the outside world, with its outcome. *)
Inductive event : Type :=
| EConnect (url : string) (r : result handle)
| EClose (h : handle) (r : option exn)
| ESend (h : handle) (data : string) (r : option exn)
| ERecv (h : handle) (timeout : Z) (r : incoming)
| ESleep (seconds : Z)
| ELog (lvl : level) (m : logmsg)
| ESave (filename : string) (data : json) (r : option exn).

(** The outside world: the calls made so far (oldest first), the
    connection objects whose state is CLOSED, the next unused connection
    number, and the scripts from which the outcomes of coming calls are
    read: [faults] for the calls that return nothing or raise
    ([connect], [close], [send], saving a file; an exhausted script
    means success), [inbox] for [recv] (exhausted: no traffic), [clock]
    for [time.time()] and [rng] for [random.randint]. *)
Record world : Type := mkWorld {
  trace : list event;
  closed : list handle;
  fresh : handle;
  faults : list (option exn);
  inbox : list incoming;
  clock : list Z;
  rng : list Z }.

(** The attributes of an [AevoClient] instance. *)
Record client : Type := mkClient {
  signing_key : string;
  wallet_address : string;
  api_key : string;
  api_secret : string;
  connection : option handle;
  orders : list json;
  tickers : list (string * json);
  latest_tickers : list json;
  subscribed_channels : list string;
  env : network }.

(** [AevoClient(signing_key, wallet_address, api_key, api_secret, env)] *)
Definition new_client (sk wa ak asec : string) (e : network) : client :=
  mkClient sk wa ak asec None [] [] [] [] e.

Definition state : Type := (client * world)%type.

Definition ws_url (c : client) : string := cfg_ws_url (CONFIG (env c)).
Definition signing_domain (c : client) : signing_domain_t :=
  cfg_signing_domain (CONFIG (env c)).

Definition set_connection (o : option handle) (c : client) : client :=
  mkClient (signing_key c) (wallet_address c) (api_key c) (api_secret c)
           o (orders c) (tickers c) (latest_tickers c)
           (subscribed_channels c) (env c).

Definition set_orders (l : list json) (c : client) : client :=
  mkClient (signing_key c) (wallet_address c) (api_key c) (api_secret c)
           (connection c) l (tickers c) (latest_tickers c)
           (subscribed_channels c) (env c).

Definition set_tickers (t : list (string * json)) (q : list json)
  (c : client) : client :=
  mkClient (signing_key c) (wallet_address c) (api_key c) (api_secret c)
           (connection c) (orders c) t q (subscribed_channels c) (env c).

Definition set_subscribed_channels (l : list string) (c : client) : client :=
  mkClient (signing_key c) (wallet_address c) (api_key c) (api_secret c)
           (connection c) (orders c) (tickers c) (latest_tickers c) l (env c).

Definition emit (e : event) (w : world) : world :=
  mkWorld (trace w ++ [e]) (closed w) (fresh w) (faults w) (inbox w)
          (clock w) (rng w).

Definition mark_closed (h : handle) (w : world) : world :=
  mkWorld (trace w) (h :: closed w) (fresh w) (faults w) (inbox w)
          (clock w) (rng w).

Definition is_closed (h : handle) (w : world) : bool :=
  existsb (Nat.eqb h) (closed w).

(** The outcome of the next call that returns nothing or raises. *)
Definition next_fault (w : world) : option exn * world :=
  match faults w with
  | [] => (None, w)
  | f :: r =>
      (f, mkWorld (trace w) (closed w) (fresh w) r (inbox w) (clock w) (rng w))
  end.

Definition next_incoming (w : world) : incoming * world :=
  match inbox w with
  | [] => (Silence, w)
  | i :: r =>
      (i, mkWorld (trace w) (closed w) (fresh w) (faults w) r (clock w) (rng w))
  end.

Definition next_clock (w : world) : Z * world :=
  match clock w with
  | [] => (0, w)
  | t :: r =>
      (t, mkWorld (trace w) (closed w) (fresh w) (faults w) (inbox w) r (rng w))
  end.

Definition next_random (w : world) : Z * world :=
  match rng w with
  | [] => (0, w)
  | t :: r =>
      (t, mkWorld (trace w) (closed w) (fresh w) (faults w) (inbox w)
                  (clock w) r)
  end.

Definition take_handle (w : world) : handle * world :=
  (fresh w,
   mkWorld (trace w) (closed w) (S (fresh w)) (faults w) (inbox w)
           (clock w) (rng w)).

(** [isinstance(e, websockets.ConnectionClosed)] *)
Definition is_ConnectionClosed (e : exn) : bool :=
  match e with
  | ConnectionClosedError | ConnectionClosedOK => true
  | _ => false
  end.

(* ================================================================= *)
(** ** The monad of the methods: state and exceptions *)

Definition M (A : Type) : Type := state -> result A * state.

Definition ret {A} (a : A) : M A := fun s => (Ok a, s).

Definition raise {A} (e : exn) : M A := fun s => (Raise e, s).

Definition bind {A B} (m : M A) (k : A -> M B) : M B :=
  fun s =>
    match m s with
    | (Ok a, s') => k a s'
    | (Raise e, s') => (Raise e, s')
    end.

(** [try: m  except: h e] *)
Definition catch {A} (m : M A) (h : exn -> M A) : M A :=
  fun s =>
    match m s with
    | (Ok a, s') => (Ok a, s')
    | (Raise e, s') => h e s'
    end.

(** [try: m  finally: f] *)
Definition finally {A} (m : M A) (f : M unit) : M A :=
  fun s =>
    match m s with
    | (r, s') =>
        match f s' with
        | (Ok _, s'') => (r, s'')
        | (Raise e, s'') => (Raise e, s'')
        end
    end.

(** A pure expression that may raise. *)
Definition lift {A} (r : result A) : M A := fun s => (r, s).

Declare Scope py_scope.
Delimit Scope py_scope with py.
Notation "x <- m ;; k" := (bind m (fun x => k))
  (at level 61, m at next level, right associativity) : py_scope.
Notation "' pat <- m ;; k" := (bind m (fun x => match x with pat => k end))
  (at level 61, pat pattern, m at next level, right associativity) : py_scope.
Notation "m ;; k" := (bind m (fun _ => k))
  (at level 61, right associativity) : py_scope.
Open Scope py_scope.

(** [self] *)
Definition self : M client := fun s => (Ok (fst s), s).

Definition update (f : client -> client) : M unit :=
  fun s => (Ok tt, (f (fst s), snd s)).

Definition outside {A} (f : world -> A * world) : M A :=
  fun s => let '(a, w) := f (snd s) in (Ok a, (fst s, w)).

Definition record (e : event) : M unit :=
  fun s => (Ok tt, (fst s, emit e (snd s))).

(** [logger.debug], [logger.info], [logger.warning], [logger.error] *)
Definition log (lvl : level) (m : logmsg) : M unit := record (ELog lvl m).

(** [await asyncio.sleep(n)] *)
Definition sleep (n : Z) : M unit := record (ESleep n).

(** [int(time.time())] *)
Definition time_now : M Z := outside next_clock.

(** [random.randint(0, hi)] *)
Definition randint (hi : Z) : M Z :=
  z <- outside next_random ;; ret (z mod (hi + 1)).

(** [await websockets.connect(url, ...)] *)
Definition ws_connect (url : string) : M handle :=
  fun s =>
    let '(f, w1) := next_fault (snd s) in
    match f with
    | None =>
        let '(h, w2) := take_handle w1 in
        (Ok h, (fst s, emit (EConnect url (Ok h)) w2))
    | Some e => (Raise e, (fst s, emit (EConnect url (Raise e)) w1))
    end.

(** [await h.close()]: closing a closed connection does nothing. *)
Definition ws_close (h : handle) : M unit :=
  fun s =>
    if is_closed h (snd s) then (Ok tt, (fst s, emit (EClose h None) (snd s)))
    else
      let '(f, w1) := next_fault (snd s) in
      match f with
      | None => (Ok tt, (fst s, emit (EClose h None) (mark_closed h w1)))
      | Some e => (Raise e, (fst s, emit (EClose h (Some e)) w1))
      end.

(** [await h.send(data)]: a closed connection raises
    [ConnectionClosed]; a [ConnectionClosed] error leaves the connection
    closed. *)
Definition ws_send (h : handle) (data : string) : M unit :=
  fun s =>
    let '(f, w1) := next_fault (snd s) in
    let f' :=
      if is_closed h (snd s) then
        match f with
        | Some e => Some (if is_ConnectionClosed e then e
                          else ConnectionClosedError)
        | None => Some ConnectionClosedError
        end
      else f in
    match f' with
    | None => (Ok tt, (fst s, emit (ESend h data None) w1))
    | Some e =>
        (Raise e,
         (fst s,
          emit (ESend h data (Some e))
               (if is_ConnectionClosed e then mark_closed h w1 else w1)))
    end.

(** [await asyncio.wait_for(h.recv(), timeout=t)] *)
Definition ws_recv (h : handle) (t : Z) : M string :=
  fun s =>
    if is_closed h (snd s) then
      (Raise ConnectionClosedError,
       (fst s, emit (ERecv h t (Broken ConnectionClosedError)) (snd s)))
    else
      let '(i, w1) := next_incoming (snd s) in
      match i with
      | Frame text => (Ok text, (fst s, emit (ERecv h t i) w1))
      | Silence => (Raise TimeoutError, (fst s, emit (ERecv h t i) w1))
      | Broken e =>
          (Raise e,
           (fst s,
            emit (ERecv h t i)
                 (if is_ConnectionClosed e then mark_closed h w1 else w1)))
      end.

(** [self.connection.closed] for a connection object h *)
Definition closed_attr (h : handle) : M bool :=
  fun s => (Ok (is_closed h (snd s)), s).

(** [self.save_to_file(data, filename)]: make the directory, open the
    file, pickle the data. *)
Definition save_to_file (data : json) (filename : string) : M unit :=
  fun s =>
    let '(f, w1) := next_fault (snd s) in
    match f with
    | None => (Ok tt, (fst s, emit (ESave filename data None) w1))
    | Some e => (Raise e, (fst s, emit (ESave filename data (Some e)) w1))
    end.

(* ================================================================= *)
(** ** The methods of [AevoClient] *)

Section Methods.

Variable L : Lib.

(** [await self.connection.send(data)] *)
Definition connection_send (data : string) : M unit :=
  c <- self ;;
  match connection c with
  | Some h => ws_send h data
  | None => raise AttributeError
  end.

(** [await asyncio.wait_for(self.connection.recv(), timeout=t)] *)
Definition connection_recv (t : Z) : M string :=
  c <- self ;;
  match connection c with
  | Some h => ws_recv h t
  | None => raise AttributeError
  end.

(** [json.loads(text)] *)
Definition loads (text : string) : M json :=
  match json_loads L text with
  | Some v => ret v
  | None => raise JSONDecodeError
  end.

Definition auth_message (c : client) : json :=
  JDict [("id", JInt 1); ("op", JStr "auth");
         ("data", JDict [("key", JStr (api_key c));
                         ("secret", JStr (api_secret c))])].

Definition authenticate : M unit :=
  log DEBUG (LogText "Authenticating...") ;;
  c <- self ;;
  connection_send (json_dumps L (auth_message c)) ;;
  sleep 1.

Definition nonempty (s : string) : bool := negb (String.eqb s "").

(** The [try] block of [open_connection]; the headers given to
    [connect] play no part. *)
Definition open_attempt : M unit :=
  log INFO (LogText "Opening Aevo websocket connection...") ;;
  c <- self ;;
  match connection c with
  | Some h => ws_close h
  | None => ret tt
  end ;;
  h <- ws_connect (ws_url c) ;;
  update (set_connection (Some h)) ;;
  log DEBUG (LogStr "Connected to" (ws_url c)) ;;
  (if nonempty (api_key c) && nonempty (wallet_address c)
   then authenticate else ret tt) ;;
  log INFO (LogText "Aevo websocket connection established.").

(** The [except Exception] clause of [open_connection]. *)
Definition open_failed (e : exn) : M unit :=
  log ERROR (LogText "Error occurred while opening websocket connection.") ;;
  log ERROR (LogExn "" e) ;;
  log ERROR (LogText "traceback") ;;
  sleep 10.

Definition open_connection : M unit := catch open_attempt open_failed.

Definition close_connection : M unit :=
  c <- self ;;
  match connection c with
  | Some h =>
      is_cl <- closed_attr h ;;
      if negb is_cl then
        log INFO (LogText "Closing the existing WebSocket connection...") ;;
        finally
          (catch (ws_close h)
                 (fun e => log ERROR (LogExn "Error while closing the connection" e)))
          (update (set_connection None))
      else log INFO (LogText "No active WebSocket connection to close.")
  | None => log INFO (LogText "No active WebSocket connection to close.")
  end.

Definition subscribe_message (channel : string) : json :=
  JDict [("op", JStr "subscribe"); ("data", JList [JStr channel])].

Fixpoint resubscribe_loop (channels : list string) : M unit :=
  match channels with
  | [] => ret tt
  | channel :: rest =>
      connection_send (json_dumps L (subscribe_message channel)) ;;
      log INFO (LogStr "Resubscribed to channel" channel) ;;
      resubscribe_loop rest
  end.

Definition resubscribe_channels : M unit :=
  c <- self ;;
  resubscribe_loop (subscribed_channels c).

Definition reconnect : M unit :=
  log INFO (LogText "Trying to reconnect the WebSocket...") ;;
  close_connection ;;
  sleep 5 ;;
  catch
    (open_connection ;; resubscribe_channels)
    (fun e => log ERROR (LogExn "Reconnect failed" e)).

Definition send (data : string) : M unit :=
  c <- self ;;
  match connection c with
  | Some _ =>
      catch
        (connection_send data)
        (fun e =>
           match e with
           | ConnectionClosedError =>
               log DEBUG (LogText "Restarted Aevo websocket connection") ;;
               reconnect ;;
               connection_send data
           | _ => reconnect
           end)
  | None =>
      log ERROR (LogText "WebSocket connection is not established. Cannot send data.") ;;
      reconnect
  end.

(** [calculate_opposite_price]: [filled_price] is a float,
    [grid_interval] and [price_decimals] are ints. *)
Definition calculate_opposite_price (filled_price : float) (is_buy : bool)
  (grid_interval price_decimals : Z) : result float :=
  rbind (PyNum.float_of_Z grid_interval) (fun g =>
  let opposite_price :=
    if is_buy then (filled_price - g)%float else (filled_price + g)%float in
  PyNum.round_float opposite_price price_decimals).

(** The expression [int(round(value * decimals, is_buy))] of
    [sign_order], [create_order_ws_json] and their siblings: the order
    side is given to [round] as its number of digits. *)
Definition fixed_point (value : PyNum.num) (decimals : Z) (is_buy : bool)
  : result Z :=
  rbind (PyNum.mul_int value decimals) (fun x =>
  rbind (PyNum.round_num x (PyNum.Z_of_bool is_buy)) PyNum.int_num).

Definition sign_order (instrument_id : Z) (is_buy : bool)
  (limit_price quantity : PyNum.num) (timestamp0 : Z)
  (price_decimals amount_decimals : Z) : M (Z * string * string) :=
  salt0 <- randint (10 ^ 10) ;;
  c <- self ;;
  lp <- lift (fixed_point limit_price price_decimals is_buy) ;;
  am <- lift (fixed_point quantity amount_decimals is_buy) ;;
  let order_struct :=
    mkOrder (wallet_address c) is_buy lp am salt0 instrument_id timestamp0 in
  log INFO (LogStr "signing_domain" (name (signing_domain c))) ;;
  sb <- lift (signable_bytes L order_struct (signing_domain c)) ;;
  let hashed := keccak L sb in
  sig <- lift (sign_hash L hashed (signing_key c)) ;;
  ret (salt0, sig, "0x" ++ PyStr.hex hashed)%string.

Definition create_order_ws_json (instrument_id : Z) (is_buy : bool)
  (limit_price quantity : PyNum.num) (post_only mmp : bool)
  (price_decimals amount_decimals : Z) : M (json * string) :=
  timestamp0 <- time_now ;;
  '(salt0, signature, order_id) <-
     sign_order instrument_id is_buy limit_price quantity timestamp0
                price_decimals (10 ^ 6) ;;
  c <- self ;;
  am <- lift (fixed_point quantity amount_decimals is_buy) ;;
  lp <- lift (fixed_point limit_price price_decimals is_buy) ;;
  ret (JDict [("instrument", JInt instrument_id);
              ("maker", JStr (wallet_address c));
              ("is_buy", JBool is_buy);
              ("amount", JStr (PyStr.str_of_Z am));
              ("limit_price", JStr (PyStr.str_of_Z lp));
              ("salt", JStr (PyStr.str_of_Z salt0));
              ("signature", JStr signature);
              ("post_only", JBool post_only);
              ("mmp", JBool mmp);
              ("timestamp", JInt timestamp0)],
       order_id).

Definition create_order_payload (data id : json) : json :=
  JDict ([("op", JStr "create_order"); ("data", data)]
         ++ (if Py.truthy id then [("id", id)] else []))%list.

(** [create_order]; [instrument_id] is already an int. *)
Definition create_order (instrument_id : Z) (is_buy : bool)
  (limit_price quantity : PyNum.num) (post_only : bool) (id : json)
  (mmp : bool) : M string :=
  '(data, order_id) <-
     create_order_ws_json instrument_id is_buy limit_price quantity
                          post_only mmp (10 ^ 6) (10 ^ 6) ;;
  let payload := create_order_payload data id in
  log INFO (LogJson "" payload) ;;
  send (json_dumps L payload) ;;
  ret order_id.

(** The last [try] statement of [handle_fills_message]: the replacement
    order is submitted, post-only, and any exception is logged. *)
Definition place_opposite_order (instrument_id : Z) (new_order_is_buy : bool)
  (new_order_price filled_quantity : float) : M unit :=
  catch
    (new_order_id <-
       create_order instrument_id new_order_is_buy
                    (PyNum.PFloat new_order_price)
                    (PyNum.PFloat filled_quantity)
                    true JNull true ;;
     log INFO (LogStr "Opposite order created" new_order_id))
    (fun e => log ERROR (LogExn "Error while creating the opposite order" e)).

Definition handle_fills_message (message : json)
  (grid_interval price_decimals : Z) : M unit :=
  data <- lift (Py.get message "data" (JDict [])) ;;
  fill_data <- lift (Py.get data "fill" JNull) ;;
  if negb (Py.truthy fill_data) then
    log ERROR (LogText "The fill message has no 'fill' data.")
  else
    log INFO (LogJson "Fill" fill_data) ;;
    order_id <- lift (Py.get fill_data "order_id" JNull) ;;
    price_str <- lift (Py.get fill_data "price" JNull) ;;
    filled_str <- lift (Py.get fill_data "filled" JNull) ;;
    side <- lift (Py.get fill_data "side" JNull) ;;
    instrument_id <- lift (Py.get fill_data "instrument_id" JNull) ;;
    if negb (Py.all [order_id; price_str; filled_str; side; instrument_id])
    then log ERROR (LogText "The fill message lacks required data.")
    else
      converted <-
        catch
          (filled_price <- lift (Py.to_float price_str) ;;
           filled_quantity <- lift (Py.to_float filled_str) ;;
           lowered <- lift (Py.lower side) ;;
           let is_buy := String.eqb lowered "buy" in
           instrument <- lift (Py.to_int instrument_id) ;;
           ret (Some (filled_price, filled_quantity, is_buy, instrument)))
          (fun e =>
             if is_ValueError e then
               log ERROR (LogExn "Type conversion error in the fill data" e) ;;
               ret None
             else raise e) ;;
      match converted with
      | None => ret tt
      | Some (filled_price, filled_quantity, is_buy, instrument) =>
          let new_order_is_buy := negb is_buy in
          new_order_price <-
            lift (calculate_opposite_price filled_price new_order_is_buy
                                           grid_interval price_decimals) ;;
          place_opposite_order instrument new_order_is_buy new_order_price
                               filled_quantity
      end.

Fixpoint append_orders (orders_data : list json) : M unit :=
  match orders_data with
  | [] => ret tt
  | order :: rest =>
      log INFO (LogJson "Order update" order) ;;
      update (fun c => set_orders (orders c ++ [order])%list c) ;;
      append_orders rest
  end.

Definition handle_order_message (message : json) : M unit :=
  data <- lift (Py.get message "data" (JDict [])) ;;
  orders_data <- lift (Py.get data "orders" (JList [])) ;;
  items <- lift (Py.iterate orders_data) ;;
  append_orders items ;;
  c <- self ;;
  save_to_file (JList (orders c)) "data/orders.pkl".

(** [message['channel']] *)
Definition getitem_channel (message : json) : result json :=
  match message with
  | JDict d =>
      match Py.lookup "channel" d with
      | Some v => Ok v
      | None => Raise KeyError
      end
  | _ => Raise TypeError
  end.

Definition handle_ticker_message (message : json) : M unit :=
  ticker_data <- lift (Py.get message "data" (JDict [])) ;;
  channel <- lift (getitem_channel message) ;;
  asset <- lift (match channel with
                 | JStr s => Ok (PyStr.last_segment s)
                 | _ => Raise AttributeError
                 end) ;;
  update (fun c =>
            set_tickers (Py.setitem asset ticker_data (tickers c))
                        (Py.deque_append 100 (latest_tickers c) ticker_data) c) ;;
  c <- self ;;
  save_to_file (JList (latest_tickers c))
               ("data/" ++ asset ++ "_tickers.pkl")%string.

(** The [try] block of one turn of the loop of [message_handler]. *)
Definition dispatch_frame (grid_interval price_decimals : Z) : M unit :=
  response <- connection_recv 20 ;;
  message <- loads response ;;
  channel <- lift (Py.get message "channel" JNull) ;;
  is_ticker <-
    (if Py.truthy channel then lift (Py.startswith channel "ticker:")
     else ret false) ;;
  if is_ticker then handle_ticker_message message
  else if Py.eq_str channel "orders" then handle_order_message message
  else if Py.eq_str channel "fills" then
    handle_fills_message message grid_interval price_decimals
  else ret tt.

(** The [except] clauses of the loop of [message_handler]. *)
Definition on_error (e : exn) : M unit :=
  match e with
  | TimeoutError =>
      log ERROR (LogText "No new fills, waiting.")
  | ConnectionClosedError =>
      log ERROR (LogText "WebSocket connection closed. Trying to reconnect...") ;;
      reconnect
  | JSONDecodeError =>
      log ERROR (LogExn "Error while parsing the JSON response" e)
  | _ =>
      log ERROR (LogExn "Error while handling the message" e)
  end.

(** One turn of the [while True] loop of [message_handler]. *)
Definition message_handler_turn (grid_interval price_decimals : Z) : M unit :=
  catch (dispatch_frame grid_interval price_decimals) on_error.

(** The first [turns] turns of [message_handler]; the loop itself never
    ends. *)
Fixpoint message_handler_loop (turns : nat) (grid_interval price_decimals : Z)
  : M unit :=
  match turns with
  | O => ret tt
  | S n =>
      message_handler_turn grid_interval price_decimals ;;
      message_handler_loop n grid_interval price_decimals
  end.

(** [message_handler(grid_interval, price_decimals)], cut after
    [turns] turns. *)
Definition message_handler (turns : nat) (grid_interval : json)
  (price_decimals : Z) : M unit :=
  gi <- lift (Py.to_int grid_interval) ;;
  message_handler_loop turns gi price_decimals.

(** The code shared by the three subscribe methods: send the subscribe
    frame, then record the channel. *)
Definition send_and_register (channel_name : string) : M unit :=
  connection_send (json_dumps L (subscribe_message channel_name)) ;;
  update (fun c =>
            set_subscribed_channels
              (subscribed_channels c ++ [channel_name])%list c).

(** The wait for the confirmation in [subscribe_ticker]: the next
    frame is taken for the answer. *)
Definition await_confirmation (channel_name : string) : M unit :=
  catch
    (confirmation <- connection_recv 5 ;;
     confirmation_message <- loads confirmation ;;
     has_id <- lift (Py.contains confirmation_message "id") ;;
     ok <-
       (if has_id then
          d <- lift (Py.get confirmation_message "data" (JDict [])) ;;
          s <- lift (Py.get d "success" JNull) ;;
          ret (Py.truthy s)
        else ret false) ;;
     if ok then log INFO (LogStr "Ticker subscription confirmed" channel_name)
     else log ERROR (LogStr "Ticker subscription failed" channel_name))
    (fun e =>
       match e with
       | TimeoutError =>
           log ERROR (LogStr "Timeout while waiting for subscription confirmation"
                             channel_name)
       | _ => raise e
       end).

Definition subscribe_ticker (asset : string) : M unit :=
  let channel_name := ("ticker:" ++ asset)%string in
  send_and_register channel_name ;;
  await_confirmation channel_name.

Definition subscribe_orders : M unit :=
  send_and_register "orders" ;;
  log INFO (LogText "Order update subscription request sent.").

Definition subscribe_fills : M unit :=
  send_and_register "fills" ;;
  log INFO (LogText "Fill subscription request sent.").

End Methods.

(* ================================================================= *)
(** ** Sessions: sequences of calls made on a client *)

(** The three subscribe methods and the channel each one names. *)
Inductive subscription : Type :=
| Ticker (asset : string)
| Orders
| Fills.

Definition channel_name (sub : subscription) : string :=
  match sub with
  | Ticker asset => ("ticker:" ++ asset)%string
  | Orders => "orders"
  | Fills => "fills"
  end.

Definition subscribe (L : Lib) (sub : subscription) : M unit :=
  match sub with
  | Ticker asset => subscribe_ticker L asset
  | Orders => subscribe_orders L
  | Fills => subscribe_fills L
  end.


(** A call of a method of the client by its user or by one of its
    tasks. *)
Inductive call : Type :=
| CallOpen
| CallClose
| CallReconnect
| CallResubscribe
| CallSend (data : string)
| CallSubscribe (sub : subscription)
| CallCreateOrder (instrument_id : Z) (is_buy : bool)
                  (limit_price quantity : PyNum.num) (post_only : bool)
| CallTurn (grid_interval price_decimals : Z).

Definition run_call (L : Lib) (k : call) : M unit :=
  match k with
  | CallOpen => open_connection L
  | CallClose => close_connection
  | CallReconnect => reconnect L
  | CallResubscribe => resubscribe_channels L
  | CallSend data => send L data
  | CallSubscribe sub => subscribe L sub
  | CallCreateOrder i b p q po =>
      _ <- create_order L i b p q po JNull true ;; ret tt
  | CallTurn gi pd => message_handler_turn L gi pd
  end.

(** The state after a sequence of calls; a call that raises leaves the
    state it reached and the next call goes on from there. *)
Fixpoint run_session (L : Lib) (calls : list call) (s : state) : state :=
  match calls with
  | [] => s
  | k :: rest => run_session L rest (snd (run_call L k s))
  end.

(* ================================================================= *)
(** ** Observations *)

Definition is_connect (e : event) : bool :=
  match e with
  | EConnect _ _ => true
  | _ => false
  end.

(** The number of attempts to open a transport connection. *)
Definition connect_attempts (tr : list event) : nat :=
  List.length (filter is_connect tr).

(** The frames handed to the transport, whatever came of it. *)
Definition handed_over (tr : list event) : list string :=
  flat_map (fun e => match e with ESend _ d _ => [d] | _ => [] end) tr.

(** The frames the transport accepted, with the connection they went
    out on. *)
Definition delivered (tr : list event) : list (handle * string) :=
  flat_map (fun e => match e with ESend h d None => [(h, d)] | _ => [] end) tr.

Definition is_log (e : event) : bool :=
  match e with
  | ELog _ _ => true
  | _ => false
  end.

(** Every closed connection object was handed out earlier. *)
Definition wf_world (w : world) : bool :=
  forallb (fun h => (h <? fresh w)%nat) (closed w).

(** The attributes of the client that only the constructor sets, and
    the registry of subscribed channels. *)
Definition credentials (c : client)
  : string * string * string * string * network :=
  (signing_key c, wallet_address c, api_key c, api_secret c, env c).

(** The frames that a reconnect may hand to the transport by itself:
    the authentication frame and the subscribe frames of the registered
    channels. *)
Definition housekeeping (L : Lib) (c : client) (e : event) : Prop :=
  match e with
  | ESend _ d _ =>
      d = json_dumps L (auth_message c) \/
      exists ch, In ch (subscribed_channels c) /\
                 d = json_dumps L (subscribe_message ch)
  | _ => True
  end.

(** The calls that replay the registry on connection h. *)
Definition replay (L : Lib) (h : handle) (channels : list string)
  : list event :=
  flat_map
    (fun ch => [ESend h (json_dumps L (subscribe_message ch)) None;
                ELog INFO (LogStr "Resubscribed to channel" ch)])
    channels.

(** What [close_connection] does to a connection: the calls it makes. *)
Definition closing (c : client) (w : world) : list event :=
  match connection c with
  | Some h =>
      if is_closed h w
      then [ELog INFO (LogText "No active WebSocket connection to close.")]
      else [ELog INFO (LogText "Closing the existing WebSocket connection...");
            EClose h None]
  | None => [ELog INFO (LogText "No active WebSocket connection to close.")]
  end.

(** The close that [open_connection] makes on a connection object that
    [close_connection] found closed and left in place. *)
Definition stale_close (c : client) (w : world) : list event :=
  match connection c with
  | Some h => if is_closed h w then [EClose h None] else []
  | None => []
  end.

(** The calls of [authenticate], made when a key and a wallet address
    are configured. *)
Definition authentication (L : Lib) (c : client) (h : handle) : list event :=
  if nonempty (api_key c) && nonempty (wallet_address c)
  then [ELog DEBUG (LogText "Authenticating...");
        ESend h (json_dumps L (auth_message c)) None;
        ESleep 1]
  else [].

(** The calls of a reconnect on a transport that works, up to the
    replay of the registry. *)
Definition reopening (L : Lib) (c : client) (w : world) : list event :=
  ([ELog INFO (LogText "Trying to reconnect the WebSocket...")]
   ++ closing c w
   ++ [ESleep 5;
       ELog INFO (LogText "Opening Aevo websocket connection...")]
   ++ stale_close c w
   ++ [EConnect (ws_url c) (Ok (fresh w));
       ELog DEBUG (LogStr "Connected to" (ws_url c))]
   ++ authentication L c (fresh w)
   ++ [ELog INFO (LogText "Aevo websocket connection established.")])%list.

(** The connection objects closed once [close_connection] has run on a
    transport that works. *)
Definition closed_after (c : client) (w : world) : list handle :=
  match connection c with
  | Some h => if is_closed h w then closed w else h :: closed w
  | None => closed w
  end.

(* ================================================================= *)
(** ** Frames: what a run may change *)

(** A relation [RC] between the client before and after a run and a
    property [P] of the calls made during it, where [P] may depend on
    the client that makes the call. *)
Class Framing (RC : client -> client -> Prop) (P : client -> event -> Prop)
  : Prop := {
  RC_refl : forall c, RC c c;
  RC_trans : forall a b c, RC a b -> RC b c -> RC a c;
  P_mono : forall c c' e, RC c c' -> P c' e -> P c e;
  P_quiet :
    forall c e, match e with ESend _ _ _ => False | _ => True end -> P c e }.

(** A run from s to s' keeps the client within [RC] and adds to the
    trace only calls that satisfy [P]. *)
Definition frame (RC : client -> client -> Prop) (P : client -> event -> Prop)
  (s s' : state) : Prop :=
  RC (fst s) (fst s') /\
  exists evs, trace (snd s') = (trace (snd s) ++ evs)%list /\
              Forall (P (fst s)) evs.

Definition framed_at RC P {A} (m : M A) (s : state) : Prop :=
  frame RC P s (snd (m s)).

Definition framed RC P {A} (m : M A) : Prop := forall s, framed_at RC P m s.

(** The credentials stay and the registry of subscribed channels is
    extended at its end. *)
Definition grows (c c' : client) : Prop :=
  credentials c' = credentials c /\
  exists l, subscribed_channels c' = (subscribed_channels c ++ l)%list.

(** The credentials and the registry stay. *)
Definition unchanged (c c' : client) : Prop :=
  credentials c' = credentials c /\
  subscribed_channels c' = subscribed_channels c.

Definition anything (c : client) (e : event) : Prop := True.

(** A computation that never raises. *)
Definition returns {A} (m : M A) : Prop :=
  forall s, exists a s', m s = (Ok a, s').

(** Every closed connection object and the client's own one were handed
    out earlier. *)
Definition wf_state (s : state) : bool :=
  wf_world (snd s) &&
  match connection (fst s) with
  | Some h => (h <? fresh (snd s))%nat
  | None => true
  end.

(** A computation that keeps that invariant, whether it returns or
    raises. *)
Definition keeps_wf {A} (m : M A) : Prop :=
  forall s, wf_state s = true -> wf_state (snd (m s)) = true.

(* ================================================================= *)
(** ** What the specification says, in its own words *)

(** The fields of a fill that the specification requires: present (the
    code takes an empty or zero value for a missing one), price and
    quantity convertible to numbers, the side a string, the instrument
    convertible to an integer. *)
Definition valid_fill (message : json)
  : option (json * float * float * string * Z) :=
  match Py.get message "data" (JDict []) with
  | Ok (JDict d) =>
      match Py.lookup "fill" d with
      | Some (JDict f) =>
          match Py.lookup "order_id" f, Py.lookup "price" f,
                Py.lookup "filled" f, Py.lookup "side" f,
                Py.lookup "instrument_id" f with
          | Some o, Some p, Some q, Some (JStr sd), Some i =>
              if Py.all [JDict f; o; p; q; JStr sd; i] then
                match Py.to_float p, Py.to_float q, Py.to_int i with
                | Ok pf, Ok qf, Ok iz => Some (JDict f, pf, qf, sd, iz)
                | _, _, _ => None
                end
              else None
          | _, _, _, _, _ => None
          end
      | _ => None
      end
  | _ => None
  end.

(** The exact value of a finite float as a fraction. *)
Definition exact (x : float) : option (bool * Z * Z) :=
  match Prim2SF x with
  | S754_finite s m e => Some (s, Z.pos m * 2 ^ Z.max e 0, 2 ^ Z.max (- e) 0)
  | S754_zero s => Some (s, 0, 1)
  | _ => None
  end.

(** [round(value * 10^decimals)], rounding half away from zero, on the
    exact value of a float: the fixed-point conversion the
    specification describes. *)
Definition spec_fixed_point (value : float) (decimals : Z) : option Z :=
  match exact value with
  | Some (s, p, q) =>
      let k := PyNum.round_half_away_div (p * 10 ^ decimals) q in
      Some (if s then - k else k)
  | None => None
  end.

(** The grid rule of the specification:
    [isBuyFill ? fillPrice - interval : fillPrice + interval]. *)
Definition spec_opposite_price (fill_price : float) (is_buy_fill : bool)
  (interval : float) : float :=
  if is_buy_fill then (fill_price - interval)%float
  else (fill_price + interval)%float.

(* ================================================================= *)
(** ** A small instance of the libraries, and sample data *)

Module Demo.

Definition quote : string := String (ascii_of_nat 34) EmptyString.

Fixpoint join (sep : string) (l : list string) : string :=
  match l with
  | [] => EmptyString
  | [x] => x
  | x :: r => (x ++ sep ++ join sep r)%string
  end.

(** A serializer in the layout of [json.dumps] for the values the client
    sends (strings without characters to escape, no floats). *)
Fixpoint dumps (v : json) : string :=
  match v with
  | JNull => "null"
  | JBool true => "true"
  | JBool false => "false"
  | JInt z => PyStr.str_of_Z z
  | JFloat _ => "0.0"
  | JStr s => (quote ++ s ++ quote)%string
  | JList l => ("[" ++ join ", " (map dumps l) ++ "]")%string
  | JDict d =>
      ("{" ++ join ", "
                (map (fun kv => quote ++ fst kv ++ quote ++ ": " ++ dumps (snd kv)) d)
           ++ "}")%string
  end.

(** The fill of a fill notification as the exchange sends it. *)
Definition fill_data (side price filled : string) : json :=
  JDict [("order_id", JStr "0xabc");
         ("price", JStr price);
         ("filled", JStr filled);
         ("side", JStr side);
         ("instrument_id", JStr "1")].

Definition fill_message (side price filled : string) : json :=
  JDict [("channel", JStr "fills");
         ("data", JDict [("fill", fill_data side price filled)])].

Definition ticker_message : json :=
  JDict [("channel", JStr "ticker:ETH-PERP");
         ("data", JDict [("mark", JStr "3200.5")])].

Definition orders_message : json :=
  JDict [("channel", JStr "orders");
         ("data", JDict [("orders", JList [JDict [("order_id", JStr "0xabc")]])])].

Definition frames : list json :=
  [fill_message "buy" "3200.00" "0.003";
   fill_message "sell" "3200.00" "0.003";
   fill_message "hold" "3200.00" "0.003";
   ticker_message; orders_message].

(** A decoder that knows the sample frames; any other text is
    undecodable. *)
Definition loads (text : string) : option json :=
  find (fun v => String.eqb (dumps v) text) frames.

Definition bytes_of (s : string) : list Byte.byte :=
  map byte_of_ascii (list_ascii_of_string s).

(** An encoder that, like [Uint(256)], refuses what is not an unsigned
    256-bit integer. *)
Definition encode (o : Order) (d : signing_domain_t) : result (list Byte.byte) :=
  let fits z := (0 <=? z) && (z <? 2 ^ 256) in
  if fits (limitPrice o) && fits (amount o) && fits (salt o)
     && fits (instrument o) && fits (timestamp o)
  then Ok (bytes_of (join "|" [name d; version d; chainId d; maker o;
                               if isBuy o then "1" else "0";
                               PyStr.str_of_Z (limitPrice o);
                               PyStr.str_of_Z (amount o);
                               PyStr.str_of_Z (salt o);
                               PyStr.str_of_Z (instrument o);
                               PyStr.str_of_Z (timestamp o)]))
  else Raise OverflowError.

(** A stand-in for a digest: the bytes in reverse. *)
Definition digest (b : list Byte.byte) : list Byte.byte := rev b.

(** A stand-in for a signer: it refuses an empty key. *)
Definition sign (h : list Byte.byte) (key : string) : result string :=
  if String.eqb key "" then Raise ValueError
  else Ok (PyStr.hex (h ++ bytes_of key)%list).

Definition lib : Lib := mkLib loads dumps encode digest sign.

(** A client with credentials and no connection yet. *)
Definition idle : client := new_client "k1" "0xW" "key" "secret" testnet.

(** A world in which nothing has happened and every call succeeds. *)
Definition calm : world := mkWorld [] [] 0%nat [] [] [] [].

(** The same with a script of faults, incoming frames, clock readings
    and random draws. *)
Definition scripted (f : list (option exn)) (i : list incoming)
  (ck rg : list Z) : world :=
  mkWorld [] [] 0%nat f i ck rg.

(** A client connected on connection 0. *)
Definition online : client := set_connection (Some 0%nat) idle.

Definition serving (f : list (option exn)) (i : list incoming)
  (ck rg : list Z) : world :=
  mkWorld [] [] 1%nat f i ck rg.



(** A sell order whose price and quantity, 1/128, scale to 7812.5. *)
Definition signed (c : client) (w : world) : result (Z * string * string) :=
  fst (sign_order lib 1 false (PyNum.PFloat 0x1p-7) (PyNum.PFloat 0x1p-7)
                  1700000000 (10 ^ 6) (10 ^ 6) (c, w)).

Definition signature_of (r : result (Z * string * string)) : string :=
  match r with
  | Ok (_, sg, _) => sg
  | Raise _ => EmptyString
  end.

Definition order_id_of (r : result (Z * string * string)) : string :=
  match r with
  | Ok (_, _, oid) => oid
  | Raise _ => EmptyString
  end.

End Demo.

(* ================================================================= *)
(** ** The other methods of [AevoClient] *)

Section MoreMethods.

Variable L : Lib.

(** [connect]: the connection object found in [self.connection] is
    replaced, not closed. *)
Definition connect : M unit :=
  c <- self ;;
  h <- ws_connect (ws_url c) ;;
  update (set_connection (Some h)) ;;
  log INFO (LogText "Connected to the WebSocket server.").

(** The public subscriptions that go through [send]. *)
Definition subscribe_tickers (asset : string) : M unit :=
  send L (json_dumps L (subscribe_message ("ticker:" ++ asset ++ ":OPTION"))).

Definition subscribe_markprice (asset : string) : M unit :=
  send L (json_dumps L (subscribe_message ("markprice:" ++ asset ++ ":OPTION"))).

Definition subscribe_trades (instrument_name : string) : M unit :=
  send L (json_dumps L (subscribe_message ("trades:" ++ instrument_name))).

Definition subscribe_index (asset : string) : M unit :=
  send L (json_dumps L (subscribe_message ("index:" ++ asset))).

(** [self.read_messages]: the class defines no attribute of this
    name. *)
Definition read_messages : M string := raise AttributeError.

Definition subscribe_orderbook (instrument_name : string) : M unit :=
  let channel := ("orderbook:" ++ instrument_name)%string in
  send L (json_dumps L (subscribe_message channel)) ;;
  catch
    (confirmation <- read_messages ;;
     confirmation_data <- loads L confirmation ;;
     op <- lift (Py.get confirmation_data "op" JNull) ;;
     ok <-
       (if Py.eq_str op "subscribed" then
          d <- lift (Py.get confirmation_data "data" (JList [])) ;;
          lift (Py.contains d channel)
        else ret false) ;;
     if ok then log INFO (LogStr "Successfully subscribed to" channel)
     else log ERROR (LogStr "Failed to subscribe to" channel))
    (fun e =>
       match e with
       | TimeoutError =>
           log ERROR (LogStr "Timeout while waiting for subscription confirmation for"
                             channel)
       | _ => raise e
       end).



Definition cancel_all_orders : M unit :=
  send L (json_dumps L (JDict [("op", JStr "cancel_all_orders");
                               ("data", JDict [])])).

(** [create_order_rest_json]; [instrument_id] is already an int. *)
Definition create_order_rest_json (instrument_id : Z) (is_buy : bool)
  (limit_price quantity : PyNum.num)
  (post_only reduce_only close_position : bool)
  (price_decimals amount_decimals : Z) (trigger stop : json)
  : M (json * string) :=
  timestamp0 <- time_now ;;
  '(salt0, signature, order_id) <-
     sign_order L instrument_id is_buy limit_price quantity timestamp0
                price_decimals (10 ^ 6) ;;
  c <- self ;;
  lp <- lift (fixed_point limit_price price_decimals is_buy) ;;
  am <- lift (fixed_point quantity amount_decimals is_buy) ;;
  ret (JDict ([("maker", JStr (wallet_address c));
               ("is_buy", JBool is_buy);
               ("instrument", JInt instrument_id);
               ("limit_price", JStr (PyStr.str_of_Z lp));
               ("amount", JStr (PyStr.str_of_Z am));
               ("salt", JStr (PyStr.str_of_Z salt0));
               ("signature", JStr signature);
               ("post_only", JBool post_only);
               ("reduce_only", JBool reduce_only);
               ("close_position", JBool close_position);
               ("timestamp", JInt timestamp0)]
              ++ (if Py.truthy trigger && Py.truthy stop
                  then [("trigger", trigger); ("stop", stop)] else []))%list,
       order_id).



End MoreMethods.

(* ================================================================= *)
(** ** The other receive loops of [AevoClient] *)

Section MoreLoops.

Variable L : Lib.

Fixpoint log_tickers (ticker_data : list json) : M unit :=
  match ticker_data with
  | [] => ret tt
  | ticker :: rest =>
      log INFO (LogJson "Ticker received" ticker) ;;
      log_tickers rest
  end.

(** The [try] block of one turn of the loop of [monitor_tickers]. *)
Definition monitor_frame : M unit :=
  response <- connection_recv 30 ;;
  message <- loads L response ;;
  channel <- lift (Py.get message "channel" JNull) ;;
  is_ticker <-
    (if Py.truthy channel then lift (Py.startswith channel "ticker:")
     else ret false) ;;
  if is_ticker then
    d <- lift (Py.get message "data" (JDict [])) ;;
    ticker_data <- lift (Py.get d "tickers" (JList [])) ;;
    items <- lift (Py.iterate ticker_data) ;;
    log_tickers items
  else
    has_id <- lift (Py.contains message "id") ;;
    ok <-
      (if has_id then
         d <- lift (Py.get message "data" (JDict [])) ;;
         s <- lift (Py.get d "success" JNull) ;;
         ret (Py.truthy s)
       else ret false) ;;
    if ok then log INFO (LogText "Ticker subscription confirmed.")
    else log WARNING (LogJson "Received a message that is no ticker" message).

(** The [except] clauses of the loop of [monitor_tickers]. *)
Definition monitor_error (e : exn) : M unit :=
  match e with
  | TimeoutError =>
      log ERROR (LogText "Timed out while waiting for the server.")
  | JSONDecodeError =>
      log ERROR (LogExn "Error while parsing the JSON response" e)
  | _ =>
      log ERROR (LogExn "Error while subscribing to tickers" e)
  end.

(** One turn of the [while True] loop of [monitor_tickers]. *)
Definition monitor_turn : M unit := catch monitor_frame monitor_error.

(** The first [turns] turns of [monitor_tickers]. *)
Fixpoint monitor_tickers (turns : nat) : M unit :=
  match turns with
  | O => ret tt
  | S n => monitor_turn ;; monitor_tickers n
  end.

(** [handle_message]: the call [self.handle_fills_message(message)]
    lacks the two other arguments that the method requires, which is a
    [TypeError] before the method starts. *)
Definition handle_message (message : json) : M unit :=
  channel <- lift (Py.get message "channel" JNull) ;;
  is_ticker <-
    (if Py.truthy channel then lift (Py.startswith channel "ticker:")
     else ret false) ;;
  if is_ticker then handle_ticker_message message
  else if Py.eq_str channel "orders" then handle_order_message message
  else if Py.eq_str channel "fills" then raise TypeError
  else ret tt.

(** One turn of the loop of [start_message_dispatcher]: [true] when the
    loop goes on, [false] when it ends ([break]). *)
Definition dispatcher_turn : M bool :=
  catch
    (message <- connection_recv 20 ;;
     decoded <- loads L message ;;
     handle_message decoded ;;
     ret true)
    (fun e =>
       match e with
       | TimeoutError =>
           log ERROR (LogText "Timed out while waiting for the server.") ;;
           ret true
       | ConnectionClosedError =>
           log ERROR (LogText "WebSocket connection closed.") ;;
           ret false
       | JSONDecodeError =>
           log ERROR (LogExn "Error while parsing the JSON response" e) ;;
           ret true
       | _ =>
           log ERROR (LogExn "Error while handling the message" e) ;;
           ret true
       end).

(** [start_message_dispatcher], cut after [turns] turns. *)
Fixpoint start_message_dispatcher (turns : nat) : M unit :=
  match turns with
  | O => ret tt
  | S n =>
      go_on <- dispatcher_turn ;;
      if go_on then start_message_dispatcher n else ret tt
  end.

(** [start]: the call [self.message_handler()] lacks the two arguments
    that the method requires. *)
Definition start (trade_asset : string) : M unit :=
  open_connection L ;;
  subscribe_orders L ;;
  subscribe_ticker L (trade_asset ++ "-PERP") ;;
  raise TypeError.

End MoreLoops.

(* ================================================================= *)
(** ** The helpers of the trading script [aevo_trade.py] *)

Module Trade.

(** The pieces of [s.split(sep)] for a separator of one character. *)
Fixpoint split_from (sep : ascii) (acc s : string) : list string :=
  match s with
  | EmptyString => [acc]
  | String c r =>
      if Ascii.eqb c sep then acc :: split_from sep EmptyString r
      else split_from sep (acc ++ String c EmptyString) r
  end.

Definition split (sep : ascii) (s : string) : list string :=
  split_from sep EmptyString s.

(** [get_value_safe(data, key, default)]: the value and whether the
    error message was printed. *)
Definition get_value_safe (data : json) (key : string) (default : json)
  : result json * bool :=
  match Py.get data key default with
  | Ok v => (Ok v, false)
  | Raise TypeError | Raise AttributeError => (Ok default, true)
  | Raise e => (Raise e, false)
  end.

(** [count_decimal_places(number)] for a number whose [str] is
    [number_str]: a [str] is its own [str], the [str] of an [int] is
    [PyStr.str_of_Z]. *)
Definition count_decimal_places (number_str : string) : result Z :=
  if Py.is_substring "." number_str then
    match split "." number_str with
    | _ :: digits :: _ => Ok (Z.of_nat (String.length digits))
    | _ => Raise (OtherException "IndexError")
    end
  else Ok 0.

End Trade.

(* ================================================================= *)
(** ** More observations *)

(** The calls that a loop which only listens makes: receiving and
    logging. *)
Definition is_listening (e : event) : bool :=
  match e with
  | ERecv _ _ _ | ELog _ _ => true
  | _ => false
  end.

(** A computation that only listens: it leaves the client as it is,
    and of the world it only reads the incoming frames and writes to the
    log. *)
Definition listens {A} (m : M A) : Prop :=
  forall c w, exists evs,
    fst (snd (m (c, w))) = c /\
    trace (snd (snd (m (c, w)))) = (trace w ++ evs)%list /\
    forallb is_listening evs = true /\
    faults (snd (snd (m (c, w)))) = faults w /\
    fresh (snd (snd (m (c, w)))) = fresh w.

(** The list of known orders is extended at its end. *)
Definition orders_extended (c c' : client) : Prop :=
  exists l, orders c' = (orders c ++ l)%list.

(** The window of latest tickers stays within its bound. *)
Definition window_bounded (c c' : client) : Prop :=
  (List.length (latest_tickers c) <= 100)%nat ->
  (List.length (latest_tickers c') <= 100)%nat.

(** A channel value that [message_handler] passes over: nothing, an
    empty value, or a string that names none of the three handled
    channels. *)
Definition passed_over (channel : json) : bool :=
  match channel with
  | JStr s =>
      negb (PyStr.startswith "ticker:" s) && negb (String.eqb s "orders")
      && negb (String.eqb s "fills")
  | _ => negb (Py.truthy channel)
  end.

(** A string without the character [sep]. *)
Fixpoint free_of (sep : ascii) (s : string) : bool :=
  match s with
  | EmptyString => true
  | String c r => negb (Ascii.eqb c sep) && free_of sep r
  end.

(** The four public subscriptions that go through [send], each with
    the channel it names. *)
Definition public_subscriptions (L : Lib) (a : string)
  : list (M unit * string) :=
  [(subscribe_tickers L a, "ticker:" ++ a ++ ":OPTION");
   (subscribe_markprice L a, "markprice:" ++ a ++ ":OPTION");
   (subscribe_trades L a, "trades:" ++ a);
   (subscribe_index L a, "index:" ++ a)]%string.

(* ================================================================= *)
(** ** More sample data *)

Module Sample.

(** The confirmation of a subscription, as the exchange sends it. *)
Definition confirmation : json :=
  JDict [("id", JInt 1); ("data", JDict [("success", JBool true)])].

(** The libraries of [Demo] with a decoder that also knows the
    confirmation. *)
Definition loads (text : string) : option json :=
  if String.eqb text (Demo.dumps confirmation) then Some confirmation
  else Demo.loads text.

Definition lib : Lib :=
  mkLib loads Demo.dumps Demo.encode Demo.digest Demo.sign.

(** A connected client with three registered channels. *)
Definition subscribed : client :=
  set_subscribed_channels ["orders"; "ticker:ETH-PERP"; "fills"] Demo.online.

(** A sell order of 1/128 at 1/128 built on a connected client. *)
Definition order_state : state :=
  (Demo.online, Demo.serving [] [] [1700000000] [42]).

Definition order_json : result (json * string) * state :=
  create_order_ws_json Demo.lib 1 false (PyNum.PFloat 0x1p-7)
                       (PyNum.PFloat 0x1p-7) true true (10 ^ 6) (10 ^ 6)
                       order_state.

Definition payload_of (r : result (json * string)) : list (string * json) :=
  match r with
  | Ok (JDict d, _) => d
  | _ => []
  end.

Definition id_of (r : result (json * string)) : string :=
  match r with
  | Ok (_, oid) => oid
  | Raise _ => EmptyString
  end.

(** The same order built on a client without connection. *)
Definition offline_state : state :=
  (Demo.idle, Demo.scripted [] [] [1700000000] [42]).

Definition offline_json : result (json * string) * state :=
  create_order_ws_json Demo.lib 1 false (PyNum.PFloat 0x1p-7)
                       (PyNum.PFloat 0x1p-7) true true (10 ^ 6) (10 ^ 6)
                       offline_state.

(** A fill notification that lacks all fields but the order id. *)
Definition bare_fill : json :=
  JDict [("channel", JStr "fills");
         ("data", JDict [("fill", JDict [("order_id", JStr "0xabc")])])].

End Sample.


(** The conversions that [handle_fills_message] makes in its second
    [try] block, in their order. *)
Definition convert_fill (price_str filled_str side instrument_id : json)
  : result (float * float * bool * Z) :=
  rbind (Py.to_float price_str) (fun filled_price =>
  rbind (Py.to_float filled_str) (fun filled_quantity =>
  rbind (Py.lower side) (fun lowered =>
  rbind (Py.to_int instrument_id) (fun instrument =>
  Ok (filled_price, filled_quantity, String.eqb lowered "buy", instrument))))).

(* ================================================================= *)
(** * Properties *)

(** ** The scripts leave the trace alone *)

Lemma next_fault_trace w : trace (snd (next_fault w)) = trace w.
Proof. unfold next_fault. destruct (faults w); reflexivity. Qed.

Lemma next_incoming_trace w : trace (snd (next_incoming w)) = trace w.
Proof. unfold next_incoming. destruct (inbox w); reflexivity. Qed.

Lemma next_clock_trace w : trace (snd (next_clock w)) = trace w.
Proof. unfold next_clock. destruct (clock w); reflexivity. Qed.

Lemma next_random_trace w : trace (snd (next_random w)) = trace w.
Proof. unfold next_random. destruct (rng w); reflexivity. Qed.

(* ================================================================= *)
(** ** Frame rules for the monad and for the calls into the world *)

Section Frame.

Variable RC : client -> client -> Prop.
Variable P : client -> event -> Prop.
Context {F : Framing RC P}.

Lemma frame_refl s : frame RC P s s.
Proof.
  split; [apply RC_refl|]. exists []. rewrite app_nil_r. auto.
Qed.

Lemma frame_trans a b c : frame RC P a b -> frame RC P b c -> frame RC P a c.
Proof.
  unfold frame. intros [R1 [e1 [T1 F1]]] [R2 [e2 [T2 F2]]].
  split; [eapply RC_trans; eassumption|].
  exists (e1 ++ e2)%list. split.
  - rewrite T2, T1, app_assoc. reflexivity.
  - apply Forall_app. split; [assumption|].
    eapply Forall_impl; [|exact F2]. intros e. apply P_mono. assumption.
Qed.

Lemma frame_emit c w e : P c e -> frame RC P (c, w) (c, emit e w).
Proof.
  intros H. split; [apply RC_refl|]. exists [e]. split; [reflexivity|].
  constructor; [exact H|constructor].
Qed.

Lemma frame_world c w w' e :
  trace w' = trace w -> P c e -> frame RC P (c, w) (c, emit e w').
Proof.
  intros T H. split; [apply RC_refl|]. exists [e]. split.
  - cbn. rewrite T. reflexivity.
  - constructor; [exact H|constructor].
Qed.

Lemma frame_silent c w w' : trace w' = trace w -> frame RC P (c, w) (c, w').
Proof.
  intros T. split; [apply RC_refl|]. exists []. cbn.
  rewrite T, app_nil_r. auto.
Qed.

Lemma framed_at_bind {A B} (m : M A) (k : A -> M B) s :
  framed_at RC P m s ->
  (forall a, fst (m s) = Ok a -> framed_at RC P (k a) (snd (m s))) ->
  framed_at RC P (bind m k) s.
Proof.
  unfold framed_at, bind. intros Hm Hk.
  destruct (m s) as [[a|e] s1] eqn:E; cbn in *.
  - eapply frame_trans; [exact Hm|]. apply Hk. reflexivity.
  - exact Hm.
Qed.

Lemma framed_bind {A B} (m : M A) (k : A -> M B) :
  framed RC P m -> (forall a, framed RC P (k a)) -> framed RC P (bind m k).
Proof.
  intros Hm Hk s. apply framed_at_bind; [apply Hm|]. intros a _. apply Hk.
Qed.

Lemma framed_at_catch {A} (m : M A) (h : exn -> M A) s :
  framed_at RC P m s ->
  (forall e, fst (m s) = Raise e -> framed_at RC P (h e) (snd (m s))) ->
  framed_at RC P (catch m h) s.
Proof.
  unfold framed_at, catch. intros Hm Hh.
  destruct (m s) as [[a|e] s1] eqn:E; cbn in *.
  - exact Hm.
  - eapply frame_trans; [exact Hm|]. apply Hh. reflexivity.
Qed.

Lemma framed_catch {A} (m : M A) (h : exn -> M A) :
  framed RC P m -> (forall e, framed RC P (h e)) -> framed RC P (catch m h).
Proof.
  intros Hm Hh s. apply framed_at_catch; [apply Hm|]. intros e _. apply Hh.
Qed.

Lemma framed_finally {A} (m : M A) (f : M unit) :
  framed RC P m -> framed RC P f -> framed RC P (finally m f).
Proof.
  intros Hm Hf s. unfold framed_at, finally.
  specialize (Hm s). unfold framed_at in Hm.
  destruct (m s) as [r s1]. specialize (Hf s1). unfold framed_at in Hf.
  destruct (f s1) as [[u|e] s2]; cbn in *; eapply frame_trans; eassumption.
Qed.

Lemma framed_ret {A} (a : A) : framed RC P (ret a).
Proof. intros s. apply frame_refl. Qed.

Lemma framed_raise {A} (e : exn) : framed RC P (@raise A e).
Proof. intros s. apply frame_refl. Qed.

Lemma framed_lift {A} (r : result A) : framed RC P (lift r).
Proof. intros s. apply frame_refl. Qed.

Lemma framed_self : framed RC P self.
Proof. intros s. apply frame_refl. Qed.

Lemma framed_closed_attr h : framed RC P (closed_attr h).
Proof. intros s. apply frame_refl. Qed.

Lemma framed_bind_self {A} (k : client -> M A) :
  (forall s, framed_at RC P (k (fst s)) s) -> framed RC P (bind self k).
Proof.
  intros H s. apply framed_at_bind; [apply framed_self|].
  intros a E. cbn in *. inversion E; subst. apply H.
Qed.

Lemma framed_record e : (forall c, P c e) -> framed RC P (record e).
Proof. intros H [c w]. apply frame_emit, H. Qed.

Lemma framed_log lvl m : framed RC P (log lvl m).
Proof. apply framed_record. intros c. apply P_quiet. exact I. Qed.

Lemma framed_sleep n : framed RC P (sleep n).
Proof. apply framed_record. intros c. apply P_quiet. exact I. Qed.

Lemma framed_outside {A} (f : world -> A * world) :
  (forall w, trace (snd (f w)) = trace w) -> framed RC P (outside f).
Proof.
  intros H [c w]. unfold framed_at, outside. cbn. specialize (H w).
  destruct (f w) as [a w1]. cbn in *. apply frame_silent. exact H.
Qed.

Lemma framed_time_now : framed RC P time_now.
Proof. apply framed_outside, next_clock_trace. Qed.

Lemma framed_randint hi : framed RC P (randint hi).
Proof.
  apply framed_bind; [apply framed_outside, next_random_trace|].
  intros a. apply framed_ret.
Qed.

Lemma framed_ws_connect url : framed RC P (ws_connect url).
Proof.
  intros [c w]. unfold framed_at, ws_connect. cbn.
  pose proof (next_fault_trace w) as T.
  destruct (next_fault w) as [[e|] w1]; cbn in *;
    (apply frame_world; [exact T|apply P_quiet; exact I]).
Qed.

Lemma framed_ws_close h : framed RC P (ws_close h).
Proof.
  intros [c w]. unfold framed_at, ws_close. cbn.
  destruct (is_closed h w).
  - cbn. apply frame_emit, P_quiet. exact I.
  - pose proof (next_fault_trace w) as T.
    destruct (next_fault w) as [[e|] w1]; cbn in *;
      (apply frame_world; [exact T|apply P_quiet; exact I]).
Qed.

Lemma framed_ws_recv h t : framed RC P (ws_recv h t).
Proof.
  intros [c w]. unfold framed_at, ws_recv. cbn.
  destruct (is_closed h w).
  - cbn. apply frame_emit, P_quiet. exact I.
  - pose proof (next_incoming_trace w) as T.
    destruct (next_incoming w) as [[text| |e] w1]; cbn in *;
      try (apply frame_world; [exact T|apply P_quiet; exact I]).
    destruct (is_ConnectionClosed e);
      (apply frame_world; [exact T|apply P_quiet; exact I]).
Qed.

Lemma framed_save data filename : framed RC P (save_to_file data filename).
Proof.
  intros [c w]. unfold framed_at, save_to_file. cbn.
  pose proof (next_fault_trace w) as T.
  destruct (next_fault w) as [[e|] w1]; cbn in *;
    (apply frame_world; [exact T|apply P_quiet; exact I]).
Qed.

Lemma framed_at_ws_send h d s :
  (forall r, P (fst s) (ESend h d r)) -> framed_at RC P (ws_send h d) s.
Proof.
  destruct s as [c w]. intros H. unfold framed_at, ws_send. cbn in *.
  pose proof (next_fault_trace w) as T.
  destruct (next_fault w) as [f w1]. cbn in *.
  destruct (is_closed h w);
    [destruct f as [e|]; [destruct (is_ConnectionClosed e) eqn:C|]
    |destruct f as [e|]];
    cbn; try rewrite C; try (destruct (is_ConnectionClosed e));
    (apply frame_world; [exact T|apply H]).
Qed.

Lemma framed_at_connection_send d s :
  (forall h r, P (fst s) (ESend h d r)) ->
  framed_at RC P (connection_send d) s.
Proof.
  intros H. unfold connection_send. apply framed_at_bind; [apply framed_self|].
  intros a E. cbn in *. inversion E; subst.
  destruct (connection (fst s)); [apply framed_at_ws_send, H|apply framed_raise].
Qed.

Lemma framed_update f : (forall c, RC c (f c)) -> framed RC P (update f).
Proof.
  intros H [c w]. unfold framed_at, update. cbn. split; [apply H|].
  exists []. cbn. rewrite app_nil_r. auto.
Qed.

End Frame.

Create HintDb framing.

(** Decompose a computation along its binds, handlers and branches and
    close the leaves with the frame rules and the lemmas of the
    database. *)
Ltac framing :=
  repeat first
    [ apply framed_ret | apply framed_raise | apply framed_lift
    | apply framed_self | apply framed_closed_attr | apply framed_log
    | apply framed_sleep | apply framed_time_now | apply framed_randint
    | apply framed_ws_connect | apply framed_ws_close | apply framed_ws_recv
    | apply framed_save
    | assumption
    | solve [auto 2 with framing nocore]
    | match goal with |- Framing _ _ => exact _ end
    | match goal with |- forall _, _ => intro end
    | apply framed_bind
    | apply framed_catch
    | apply framed_finally
    | match goal with
      | |- framed _ _ (match ?x with _ => _ end) => destruct x
      | |- framed _ _ (if ?x then _ else _) => destruct x
      end ].

(* ================================================================= *)
(** ** Credentials and registry: what each method leaves alone *)

#[export] Instance unchanged_framing : Framing unchanged anything.
Proof.
  split.
  - intros c. split; reflexivity.
  - intros a b c [C1 E1] [C2 E2]. split; congruence.
  - intros; exact I.
  - intros; exact I.
Qed.

#[export] Instance grows_framing : Framing grows anything.
Proof.
  split.
  - intros c. split; [reflexivity|]. exists []. rewrite app_nil_r. reflexivity.
  - intros a b c [C1 [l1 E1]] [C2 [l2 E2]]. split; [congruence|].
    exists (l1 ++ l2)%list. rewrite E2, E1, app_assoc. reflexivity.
  - intros; exact I.
  - intros; exact I.
Qed.

Lemma unchanged_grows c c' : unchanged c c' -> grows c c'.
Proof.
  intros [C E]. split; [exact C|]. exists []. rewrite app_nil_r. exact E.
Qed.

Lemma still_grows {A} (m : M A) :
  framed unchanged anything m -> framed grows anything m.
Proof.
  intros H s. destruct (H s) as [U [evs [T Fa]]]. split.
  - apply unchanged_grows, U.
  - exists evs. split; [exact T|exact Fa].
Qed.

Section Still.

Variable L : Lib.

Lemma still_update f :
  (forall c, credentials (f c) = credentials c /\
             subscribed_channels (f c) = subscribed_channels c) ->
  framed unchanged anything (update f).
Proof. intros H. apply framed_update; try exact _. exact H. Qed.

Lemma still_set_connection o :
  framed unchanged anything (update (set_connection o)).
Proof. apply still_update. intros c. split; reflexivity. Qed.

Lemma still_connection_send d : framed unchanged anything (connection_send d).
Proof.
  intros s. apply framed_at_connection_send; try exact _. intros; exact I.
Qed.

#[local] Hint Resolve still_set_connection still_connection_send : framing.

Lemma still_connection_recv t : framed unchanged anything (connection_recv t).
Proof. unfold connection_recv. framing. Qed.

Lemma still_loads text : framed unchanged anything (loads L text).
Proof. unfold loads. framing. Qed.

Lemma still_authenticate : framed unchanged anything (authenticate L).
Proof. unfold authenticate. framing. Qed.

#[local] Hint Resolve still_connection_recv still_loads still_authenticate
  : framing.

Lemma still_open_connection : framed unchanged anything (open_connection L).
Proof. unfold open_connection, open_attempt, open_failed. framing. Qed.

Lemma still_close_connection : framed unchanged anything close_connection.
Proof. unfold close_connection. framing. Qed.

Lemma still_resubscribe_loop l :
  framed unchanged anything (resubscribe_loop L l).
Proof. induction l; cbn [resubscribe_loop]; framing. Qed.

#[local] Hint Resolve still_open_connection still_close_connection
  still_resubscribe_loop : framing.

Lemma still_resubscribe_channels :
  framed unchanged anything (resubscribe_channels L).
Proof. unfold resubscribe_channels. framing. Qed.

#[local] Hint Resolve still_resubscribe_channels : framing.

Lemma still_reconnect : framed unchanged anything (reconnect L).
Proof. unfold reconnect. framing. Qed.

#[local] Hint Resolve still_reconnect : framing.

Lemma still_send data : framed unchanged anything (send L data).
Proof. unfold send. framing. Qed.

#[local] Hint Resolve still_send : framing.

Lemma still_sign_order i b p q t pd ad :
  framed unchanged anything (sign_order L i b p q t pd ad).
Proof. unfold sign_order. framing. Qed.

#[local] Hint Resolve still_sign_order : framing.

Lemma still_create_order i b p q po id mmp :
  framed unchanged anything (create_order L i b p q po id mmp).
Proof. unfold create_order, create_order_ws_json. framing. Qed.

#[local] Hint Resolve still_create_order : framing.

Lemma still_place_opposite_order i b p q :
  framed unchanged anything (place_opposite_order L i b p q).
Proof. unfold place_opposite_order. framing. Qed.

#[local] Hint Resolve still_place_opposite_order : framing.

Lemma still_handle_fills_message msg gi pd :
  framed unchanged anything (handle_fills_message L msg gi pd).
Proof. unfold handle_fills_message. framing. Qed.

Lemma still_append_orders l : framed unchanged anything (append_orders l).
Proof.
  induction l; cbn [append_orders]; framing.
  apply still_update. intros c. split; reflexivity.
Qed.

#[local] Hint Resolve still_handle_fills_message still_append_orders
  : framing.

Lemma still_handle_order_message msg :
  framed unchanged anything (handle_order_message msg).
Proof. unfold handle_order_message. framing. Qed.

Lemma still_handle_ticker_message msg :
  framed unchanged anything (handle_ticker_message msg).
Proof.
  unfold handle_ticker_message. framing.
  apply still_update. intros c. split; reflexivity.
Qed.

#[local] Hint Resolve still_handle_order_message still_handle_ticker_message
  : framing.

Lemma still_message_handler_turn gi pd :
  framed unchanged anything (message_handler_turn L gi pd).
Proof. unfold message_handler_turn, dispatch_frame, on_error. framing. Qed.

Lemma still_await_confirmation ch :
  framed unchanged anything (await_confirmation L ch).
Proof. unfold await_confirmation. framing. Qed.

(** *** The registry only grows *)

Lemma grows_register ch :
  framed grows anything
    (update (fun c => set_subscribed_channels (subscribed_channels c ++ [ch]) c)).
Proof.
  apply framed_update; try exact _. intros c. split; [reflexivity|].
  exists [ch]. reflexivity.
Qed.

#[local] Hint Resolve still_message_handler_turn still_await_confirmation
  grows_register still_grows : framing.

Lemma grows_subscribe sub : framed grows anything (subscribe L sub).
Proof.
  destruct sub; cbn [subscribe];
    unfold subscribe_ticker, subscribe_orders, subscribe_fills,
      send_and_register; framing.
Qed.

#[local] Hint Resolve grows_subscribe : framing.

Lemma grows_run_call k : framed grows anything (run_call L k).
Proof. destruct k; cbn [run_call]; framing. Qed.

(** Along any sequence of calls the credentials stay and the registry
    of subscribed channels is only extended at its end. *)
Lemma run_session_grows calls s :
  grows (fst s) (fst (run_session L calls s)).
Proof.
  revert s. induction calls as [|k rest IH]; intros s; cbn [run_session].
  - apply RC_refl.
  - eapply RC_trans; [|apply IH]. apply (grows_run_call k s).
Qed.

End Still.

(* ================================================================= *)
(** ** What a reconnect hands to the transport *)

Lemma unchanged_auth_message c c' :
  unchanged c c' -> auth_message c' = auth_message c.
Proof.
  intros [H _]. unfold credentials in H. inversion H. unfold auth_message.
  congruence.
Qed.

Section Housekeeping.

Variable L : Lib.

#[export] Instance housekeeping_framing : Framing unchanged (housekeeping L).
Proof.
  split.
  - intros c. split; reflexivity.
  - intros a b c [C1 E1] [C2 E2]. split; congruence.
  - intros c c' e U H. destruct e; cbn in *; try exact I.
    rewrite (unchanged_auth_message U) in H. destruct U as [_ U].
    rewrite U in H. exact H.
  - intros c e. destruct e; cbn; tauto.
Qed.

Lemma tidy_set_connection o :
  framed unchanged (housekeeping L) (update (set_connection o)).
Proof.
  apply framed_update; try exact _. intros c. split; reflexivity.
Qed.

#[local] Hint Resolve tidy_set_connection : framing.

Lemma tidy_authenticate : framed unchanged (housekeeping L) (authenticate L).
Proof.
  unfold authenticate. apply framed_bind; try exact _.
  - apply framed_log; exact _.
  - intros _. apply framed_bind_self; try exact _. intros s.
    apply framed_at_bind; try exact _.
    + apply framed_at_connection_send; try exact _. intros h r. left.
      reflexivity.
    + intros _ _. apply framed_sleep; exact _.
Qed.

#[local] Hint Resolve tidy_authenticate : framing.

Lemma tidy_open_connection :
  framed unchanged (housekeeping L) (open_connection L).
Proof. unfold open_connection, open_attempt, open_failed. framing. Qed.

Lemma tidy_close_connection :
  framed unchanged (housekeeping L) close_connection.
Proof. unfold close_connection. framing. Qed.

Lemma tidy_resubscribe_loop l s :
  incl l (subscribed_channels (fst s)) ->
  framed_at unchanged (housekeeping L) (resubscribe_loop L l) s.
Proof.
  revert s. induction l as [|ch rest IH]; intros s Hin; cbn [resubscribe_loop].
  - apply framed_ret; exact _.
  - assert (Hs : framed_at unchanged (housekeeping L)
                   (connection_send (json_dumps L (subscribe_message ch))) s).
    { apply framed_at_connection_send; try exact _. intros h r. right.
      exists ch. split; [apply Hin; left|]; reflexivity. }
    apply framed_at_bind; try exact _; [exact Hs|]. intros _ _.
    apply framed_at_bind; try exact _; [apply framed_log; exact _|].
    intros _ _.
    apply IH. destruct Hs as [[_ Hc] _]. unfold log, record. cbn [fst snd].
    rewrite Hc. intros x Hx. apply Hin. right. exact Hx.
Qed.

Lemma tidy_resubscribe_channels :
  framed unchanged (housekeeping L) (resubscribe_channels L).
Proof.
  unfold resubscribe_channels. apply framed_bind_self; try exact _.
  intros s. apply tidy_resubscribe_loop. apply incl_refl.
Qed.

#[local] Hint Resolve tidy_open_connection tidy_close_connection
  tidy_resubscribe_channels : framing.

(** Whatever the transport does, a reconnect hands to it nothing but
    the authentication frame and subscribe frames of registered
    channels, and it changes neither the credentials nor the registry. *)
Lemma tidy_reconnect : framed unchanged (housekeeping L) (reconnect L).
Proof. unfold reconnect. framing. Qed.

End Housekeeping.

(* ================================================================= *)
(** ** Calls that never raise *)

Lemma returns_ret {A} (a : A) : returns (ret a).
Proof. intros s. eexists _, _. reflexivity. Qed.

Lemma returns_bind {A B} (m : M A) (k : A -> M B) :
  returns m -> (forall a, returns (k a)) -> returns (bind m k).
Proof.
  intros Hm Hk s. destruct (Hm s) as [a [s1 E]]. unfold bind. rewrite E.
  apply Hk.
Qed.

Lemma returns_catch {A} (m : M A) (h : exn -> M A) :
  (forall e, returns (h e)) -> returns (catch m h).
Proof.
  intros Hh s. unfold catch. destruct (m s) as [[a|e] s1].
  - eexists _, _. reflexivity.
  - apply Hh.
Qed.

Lemma returns_finally {A} (m : M A) (f : M unit) :
  returns m -> returns f -> returns (finally m f).
Proof.
  intros Hm Hf s. unfold finally. destruct (Hm s) as [a [s1 E]]. rewrite E.
  destruct (Hf s1) as [u [s2 E2]]. rewrite E2. eexists _, _. reflexivity.
Qed.

Lemma returns_record e : returns (record e).
Proof. intros s. eexists _, _. reflexivity. Qed.

Lemma returns_self : returns self.
Proof. intros s. eexists _, _. reflexivity. Qed.

Lemma returns_update f : returns (update f).
Proof. intros s. eexists _, _. reflexivity. Qed.

Lemma returns_closed_attr h : returns (closed_attr h).
Proof. intros s. eexists _, _. reflexivity. Qed.

Lemma returns_log lvl m : returns (log lvl m).
Proof. apply returns_record. Qed.

Lemma returns_sleep n : returns (sleep n).
Proof. apply returns_record. Qed.

Create HintDb returning.

Ltac returning :=
  repeat first
    [ apply returns_ret | apply returns_self | apply returns_update
    | apply returns_closed_attr | apply returns_log | apply returns_sleep
    | solve [auto 1 with returning nocore]
    | match goal with |- forall _, _ => intro end
    | apply returns_bind | apply returns_catch | apply returns_finally
    | match goal with
      | |- returns (match ?x with _ => _ end) => destruct x
      | |- returns (if ?x then _ else _) => destruct x
      end ].

Lemma close_connection_returns : returns close_connection.
Proof. unfold close_connection. returning. Qed.

Lemma open_connection_returns L : returns (open_connection L).
Proof. unfold open_connection, open_failed. returning. Qed.

#[local] Hint Resolve close_connection_returns open_connection_returns
  : returning.

Lemma reconnect_returns L : returns (reconnect L).
Proof. unfold reconnect. returning. Qed.

#[local] Hint Resolve reconnect_returns : returning.

Lemma on_error_returns L e : returns (on_error L e).
Proof. unfold on_error. returning. Qed.

#[local] Hint Resolve on_error_returns : returning.

Lemma message_handler_turn_returns L gi pd :
  returns (message_handler_turn L gi pd).
Proof. unfold message_handler_turn. returning. Qed.

Lemma place_opposite_order_returns L i b p q :
  returns (place_opposite_order L i b p q).
Proof. unfold place_opposite_order. returning. Qed.

(** A call that returns nothing returns [tt]. *)
Lemma returns_unit (m : M unit) s :
  returns m -> exists s', m s = (Ok tt, s').
Proof. intros H. destruct (H s) as [[] [s' E]]. exists s'. exact E. Qed.

(* ================================================================= *)
(** ** Running a method step by step *)

Ltac run :=
  unfold connection_send, connection_recv, log, sleep, time_now, randint;
  unfold bind, catch, finally, ret, raise, lift, self, update, outside,
    record, closed_attr, ws_connect, ws_close, ws_send, ws_recv,
    save_to_file, is_closed, next_fault, next_incoming, next_clock,
    next_random, take_handle, emit, mark_closed;
  cbn.

Ltac norm_app := repeat rewrite <- app_assoc; cbn [app].

Lemma fresh_not_closed cl fr :
  forallb (fun h => (h <? fr)%nat) cl = true -> existsb (Nat.eqb fr) cl = false.
Proof.
  induction cl as [|h r IH]; cbn [forallb existsb]; [reflexivity|]. intros H.
  apply andb_prop in H. destruct H as [H1 H2]. rewrite (IH H2), orb_false_r.
  apply Nat.ltb_lt in H1. apply Nat.eqb_neq. lia.
Qed.

(* ================================================================= *)
(** ** A reconnect on a transport that works *)

Lemma resubscribe_loop_healthy L c tr cl fr inb ck rg h chans :
  connection c = Some h -> existsb (Nat.eqb h) cl = false ->
  resubscribe_loop L chans (c, mkWorld tr cl fr [] inb ck rg) =
  (Ok tt, (c, mkWorld (tr ++ replay L h chans) cl fr [] inb ck rg)).
Proof.
  intros Hc Hcl. revert tr. induction chans as [|ch rest IH]; intros tr.
  - cbn. rewrite app_nil_r. reflexivity.
  - cbn [resubscribe_loop]. unfold bind at 1.
    unfold connection_send, bind, self, ws_send, log, record.
    cbn. rewrite Hc. cbn. rewrite Hcl. cbn. unfold emit. cbn.
    rewrite IH. norm_app. reflexivity.
Qed.

(** With no fault pending, a reconnect closes the connection it finds,
    waits, opens a new one, authenticates and replays the registry, in
    this order. *)
Lemma reconnect_healthy L c w :
  faults w = [] -> wf_state (c, w) = true ->
  reconnect L (c, w) =
  (Ok tt,
   (set_connection (Some (fresh w)) c,
    mkWorld (trace w ++ reopening L c w
               ++ replay L (fresh w) (subscribed_channels c))
            (closed_after c w) (S (fresh w)) [] (inbox w) (clock w) (rng w))).
Proof.
  destruct w as [tr cl fr fl inb ck rg].
  destruct c as [sk wa ak asec conn ords tks ltk chans en].
  unfold wf_state, wf_world.
  cbn [fst snd closed fresh connection faults trace inbox clock rng
       subscribed_channels].
  intros -> Hwf.
  apply andb_prop in Hwf. destruct Hwf as [Hcl Hconn].
  pose proof (fresh_not_closed _ _ Hcl) as Hfr.
  unfold reconnect, close_connection, open_connection, open_attempt,
    open_failed, authenticate, resubscribe_channels, reopening, closing,
    stale_close, authentication, closed_after.
  assert (Hre : forall tr' cl' c',
             connection c' = Some fr -> existsb (Nat.eqb fr) cl' = false ->
             resubscribe_loop L chans (c', mkWorld tr' cl' (S fr) [] inb ck rg) =
             (Ok tt, (c', mkWorld (tr' ++ replay L fr chans) cl' (S fr) []
                                  inb ck rg))).
  { intros. apply resubscribe_loop_healthy; assumption. }
  destruct conn as [h|].
  - apply Nat.ltb_lt in Hconn.
    assert (Hne : (fr =? h)%nat = false) by (apply Nat.eqb_neq; lia).
    run. destruct (existsb (Nat.eqb h) cl) eqn:Hh; cbn.
    + rewrite Hh. cbn. destruct (nonempty ak && nonempty wa); cbn;
        rewrite ?Hfr; cbn; unfold emit; cbn;
        (rewrite Hre; [|reflexivity|exact Hfr]); norm_app; reflexivity.
    + rewrite Hh. cbn. destruct (nonempty ak && nonempty wa); cbn;
        rewrite ?Hne, ?Hfr; cbn; unfold emit; cbn;
        (rewrite Hre; [|reflexivity|cbn; rewrite Hne, Hfr; reflexivity]);
        norm_app; reflexivity.
  - run. destruct (nonempty ak && nonempty wa); cbn;
      rewrite ?Hfr; cbn; unfold emit; cbn;
      (rewrite Hre; [|reflexivity|exact Hfr]); norm_app; reflexivity.
Qed.

(* ================================================================= *)
(** ** Connection objects: every handle in use was handed out earlier *)

Lemma wf_state_same c w c' w' :
  closed w' = closed w -> fresh w' = fresh w -> connection c' = connection c ->
  wf_state (c', w') = wf_state (c, w).
Proof.
  intros Hc Hf Hk. unfold wf_state, wf_world. cbn [fst snd].
  rewrite Hc, Hf, Hk. reflexivity.
Qed.

Lemma wf_state_mark c w h :
  wf_state (c, w) = true -> (h <? fresh w)%nat = true ->
  wf_state (c, mark_closed h w) = true.
Proof.
  unfold wf_state, wf_world. cbn [fst snd mark_closed closed fresh forallb].
  intros H Hh. apply andb_prop in H. destruct H as [H1 H2].
  rewrite Hh, H1, H2. reflexivity.
Qed.

Lemma wf_state_connection c w h :
  wf_state (c, w) = true -> connection c = Some h -> (h <? fresh w)%nat = true.
Proof.
  unfold wf_state. cbn [fst snd]. intros H Hc. rewrite Hc in H.
  apply andb_prop in H. apply H.
Qed.

Lemma keeps_wf_ret {A} (a : A) : keeps_wf (ret a).
Proof. intros s H. exact H. Qed.

Lemma keeps_wf_raise {A} e : keeps_wf (@raise A e).
Proof. intros s H. exact H. Qed.

Lemma keeps_wf_lift {A} (r : result A) : keeps_wf (lift r).
Proof. intros s H. exact H. Qed.

Lemma keeps_wf_self : keeps_wf self.
Proof. intros s H. exact H. Qed.

Lemma keeps_wf_closed_attr h : keeps_wf (closed_attr h).
Proof. intros s H. exact H. Qed.

Lemma keeps_wf_bind {A B} (m : M A) (k : A -> M B) :
  keeps_wf m -> (forall a, keeps_wf (k a)) -> keeps_wf (bind m k).
Proof.
  intros Hm Hk s H. unfold bind. specialize (Hm s H).
  destruct (m s) as [[a|e] s1]; cbn in *; [apply Hk; exact Hm|exact Hm].
Qed.

Lemma keeps_wf_catch {A} (m : M A) (h : exn -> M A) :
  keeps_wf m -> (forall e, keeps_wf (h e)) -> keeps_wf (catch m h).
Proof.
  intros Hm Hh s H. unfold catch. specialize (Hm s H).
  destruct (m s) as [[a|e] s1]; cbn in *; [exact Hm|apply Hh; exact Hm].
Qed.

Lemma keeps_wf_finally {A} (m : M A) (f : M unit) :
  keeps_wf m -> keeps_wf f -> keeps_wf (finally m f).
Proof.
  intros Hm Hf s H. unfold finally. specialize (Hm s H).
  destruct (m s) as [r s1]. cbn in Hm. specialize (Hf s1 Hm).
  destruct (f s1) as [[u|e] s2]; exact Hf.
Qed.

Lemma keeps_wf_record e : keeps_wf (record e).
Proof. intros [c w] H. cbn. rewrite <- H. apply wf_state_same; reflexivity. Qed.

Lemma keeps_wf_log lvl m : keeps_wf (log lvl m).
Proof. apply keeps_wf_record. Qed.

Lemma keeps_wf_sleep n : keeps_wf (sleep n).
Proof. apply keeps_wf_record. Qed.

Lemma keeps_wf_time_now : keeps_wf time_now.
Proof.
  intros [c w] H. unfold time_now, outside, next_clock. cbn [snd fst].
  rewrite <- H. destruct (clock w); cbn; [reflexivity|].
  apply wf_state_same; reflexivity.
Qed.

Lemma keeps_wf_randint hi : keeps_wf (randint hi).
Proof.
  apply keeps_wf_bind; [|intros a; apply keeps_wf_ret].
  intros [c w] H. unfold outside, next_random. cbn [snd fst].
  rewrite <- H. destruct (rng w); cbn; [reflexivity|].
  apply wf_state_same; reflexivity.
Qed.

Lemma keeps_wf_save data filename : keeps_wf (save_to_file data filename).
Proof.
  intros [c w] H. unfold save_to_file, next_fault. cbn [snd fst].
  rewrite <- H. destruct (faults w) as [|[e|] r]; cbn;
    apply wf_state_same; reflexivity.
Qed.

Lemma keeps_wf_update f :
  (forall c, connection (f c) = connection c \/ connection (f c) = None) ->
  keeps_wf (update f).
Proof.
  intros Hf [c w] H. unfold update. cbn [fst snd].
  destruct (Hf c) as [E|E].
  - rewrite <- H. apply wf_state_same; [reflexivity|reflexivity|exact E].
  - unfold wf_state in *. cbn [fst snd] in *. rewrite E.
    apply andb_prop in H. destruct H as [H _]. rewrite H. reflexivity.
Qed.

Lemma wf_next_fault c w :
  wf_state (c, snd (next_fault w)) = wf_state (c, w).
Proof.
  unfold next_fault. destruct (faults w); cbn [snd]; [reflexivity|].
  apply wf_state_same; reflexivity.
Qed.

Lemma wf_next_incoming c w :
  wf_state (c, snd (next_incoming w)) = wf_state (c, w).
Proof.
  unfold next_incoming. destruct (inbox w); cbn [snd]; [reflexivity|].
  apply wf_state_same; reflexivity.
Qed.

Lemma wf_emit c w e : wf_state (c, emit e w) = wf_state (c, w).
Proof. apply wf_state_same; reflexivity. Qed.

Lemma fresh_next_fault w : fresh (snd (next_fault w)) = fresh w.
Proof. unfold next_fault. destruct (faults w); reflexivity. Qed.

Lemma fresh_next_incoming w : fresh (snd (next_incoming w)) = fresh w.
Proof. unfold next_incoming. destruct (inbox w); reflexivity. Qed.

Lemma wf_ws_send h d s :
  wf_state s = true -> (h <? fresh (snd s))%nat = true ->
  wf_state (snd (ws_send h d s)) = true.
Proof.
  destruct s as [c w]. cbn [fst snd]. intros H Hh. unfold ws_send. cbn [fst snd].
  pose proof (wf_next_fault c w) as Hw. pose proof (fresh_next_fault w) as Hfr.
  destruct (next_fault w) as [f w1]. cbn [snd] in *. rewrite H in Hw.
  rewrite <- Hfr in Hh.
  destruct (is_closed h w); destruct f as [e|];
    try destruct (is_ConnectionClosed e) eqn:C; cbn [snd is_ConnectionClosed];
    try rewrite C; rewrite wf_emit;
    first [exact Hw | apply wf_state_mark; assumption].
Qed.

Lemma wf_ws_recv h t s :
  wf_state s = true -> (h <? fresh (snd s))%nat = true ->
  wf_state (snd (ws_recv h t s)) = true.
Proof.
  destruct s as [c w]. cbn [fst snd]. intros H Hh. unfold ws_recv. cbn [fst snd].
  destruct (is_closed h w); cbn [snd]; [rewrite wf_emit; exact H|].
  pose proof (wf_next_incoming c w) as Hw.
  pose proof (fresh_next_incoming w) as Hfr.
  destruct (next_incoming w) as [i w1]. cbn [snd] in *. rewrite H in Hw.
  rewrite <- Hfr in Hh.
  destruct i as [text| |e]; cbn [snd]; try (rewrite wf_emit; exact Hw).
  destruct (is_ConnectionClosed e); rewrite wf_emit;
    first [exact Hw | apply wf_state_mark; assumption].
Qed.

Lemma wf_ws_close h s :
  wf_state s = true -> (h <? fresh (snd s))%nat = true ->
  wf_state (snd (ws_close h s)) = true.
Proof.
  destruct s as [c w]. cbn [fst snd]. intros H Hh. unfold ws_close. cbn [fst snd].
  destruct (is_closed h w); cbn [snd]; [rewrite wf_emit; exact H|].
  pose proof (wf_next_fault c w) as Hw. pose proof (fresh_next_fault w) as Hfr.
  destruct (next_fault w) as [f w1]. cbn [snd] in *. rewrite H in Hw.
  rewrite <- Hfr in Hh.
  destruct f as [e|]; cbn [snd]; rewrite wf_emit;
    first [exact Hw | apply wf_state_mark; assumption].
Qed.

Lemma keeps_wf_connection_send d : keeps_wf (connection_send d).
Proof.
  intros s H. unfold connection_send, bind, self. cbn [fst snd].
  destruct (connection (fst s)) as [h|] eqn:Hc; [|exact H].
  apply wf_ws_send; [exact H|]. destruct s as [c w].
  exact (wf_state_connection c w H Hc).
Qed.

Lemma keeps_wf_connection_recv t : keeps_wf (connection_recv t).
Proof.
  intros s H. unfold connection_recv, bind, self. cbn [fst snd].
  destruct (connection (fst s)) as [h|] eqn:Hc; [|exact H].
  apply wf_ws_recv; [exact H|]. destruct s as [c w].
  exact (wf_state_connection c w H Hc).
Qed.

Lemma wf_state_iff c w :
  wf_state (c, w) = true <->
  Forall (fun h => (h < fresh w)%nat) (closed w) /\
  (forall h, connection c = Some h -> (h < fresh w)%nat).
Proof.
  unfold wf_state, wf_world. cbn [fst snd]. rewrite andb_true_iff.
  rewrite forallb_forall, Forall_forall. split.
  - intros [H1 H2]. split.
    + intros x Hx. apply Nat.ltb_lt. apply H1. exact Hx.
    + intros h Hc. rewrite Hc in H2. apply Nat.ltb_lt. exact H2.
  - intros [H1 H2]. split.
    + intros x Hx. apply Nat.ltb_lt. apply H1. exact Hx.
    + destruct (connection c) as [h|]; [|reflexivity].
      apply Nat.ltb_lt. apply H2. reflexivity.
Qed.

Ltac wf_leaf :=
  apply wf_state_iff; cbn [closed fresh connection set_connection];
  split;
  [ repeat (apply Forall_cons; [lia|]);
    first [ assumption
          | eapply Forall_impl; [|eassumption]; cbn beta; intros; lia ]
  | let h := fresh "h" in
    let E := fresh "E" in
    intros h E;
    first [ discriminate E
          | inversion E; subst; lia
          | match goal with H : forall _, _ -> _ |- _ => specialize (H _ E) end;
            lia ] ].

Ltac explore :=
  repeat first
    [ match goal with
      | |- context [match ?x with _ => _ end] => is_var x; destruct x; cbn
      | |- context [existsb ?f ?l] => destruct (existsb f l) eqn:?; cbn
      | |- context [nonempty ?a && nonempty ?b] =>
          destruct (nonempty a && nonempty b); cbn
      | |- context [is_ConnectionClosed ?e] =>
          destruct (is_ConnectionClosed e); cbn
      | |- context [(?a =? ?b)%nat] => destruct (a =? b)%nat eqn:?; cbn
      end
    | progress run ].

Lemma keeps_wf_close_connection : keeps_wf close_connection.
Proof.
  intros [c w] H. destruct w as [tr cl fr fl inb ck rg].
  destruct c as [sk wa ak asec conn ords tks ltk chans en].
  apply wf_state_iff in H. cbn [closed fresh connection] in H.
  destruct H as [Hcl Hconn].
  unfold close_connection. run.
  destruct conn as [h|]; [specialize (Hconn h eq_refl)|]; explore; wf_leaf.
Qed.

Lemma keeps_wf_open_attempt L : keeps_wf (open_attempt L).
Proof.
  intros [c w] H. destruct w as [tr cl fr fl inb ck rg].
  destruct c as [sk wa ak asec conn ords tks ltk chans en].
  apply wf_state_iff in H. cbn [closed fresh connection] in H.
  destruct H as [Hcl Hconn].
  unfold open_attempt, authenticate. run.
  destruct conn as [h|]; [specialize (Hconn h eq_refl)|]; explore; wf_leaf.
Qed.

Create HintDb wf.

#[export] Hint Resolve keeps_wf_ret keeps_wf_raise keeps_wf_lift keeps_wf_self
  keeps_wf_closed_attr keeps_wf_record keeps_wf_log keeps_wf_sleep
  keeps_wf_time_now keeps_wf_randint keeps_wf_save keeps_wf_connection_send
  keeps_wf_connection_recv keeps_wf_close_connection keeps_wf_open_attempt
  : wf.

Ltac keeping :=
  repeat first
    [ solve [auto with wf]
    | apply keeps_wf_bind; [|intro]
    | apply keeps_wf_catch; [|intro]
    | apply keeps_wf_finally
    | apply keeps_wf_update; intros; left; reflexivity
    | match goal with
      | |- keeps_wf (match ?x with _ => _ end) => destruct x
      end ].

Section Keeps.

Variable L : Lib.

Lemma keeps_wf_loads text : keeps_wf (loads L text).
Proof. unfold loads. keeping. Qed.

Lemma keeps_wf_open_connection : keeps_wf (open_connection L).
Proof. unfold open_connection, open_failed. keeping. Qed.

Lemma keeps_wf_resubscribe_loop channels :
  keeps_wf (resubscribe_loop L channels).
Proof. induction channels as [|ch rest IH]; cbn [resubscribe_loop]; keeping. Qed.

Hint Resolve keeps_wf_loads keeps_wf_open_connection
  keeps_wf_resubscribe_loop : wf.

Lemma keeps_wf_resubscribe_channels : keeps_wf (resubscribe_channels L).
Proof. unfold resubscribe_channels. keeping. Qed.

Hint Resolve keeps_wf_resubscribe_channels : wf.

Lemma keeps_wf_reconnect : keeps_wf (reconnect L).
Proof. unfold reconnect. keeping. Qed.

Hint Resolve keeps_wf_reconnect : wf.

Lemma keeps_wf_send data : keeps_wf (send L data).
Proof. unfold send. keeping. Qed.

Hint Resolve keeps_wf_send : wf.

Lemma keeps_wf_sign_order i b p q t pd ad :
  keeps_wf (sign_order L i b p q t pd ad).
Proof. unfold sign_order. keeping. Qed.

Hint Resolve keeps_wf_sign_order : wf.

Lemma keeps_wf_create_order i b p q po id mmp :
  keeps_wf (create_order L i b p q po id mmp).
Proof. unfold create_order, create_order_ws_json. keeping. Qed.

Hint Resolve keeps_wf_create_order : wf.

Lemma keeps_wf_handle_fills_message m gi pd :
  keeps_wf (handle_fills_message L m gi pd).
Proof. unfold handle_fills_message, place_opposite_order. keeping. Qed.

Lemma keeps_wf_append_orders items : keeps_wf (append_orders items).
Proof. induction items as [|o rest IH]; cbn [append_orders]; keeping. Qed.

Hint Resolve keeps_wf_handle_fills_message keeps_wf_append_orders : wf.

Lemma keeps_wf_handle_order_message m : keeps_wf (handle_order_message m).
Proof. unfold handle_order_message. keeping. Qed.

Lemma keeps_wf_handle_ticker_message m : keeps_wf (handle_ticker_message m).
Proof. unfold handle_ticker_message. keeping. Qed.

Hint Resolve keeps_wf_handle_order_message keeps_wf_handle_ticker_message : wf.

Lemma keeps_wf_message_handler_turn gi pd :
  keeps_wf (message_handler_turn L gi pd).
Proof. unfold message_handler_turn, dispatch_frame, on_error. keeping. Qed.

Lemma keeps_wf_subscribe sub : keeps_wf (subscribe L sub).
Proof.
  unfold subscribe, subscribe_ticker, subscribe_orders, subscribe_fills,
    send_and_register, await_confirmation.
  keeping.
Qed.

Hint Resolve keeps_wf_message_handler_turn keeps_wf_subscribe : wf.


Lemma keeps_wf_run_call k : keeps_wf (run_call L k).
Proof. unfold run_call. keeping. Qed.

Lemma wf_run_session calls s :
  wf_state s = true -> wf_state (run_session L calls s) = true.
Proof.
  revert s. induction calls as [|k rest IH]; intros s H; cbn [run_session].
  - exact H.
  - apply IH. apply keeps_wf_run_call. exact H.
Qed.

End Keeps.

(* ================================================================= *)
(** ** The subscribe methods and the registry *)

Lemma ws_send_client h d s : fst (snd (ws_send h d s)) = fst s.
Proof.
  unfold ws_send. destruct (next_fault (snd s)) as [f w1].
  destruct (is_closed h (snd s)); destruct f as [e|]; reflexivity.
Qed.

Lemma connection_send_client d s : fst (snd (connection_send d s)) = fst s.
Proof.
  unfold connection_send, bind, self. cbn.
  destruct (connection (fst s)); [apply ws_send_client|reflexivity].
Qed.

(** Once the transport has taken the subscribe frame the channel is in
    the registry, whatever the rest of the method meets. *)
Lemma subscribe_accepted L sub s s1 :
  connection_send (json_dumps L (subscribe_message (channel_name sub))) s
    = (Ok tt, s1) ->
  subscribed_channels (fst (snd (subscribe L sub s)))
    = (subscribed_channels (fst s) ++ [channel_name sub])%list.
Proof.
  intros E.
  pose proof (connection_send_client
                (json_dumps L (subscribe_message (channel_name sub))) s) as Hc.
  rewrite E in Hc. cbn in Hc.
  destruct sub as [asset| |]; cbn [subscribe channel_name] in *;
    unfold subscribe_ticker, subscribe_orders, subscribe_fills,
      send_and_register.
  - unfold bind at 1. unfold bind at 1. rewrite E. unfold update at 1.
    cbn [fst snd].
    match goal with
    | |- context [await_confirmation L ?ch ?s2] =>
        destruct (still_await_confirmation L ch s2) as [[_ Hs] _]
    end.
    rewrite Hs. cbn. rewrite Hc. reflexivity.
  - unfold bind at 1. unfold bind at 1. rewrite E. cbn. rewrite Hc.
    reflexivity.
  - unfold bind at 1. unfold bind at 1. rewrite E. cbn. rewrite Hc.
    reflexivity.
Qed.

Lemma subscribe_raises L sub s e s1 :
  connection_send (json_dumps L (subscribe_message (channel_name sub))) s
    = (Raise e, s1) ->
  subscribe L sub s = (Raise e, s1).
Proof.
  intros E.
  destruct sub as [asset| |]; cbn [subscribe channel_name] in *;
    unfold subscribe_ticker, subscribe_orders, subscribe_fills,
      send_and_register; unfold bind at 1; unfold bind at 1; rewrite E;
    reflexivity.
Qed.




Lemma delivered_app a b : delivered (a ++ b) = (delivered a ++ delivered b)%list.
Proof. unfold delivered. apply flat_map_app. Qed.



(** C10.  Once the transport has taken its subscribe frame, a subscribe
    method has put its channel in the registry, before it waits for any
    confirmation and whatever the confirmation turns out to be; no later
    call removes the entry, and every later reconnect on a transport
    that works replays it on the new connection. *)
Theorem subscription_registered_unconditionally L sub s s1 :
  wf_state s = true ->
  connection_send (json_dumps L (subscribe_message (channel_name sub))) s
    = (Ok tt, s1) ->
  let registered :=
    (set_subscribed_channels
       (subscribed_channels (fst s) ++ [channel_name sub])%list (fst s1),
     snd s1) in
  let s2 := snd (subscribe L sub s) in
  (forall asset, sub = Ticker asset ->
     subscribe L sub s = await_confirmation L (channel_name sub) registered) /\
  subscribed_channels (fst s2)
    = (subscribed_channels (fst s) ++ [channel_name sub])%list /\
  (forall calls,
     In (channel_name sub)
        (subscribed_channels (fst (run_session L calls s2)))) /\
  (forall calls,
     let s3 := run_session L calls s2 in
     faults (snd s3) = [] ->
     exists s4 before after,
       reconnect L s3 = (Ok tt, s4) /\
       connection (fst s4) = Some (fresh (snd s3)) /\
       trace (snd s4)
         = (trace (snd s3) ++ before
              ++ ESend (fresh (snd s3))
                       (json_dumps L (subscribe_message (channel_name sub)))
                       None
              :: after)%list).
Proof.
  intros Hwf0 E registered s2.
  pose proof (@subscribe_accepted L sub s s1 E) as Hreg. fold s2 in Hreg.
  assert (Hstay : forall calls,
             In (channel_name sub)
                (subscribed_channels (fst (run_session L calls s2)))).
  { intros calls. destruct (run_session_grows L calls s2) as [_ [l Hl]].
    rewrite Hl, Hreg. apply in_or_app. left. apply in_or_app. right.
    left. reflexivity. }
  split; [|split; [exact Hreg|split; [exact Hstay|]]].
  - intros asset ->. cbn [subscribe channel_name] in *.
    unfold subscribe_ticker, send_and_register.
    unfold bind at 1. unfold bind at 1. rewrite E. unfold update at 1.
    cbn [fst snd]. subst registered.
    pose proof (connection_send_client
                  (json_dumps L (subscribe_message ("ticker:" ++ asset))) s)
      as Hc.
    rewrite E in Hc. cbn in Hc. rewrite Hc. reflexivity.
  - intros calls s3 Hf.
    assert (Hwf : wf_state s3 = true).
    { apply wf_run_session. apply (@keeps_wf_subscribe L sub s Hwf0). }
    specialize (Hstay calls). fold s3 in Hstay.
    destruct s3 as [c3 w3] eqn:Es3. cbn [fst snd] in *.
    apply in_split in Hstay. destruct Hstay as [l1 [l2 Hl]].
    eexists _, (reopening L c3 w3 ++ replay L (fresh w3) l1)%list, _.
    split; [apply (@reconnect_healthy L _ _ Hf Hwf)|].
    split; [reflexivity|]. cbn [snd trace]. rewrite Hl.
    unfold replay at 1. rewrite flat_map_app. cbn [flat_map app].
    fold (replay L (fresh w3) l1). fold (replay L (fresh w3) l2).
    rewrite <- !app_assoc. reflexivity.
Qed.

(* ================================================================= *)
(** ** Sending *)

Lemma send_unfold L data c w :
  send L data (c, w) =
  match connection c with
  | Some h =>
      match ws_send h data (c, w) with
      | (Ok a, s1) => (Ok a, s1)
      | (Raise ConnectionClosedError, s1) =>
          (log DEBUG (LogText "Restarted Aevo websocket connection") ;;
           reconnect L ;; connection_send data) s1
      | (Raise _, s1) => reconnect L s1
      end
  | None =>
      reconnect L
        (c, emit (ELog ERROR
                    (LogText "WebSocket connection is not established. Cannot send data."))
                 w)
  end.
Proof.
  unfold send. unfold bind at 1. unfold self at 1. cbn [fst snd].
  destruct (connection c) as [h|] eqn:Hc.
  - unfold catch. unfold connection_send at 1. unfold bind at 1.
    unfold self at 1. cbn [fst snd]. rewrite Hc.
    destruct (ws_send h data (c, w)) as [[a|e] s1]; [reflexivity|].
    destruct e; reflexivity.
  - reflexivity.
Qed.

(** C3, as the code has it.  With no connection object, [send] logs
    that it cannot send, reconnects once and hands nothing else to the
    transport than what the reconnect sends by itself: the payload is
    dropped.  When the transport raises [ConnectionClosedError], [send]
    reconnects once and then makes one more attempt, on the connection
    the reconnect left, whose outcome is the outcome of [send]: there is
    no further retry.  On any other error [send] reconnects once and
    does not hand the payload over again. *)
Theorem send_policy L data s :
  match connection (fst s) with
  | None =>
      exists s',
        send L data s = (Ok tt, s') /\
        send L data s
          = reconnect L
              (snd (log ERROR
                        (LogText "WebSocket connection is not established. Cannot send data.")
                        s)) /\
        frame unchanged (housekeeping L) s s'
  | Some h =>
      match ws_send h data s with
      | (Ok _, s1) => send L data s = (Ok tt, s1)
      | (Raise ConnectionClosedError, s1) =>
          exists s2,
            reconnect L
              (snd (log DEBUG (LogText "Restarted Aevo websocket connection") s1))
              = (Ok tt, s2) /\
            frame unchanged (housekeeping L) s1 s2 /\
            send L data s = connection_send data s2
      | (Raise _, s1) =>
          exists s2,
            send L data s = (Ok tt, s2) /\
            reconnect L s1 = (Ok tt, s2) /\
            frame unchanged (housekeeping L) s1 s2
      end
  end.
Proof.
  destruct s as [c w]. rewrite send_unfold. cbn [fst].
  assert (Hother : forall s1,
             exists s2, reconnect L s1 = (Ok tt, s2) /\
                        reconnect L s1 = (Ok tt, s2) /\
                        frame unchanged (housekeeping L) s1 s2).
  { intros s1. destruct (returns_unit s1 (reconnect_returns L)) as [s2 E].
    exists s2. split; [exact E|split; [exact E|]].
    pose proof (tidy_reconnect L s1) as Hf. unfold framed_at in Hf.
    rewrite E in Hf. exact Hf. }
  destruct (connection c) as [h|].
  - destruct (ws_send h data (c, w)) as [[[]|e] s1]; [reflexivity|].
    destruct e; try apply Hother.
    set (s1' := snd (log DEBUG (LogText "Restarted Aevo websocket connection") s1)).
    destruct (Hother s1') as [s2 [E [_ Hf]]]. exists s2.
    split; [exact E|]. split.
    + refine (frame_trans _ Hf).
      apply (framed_log (RC:=unchanged) (P:=housekeeping L)).
    + unfold bind at 1. unfold log at 1, record at 1. fold s1'.
      change (fst s1, emit (ELog DEBUG (LogText "Restarted Aevo websocket connection")) (snd s1)) with s1'.
      unfold bind. rewrite E. reflexivity.
  - cbn [snd log record fst].
    set (s0 := (c, emit (ELog ERROR (LogText "WebSocket connection is not established. Cannot send data.")) w)).
    destruct (Hother s0) as [s2 [E [_ Hf]]]. exists s2.
    split; [exact E|]. split; [reflexivity|].
    refine (frame_trans _ Hf).
    apply (framed_log (RC:=unchanged) (P:=housekeeping L) ERROR
             (LogText "WebSocket connection is not established. Cannot send data.")
             (c, w)).
Qed.

(* ================================================================= *)
(** ** Opening a connection *)

Lemma connect_attempts_app a b :
  connect_attempts (a ++ b) = (connect_attempts a + connect_attempts b)%nat.
Proof. unfold connect_attempts. rewrite filter_app, length_app. reflexivity. Qed.

Ltac split_cases :=
  repeat first
    [ match goal with
      | |- context [match ?x with _ => _ end] => is_var x; destruct x; cbn
      | |- context [existsb ?f ?l] => destruct (existsb f l) eqn:?; cbn
      | |- context [nonempty ?a && nonempty ?b] =>
          destruct (nonempty a && nonempty b); cbn
      | |- context [is_ConnectionClosed ?e] =>
          destruct (is_ConnectionClosed e); cbn
      | |- context [(?a =? ?b)%nat] => destruct (a =? b)%nat eqn:?; cbn
      end
    | progress run ].

(** One run of the [try] block of [open_connection] makes at most one
    attempt to connect, and the connection attribute it leaves is the
    one it found or the connection object it has just opened. *)
Lemma open_attempt_once L s :
  (connect_attempts (trace (snd (snd (open_attempt L s))))
     <= S (connect_attempts (trace (snd s))))%nat /\
  (connection (fst (snd (open_attempt L s))) = connection (fst s) \/
   exists h,
     connection (fst (snd (open_attempt L s))) = Some h /\
     In (EConnect (ws_url (fst s)) (Ok h))
        (trace (snd (snd (open_attempt L s))))).
Proof.
  destruct s as [c w]. destruct w as [tr cl fr fl inb ck rg].
  destruct c as [sk wa ak asec conn ords tks ltk chans en].
  unfold open_attempt, authenticate. run. split_cases;
    (split;
     [ unfold connect_attempts; repeat rewrite filter_app;
       repeat rewrite length_app; cbn [filter is_connect List.length];
       lia
     | first [ left; reflexivity
             | right; eexists; split; [reflexivity|];
               repeat rewrite in_app_iff; cbn; tauto ] ]).
Qed.

(** C6, as the code has it.  When a step of the opening raises,
    [open_connection] logs the error, sleeps ten seconds and returns
    normally; it has made at most one attempt to connect and makes no
    other after the pause; the connection attribute is the one it found
    (none if there was none) unless the connect had succeeded and a
    later step failed, in which case it is the new connection object. *)
Theorem open_connection_failure L s :
  match open_attempt L s with
  | (Ok _, s1) => open_connection L s = (Ok tt, s1)
  | (Raise e, s1) =>
      open_connection L s
        = (Ok tt,
           (fst s1,
            mkWorld
              (trace (snd s1)
                 ++ [ELog ERROR
                       (LogText "Error occurred while opening websocket connection.");
                     ELog ERROR (LogExn "" e);
                     ELog ERROR (LogText "traceback");
                     ESleep 10])
              (closed (snd s1)) (fresh (snd s1)) (faults (snd s1))
              (inbox (snd s1)) (clock (snd s1)) (rng (snd s1)))) /\
      (connect_attempts (trace (snd s1))
         <= S (connect_attempts (trace (snd s))))%nat /\
      (connection (fst s1) = connection (fst s) \/
       exists h,
         connection (fst s1) = Some h /\
         In (EConnect (ws_url (fst s)) (Ok h)) (trace (snd s1)))
  end.
Proof.
  pose proof (open_attempt_once L s) as [Hn Hc].
  unfold open_connection, catch.
  destruct (open_attempt L s) as [[[]|e] s1]; [reflexivity|].
  cbn [fst snd] in *. split; [|split; assumption].
  destruct s1 as [c1 w1]. unfold open_failed. run. norm_app. reflexivity.
Qed.

(* ================================================================= *)
(** ** The dispatch loop *)

Lemma bind_ret_tt (m : M unit) s : bind m (fun _ => ret tt) s = m s.
Proof.
  unfold bind, ret. destruct (m s) as [[[]|e] s']; reflexivity.
Qed.

Lemma ticker_channel_truthy ch :
  PyStr.startswith "ticker:" ch = true -> Py.truthy (JStr ch) = true.
Proof. destruct ch; [discriminate|reflexivity]. Qed.

(** C7.  A turn of the loop that receives an undecodable frame, or
    that times out, logs it, leaves the client as it was and returns
    normally, as every turn does; so when a well-formed ticker, orders
    or fills frame follows an undecodable one, the second turn hands it
    to its handler, on the client the first turn found. *)
Theorem malformed_frame_isolated L gi pd c w h bad :
  connection c = Some h ->
  is_closed h w = false ->
  json_loads L bad = None ->
  let world_after (evs : list event) (rest : list incoming) :=
    mkWorld (trace w ++ evs) (closed w) (fresh w) (faults w) rest
            (clock w) (rng w) in
  let undecodable :=
    [ERecv h 20 (Frame bad);
     ELog ERROR (LogExn "Error while parsing the JSON response" JSONDecodeError)] in
  (forall rest,
     inbox w = Frame bad :: rest ->
     message_handler_turn L gi pd (c, w)
       = (Ok tt, (c, world_after undecodable rest))) /\
  (forall rest,
     inbox w = Silence :: rest ->
     message_handler_turn L gi pd (c, w)
       = (Ok tt,
          (c, world_after [ERecv h 20 Silence;
                           ELog ERROR (LogText "No new fills, waiting.")]
                          rest))) /\
  returns (message_handler_turn L gi pd) /\
  (forall good msg rest,
     inbox w = Frame bad :: Frame good :: rest ->
     json_loads L good = Some msg ->
     let s2 :=
       (c, world_after (undecodable ++ [ERecv h 20 (Frame good)])%list rest) in
     (forall ch,
        Py.get msg "channel" JNull = Ok (JStr ch) ->
        PyStr.startswith "ticker:" ch = true ->
        message_handler_loop L 2 gi pd (c, w)
          = catch (handle_ticker_message msg) (on_error L) s2) /\
     (Py.get msg "channel" JNull = Ok (JStr "orders") ->
      message_handler_loop L 2 gi pd (c, w)
        = catch (handle_order_message msg) (on_error L) s2) /\
     (Py.get msg "channel" JNull = Ok (JStr "fills") ->
      message_handler_loop L 2 gi pd (c, w)
        = catch (handle_fills_message L msg gi pd) (on_error L) s2)).
Proof.
  intros Hc Hcl Hbad world_after undecodable.
  destruct w as [tr cl fr fl inb ck rg]. unfold is_closed in Hcl.
  cbn [closed] in Hcl. subst world_after undecodable.
  cbn [trace closed fresh faults inbox clock rng].
  assert (Hturn : forall rest,
             message_handler_turn L gi pd
               (c, mkWorld tr cl fr fl (Frame bad :: rest) ck rg)
             = (Ok tt,
                (c, mkWorld (tr ++ [ERecv h 20 (Frame bad);
                                    ELog ERROR (LogExn "Error while parsing the JSON response" JSONDecodeError)])
                            cl fr fl rest ck rg))).
  { intros rest. unfold message_handler_turn, dispatch_frame, loads, on_error.
    run. rewrite Hc. cbn. rewrite Hcl. cbn. rewrite Hbad. cbn.
    norm_app. reflexivity. }
  split; [|split; [|split]].
  - intros rest ->. apply Hturn.
  - intros rest ->. unfold message_handler_turn, dispatch_frame, on_error.
    run. rewrite Hc. cbn. rewrite Hcl. cbn. norm_app. reflexivity.
  - apply message_handler_turn_returns.
  - intros good msg rest -> Hgood.
    assert (Hloop :
              message_handler_loop L 2 gi pd
                (c, mkWorld tr cl fr fl (Frame bad :: Frame good :: rest) ck rg)
              = catch
                  (channel <- lift (Py.get msg "channel" JNull) ;;
                   is_ticker <-
                     (if Py.truthy channel
                      then lift (Py.startswith channel "ticker:")
                      else ret false) ;;
                   if is_ticker then handle_ticker_message msg
                   else if Py.eq_str channel "orders"
                        then handle_order_message msg
                        else if Py.eq_str channel "fills"
                             then handle_fills_message L msg gi pd
                             else ret tt)
                  (on_error L)
                  (c, mkWorld (tr ++ [ERecv h 20 (Frame bad);
                                      ELog ERROR (LogExn "Error while parsing the JSON response" JSONDecodeError);
                                      ERecv h 20 (Frame good)])
                              cl fr fl rest ck rg)).
    { cbn [message_handler_loop]. unfold bind at 1. rewrite Hturn.
      rewrite bind_ret_tt. unfold message_handler_turn, dispatch_frame, loads.
      run. rewrite Hc. cbn. rewrite Hcl. cbn. rewrite Hgood. cbn.
      norm_app. reflexivity. }
    rewrite Hloop. split; [|split].
    + intros ch Hch Hpre. unfold catch, bind, lift. rewrite Hch.
      rewrite (ticker_channel_truthy _ Hpre). cbn [Py.startswith].
      rewrite Hpre. reflexivity.
    + intros Hch. unfold catch, bind, lift. rewrite Hch. reflexivity.
    + intros Hch. unfold catch, bind, lift. rewrite Hch. reflexivity.
Qed.

(* ================================================================= *)
(** ** Signing *)

(** [sign_order] step by step: the draw of the salt, the two
    conversions, the log record, the encoding, the hash and the
    signature. *)
Lemma sign_order_run L i b p q t pd ad c w :
  sign_order L i b p q t pd ad (c, w) =
  let salt0 := fst (next_random w) mod (10 ^ 10 + 1) in
  let w1 := snd (next_random w) in
  let w2 :=
    emit (ELog INFO (LogStr "signing_domain" (name (signing_domain c)))) w1 in
  match fixed_point p pd b with
  | Raise e => (Raise e, (c, w1))
  | Ok lp =>
      match fixed_point q ad b with
      | Raise e => (Raise e, (c, w1))
      | Ok am =>
          match signable_bytes L (mkOrder (wallet_address c) b lp am salt0 i t)
                               (signing_domain c) with
          | Raise e => (Raise e, (c, w2))
          | Ok sb =>
              match sign_hash L (keccak L sb) (signing_key c) with
              | Raise e => (Raise e, (c, w2))
              | Ok sig =>
                  (Ok (salt0, sig, "0x" ++ PyStr.hex (keccak L sb))%string,
                   (c, w2))
              end
          end
      end
  end.
Proof.
  unfold sign_order. unfold randint, outside, bind, self, lift, ret, log, record.
  cbn [fst snd]. destruct (next_random w) as [z w1]. cbn [fst snd].
  destruct (fixed_point p pd b) as [lp|e]; [|reflexivity].
  destruct (fixed_point q ad b) as [am|e]; [|reflexivity].
  cbn [fst snd].
  destruct (signable_bytes L _ _) as [sb|e]; [|reflexivity].
  destruct (sign_hash L _ _) as [sig|e]; reflexivity.
Qed.

Lemma next_random_rest w :
  let w' := snd (next_random w) in
  trace w' = trace w /\ closed w' = closed w /\ fresh w' = fresh w /\
  faults w' = faults w /\ inbox w' = inbox w /\ clock w' = clock w.
Proof. unfold next_random. destruct (rng w); cbn; repeat split. Qed.

(** What a successful run of [sign_order] has computed. *)
Lemma sign_order_ok L i b p q t pd ad c w salt0 sig oid :
  fst (sign_order L i b p q t pd ad (c, w)) = Ok (salt0, sig, oid) ->
  exists lp am sb,
    salt0 = fst (next_random w) mod (10 ^ 10 + 1) /\
    fixed_point p pd b = Ok lp /\
    fixed_point q ad b = Ok am /\
    signable_bytes L (mkOrder (wallet_address c) b lp am salt0 i t)
                   (signing_domain c) = Ok sb /\
    sign_hash L (keccak L sb) (signing_key c) = Ok sig /\
    oid = ("0x" ++ PyStr.hex (keccak L sb))%string.
Proof.
  rewrite sign_order_run. cbv zeta.
  destruct (fixed_point p pd b) as [lp|e]; [|discriminate].
  destruct (fixed_point q ad b) as [am|e]; [|discriminate].
  destruct (signable_bytes L _ _) as [sb|e] eqn:Esb; [|discriminate].
  destruct (sign_hash L _ _) as [sg|e] eqn:Esg; [|discriminate].
  cbn [fst]. intros H. inversion H; subst. exists lp, am, sb.
  repeat split; assumption.
Qed.

(** C8.  Two runs of [sign_order] on the same order, with the same
    signing key, wallet address and network and the same salt drawn,
    give the same salt, signature and order id (or raise the same
    exception); the order id is the hexadecimal form of the hash of the
    signable struct; the run touches nothing of the transport: it
    logs one record at most and draws one random number; and when the
    two conversions, the encoder and the signer succeed, both runs
    return the salt drawn, the signature of the hash and the id "0x"
    followed by the hexadecimal form of the hash, after one log record
    and without a frame sent. *)
Theorem signing_deterministic L i b p q t pd ad c1 w1 c2 w2 :
  credentials c1 = credentials c2 ->
  fst (next_random w1) = fst (next_random w2) ->
  fst (sign_order L i b p q t pd ad (c1, w1))
    = fst (sign_order L i b p q t pd ad (c2, w2)) /\
  (forall salt0 sig oid,
     fst (sign_order L i b p q t pd ad (c1, w1)) = Ok (salt0, sig, oid) ->
     exists lp am sb,
       salt0 = fst (next_random w1) mod (10 ^ 10 + 1) /\
       fixed_point p pd b = Ok lp /\
       fixed_point q ad b = Ok am /\
       signable_bytes L (mkOrder (wallet_address c1) b lp am salt0 i t)
                      (signing_domain c1) = Ok sb /\
       sign_hash L (keccak L sb) (signing_key c1) = Ok sig /\
       oid = ("0x" ++ PyStr.hex (keccak L sb))%string) /\
  (let s' := snd (sign_order L i b p q t pd ad (c1, w1)) in
   fst s' = c1 /\
   closed (snd s') = closed w1 /\ fresh (snd s') = fresh w1 /\
   faults (snd s') = faults w1 /\ inbox (snd s') = inbox w1 /\
   clock (snd s') = clock w1 /\
   exists evs, trace (snd s') = (trace w1 ++ evs)%list /\
               forallb is_log evs = true /\ (List.length evs <= 1)%nat) /\
  (forall lp am sb sg,
     fixed_point p pd b = Ok lp ->
     fixed_point q ad b = Ok am ->
     let salt0 := fst (next_random w1) mod (10 ^ 10 + 1) in
     signable_bytes L (mkOrder (wallet_address c1) b lp am salt0 i t)
                    (signing_domain c1) = Ok sb ->
     sign_hash L (keccak L sb) (signing_key c1) = Ok sg ->
     let signed := (salt0, sg, "0x" ++ PyStr.hex (keccak L sb))%string in
     let record_of c :=
       ELog INFO (LogStr "signing_domain" (name (signing_domain c))) in
     sign_order L i b p q t pd ad (c1, w1)
       = (Ok signed, (c1, emit (record_of c1) (snd (next_random w1)))) /\
     sign_order L i b p q t pd ad (c2, w2)
       = (Ok signed, (c2, emit (record_of c2) (snd (next_random w2)))) /\
     handed_over (trace (snd (snd (sign_order L i b p q t pd ad (c1, w1)))))
       = handed_over (trace w1)).
Proof.
  intros Hcred Hsalt. unfold credentials in Hcred. inversion Hcred as [[Hk Hw Ha Hs He]].
  assert (Hdom : signing_domain c1 = signing_domain c2)
    by (unfold signing_domain; rewrite He; reflexivity).
  rewrite !sign_order_run. cbv zeta. rewrite <- Hsalt, <- Hw, <- Hk, <- Hdom.
  destruct (next_random_rest w1) as [T [C [Fr [Fa [I K]]]]].
  split; [|split; [|split]]; cycle 3.
  - intros lp am sb sg Hlp Ham Hsb Hsg. rewrite Hlp, Ham, Hsb, Hsg.
    cbn [fst snd emit trace]. rewrite Hdom.
    repeat split. unfold handed_over. rewrite flat_map_app, T. cbn. apply app_nil_r.
  - destruct (fixed_point p pd b) as [lp|e]; [|reflexivity].
    destruct (fixed_point q ad b) as [am|e]; [|reflexivity].
    destruct (signable_bytes L _ _) as [sb|e]; [|reflexivity].
    destruct (sign_hash L _ _) as [sig|e]; reflexivity.
  - intros salt0 sig oid H. rewrite <- sign_order_run in H.
    apply (sign_order_ok _ _ _ _ _ _ _ _ _ _ H).
  - assert (Hquiet : forall r,
               let s' := (r : result (Z * string * string),
                          (c1, snd (next_random w1))) in
               fst (snd s') = c1 /\
               closed (snd (snd s')) = closed w1 /\
               fresh (snd (snd s')) = fresh w1 /\
               faults (snd (snd s')) = faults w1 /\
               inbox (snd (snd s')) = inbox w1 /\
               clock (snd (snd s')) = clock w1 /\
               exists evs, trace (snd (snd s')) = (trace w1 ++ evs)%list /\
                           forallb is_log evs = true /\
                           (List.length evs <= 1)%nat).
    { intros r. cbn [fst snd]. repeat (split; [assumption || reflexivity|]).
      exists []. rewrite app_nil_r. repeat split; [assumption|cbn; lia]. }
    assert (Hlogged : forall r m,
               let s' := (r : result (Z * string * string),
                          (c1, emit (ELog INFO m) (snd (next_random w1)))) in
               fst (snd s') = c1 /\
               closed (snd (snd s')) = closed w1 /\
               fresh (snd (snd s')) = fresh w1 /\
               faults (snd (snd s')) = faults w1 /\
               inbox (snd (snd s')) = inbox w1 /\
               clock (snd (snd s')) = clock w1 /\
               exists evs, trace (snd (snd s')) = (trace w1 ++ evs)%list /\
                           forallb is_log evs = true /\
                           (List.length evs <= 1)%nat).
    { intros r m.
      cbn [fst snd emit trace closed fresh faults inbox clock].
      repeat (split; [assumption || reflexivity|]).
      exists [ELog INFO m]. rewrite T. repeat split. cbn. lia. }
    destruct (fixed_point p pd b) as [lp|e]; [|apply Hquiet].
    destruct (fixed_point q ad b) as [am|e]; [|apply Hquiet].
    destruct (signable_bytes L _ _) as [sb|e]; [|apply Hlogged].
    destruct (sign_hash L _ _) as [sig|e]; apply Hlogged.
Qed.

(* ================================================================= *)
(** ** The fixed-point conversion *)

(** The integer that [round] settles on is a nearest one, and the even
    one of the two when the fraction lies half-way. *)
Lemma round_half_even_div_nearest p q :
  0 <= p -> 0 < q ->
  let k := PyNum.round_half_even_div p q in
  2 * Z.abs (k * q - p) <= q /\
  (2 * Z.abs (k * q - p) = q -> Z.even k = true).
Proof.
  intros Hp Hq. unfold PyNum.round_half_even_div.
  pose proof (Z.div_eucl_eq p q ltac:(lia)) as E.
  pose proof (Z.mod_pos_bound p q Hq) as B.
  unfold Z.modulo in B. destruct (Z.div_eucl p q) as [d r]. cbv zeta.
  assert (Hdown : Z.abs (d * q - p) = r).
  { replace (d * q - p) with (- r) by lia. rewrite Z.abs_opp.
    apply Z.abs_eq. lia. }
  assert (Hup : Z.abs ((d + 1) * q - p) = q - r).
  { replace ((d + 1) * q - p) with (q - r) by lia. apply Z.abs_eq. lia. }
  destruct (2 * r ?= q) eqn:C.
  - apply Z.compare_eq in C. destruct (Z.even d) eqn:Ev.
    + rewrite Hdown. split; [lia|intros _; exact Ev].
    + rewrite Hup. split; [lia|]. intros _. rewrite Z.even_add, Ev.
      reflexivity.
  - rewrite Z.compare_lt_iff in C. rewrite Hdown.
    split; [lia|intros H; exfalso; lia].
  - rewrite Z.compare_gt_iff in C. rewrite Hup.
    split; [lia|intros H; exfalso; lia].
Qed.

Lemma fixed_point_int z d b : fixed_point (PyNum.PInt z) d b = Ok (z * d).
Proof.
  unfold fixed_point. cbn. unfold PyNum.round_int.
  destruct b; reflexivity.
Qed.

(** C4, as the code has it, for a sell order.  [sign_order] signs the
    struct whose limitPrice and amount are [int(round(value * scale,
    0))] for the scales given (multipliers, not exponents); [round]
    takes a float to the double nearest to the integer that is nearest
    to its exact value, ties going to the even integer, not away from
    zero (7812.5 gives 7812, 23437.5 gives 23438); an int converts to
    exactly [value * scale]. *)
Theorem sell_order_fixed_point L i p q t pd ad c w salt0 sig oid :
  fst (sign_order L i false p q t pd ad (c, w)) = Ok (salt0, sig, oid) ->
  (exists lp am sb,
     rbind (PyNum.mul_int p pd)
           (fun x => rbind (PyNum.round_num x 0) PyNum.int_num) = Ok lp /\
     rbind (PyNum.mul_int q ad)
           (fun x => rbind (PyNum.round_num x 0) PyNum.int_num) = Ok am /\
     signable_bytes L (mkOrder (wallet_address c) false lp am salt0 i t)
                    (signing_domain c) = Ok sb /\
     oid = ("0x" ++ PyStr.hex (keccak L sb))%string) /\
  (forall x s m e,
     Prim2SF x = S754_finite s m e ->
     let n := Z.pos m * 2 ^ Z.max e 0 in
     let d := 2 ^ Z.max (- e) 0 in
     let k := PyNum.round_half_even_div n d in
     PyNum.round_float x 0
       = (let f := SF2Prim (PyNum.Zdiv_to_SF s k 1) in
          if is_infinity f then Raise OverflowError else Ok f) /\
     2 * Z.abs (k * d - n) <= d /\
     (2 * Z.abs (k * d - n) = d -> Z.even k = true)) /\
  (forall z scale, fixed_point (PyNum.PInt z) scale false = Ok (z * scale)) /\
  fixed_point (PyNum.PFloat 0x1p-7) (10 ^ 6) false = Ok 7812 /\
  fixed_point (PyNum.PFloat 0x1.8p-6) (10 ^ 6) false = Ok 23438.
Proof.
  intros H. split; [|split; [|split; [|split]]].
  - destruct (sign_order_ok _ _ _ _ _ _ _ _ _ _ H)
      as [lp [am [sb [_ [Hlp [Ham [Hsb [_ Ho]]]]]]]].
    exists lp, am, sb. repeat split; assumption.
  - intros x s m e Hx n d k. split.
    + unfold PyNum.round_float. rewrite Hx. cbn [Z.max Z.opp Z.pow].
      change (Z.max 0 0) with 0. change (10 ^ 0) with 1.
      rewrite !Z.mul_1_r, !Z.mul_1_l. reflexivity.
    + apply round_half_even_div_nearest.
      * subst n. apply Z.mul_nonneg_nonneg; [lia|]. apply Z.pow_nonneg. lia.
      * subst d. apply Z.pow_pos_nonneg; lia.
  - intros z scale. apply fixed_point_int.
  - vm_compute. reflexivity.
  - vm_compute. reflexivity.
Qed.

(* ================================================================= *)
(** ** The reaction to a fill *)

Lemma bind_log {A} lvl m (k : M A) s :
  (log lvl m ;; k) s = k (fst s, emit (ELog lvl m) (snd s)).
Proof. reflexivity. Qed.

Lemma all_cons v l : Py.all (v :: l) = Py.truthy v && Py.all l.
Proof. reflexivity. Qed.

(** On a fill with all its fields the handler logs the fill, computes
    the price of the replacement and submits it under the guard of
    [place_opposite_order]: one call of [create_order], for the same
    instrument and quantity, on the other side. *)
Lemma handle_fills_valid L msg gi pd fd p q sd i np s :
  valid_fill msg = Some (fd, p, q, sd, i) ->
  calculate_opposite_price p (negb (String.eqb (PyStr.lower sd) "buy")) gi pd
    = Ok np ->
  handle_fills_message L msg gi pd s
    = (log INFO (LogJson "Fill" fd) ;;
       place_opposite_order L i (negb (String.eqb (PyStr.lower sd) "buy")) np q)
        s.
Proof.
  unfold valid_fill. intros H Hprice.
  destruct (Py.get msg "data" (JDict [])) as [[| | | | | |d]|] eqn:Hdata;
    try discriminate.
  destruct (Py.lookup "fill" d) as [[| | | | | |f]|] eqn:Hfill;
    try discriminate.
  destruct (Py.lookup "order_id" f) as [o|] eqn:Ho; [|discriminate].
  destruct (Py.lookup "price" f) as [pj|] eqn:Hp; [|discriminate].
  destruct (Py.lookup "filled" f) as [qj|] eqn:Hq; [|discriminate].
  destruct (Py.lookup "side" f) as [[| | | |sd0| |]|] eqn:Hsd;
    try discriminate.
  destruct (Py.lookup "instrument_id" f) as [ij|] eqn:Hi; [|discriminate].
  destruct (Py.all [JDict f; o; pj; qj; JStr sd0; ij]) eqn:Hall;
    [|discriminate].
  destruct (Py.to_float pj) as [pf|] eqn:Hpf; [|discriminate].
  destruct (Py.to_float qj) as [qf|] eqn:Hqf; [|discriminate].
  destruct (Py.to_int ij) as [iz|] eqn:Hiz; [|discriminate].
  inversion H; subst. clear H.
  rewrite all_cons in Hall. apply andb_prop in Hall. destruct Hall as [Ht Hall].
  unfold handle_fills_message.
  unfold bind at 1. unfold lift at 1. rewrite Hdata.
  unfold bind at 1. unfold lift at 1. cbn [Py.get]. rewrite Hfill. rewrite Ht.
  cbn [negb]. rewrite !bind_log.
  unfold bind, lift. cbn [Py.get]. rewrite Ho, Hp, Hq, Hsd, Hi. rewrite Hall. cbn [negb].
  unfold catch. rewrite Hpf, Hqf. cbn [Py.lower]. rewrite Hiz.
  unfold ret. rewrite Hprice. reflexivity.
Qed.

(** A fill that lacks the conversion of a field is not answered. *)
Lemma truthy_side_nonempty sd : Py.truthy (JStr sd) = true -> sd <> "".
Proof. intros H ->. discriminate. Qed.

Lemma valid_fill_side msg fd p q sd i :
  valid_fill msg = Some (fd, p, q, sd, i) -> sd <> "".
Proof.
  unfold valid_fill. intros H.
  destruct (Py.get msg "data" (JDict [])) as [[| | | | | |d]|];
    try discriminate.
  destruct (Py.lookup "fill" d) as [[| | | | | |f]|]; try discriminate.
  destruct (Py.lookup "order_id" f) as [o|]; [|discriminate].
  destruct (Py.lookup "price" f) as [pj|]; [|discriminate].
  destruct (Py.lookup "filled" f) as [qj|]; [|discriminate].
  destruct (Py.lookup "side" f) as [[| | | |sd0| |]|]; try discriminate.
  destruct (Py.lookup "instrument_id" f) as [ij|]; [|discriminate].
  destruct (Py.all [JDict f; o; pj; qj; JStr sd0; ij]) eqn:Hall;
    [|discriminate].
  destruct (Py.to_float pj); [|discriminate].
  destruct (Py.to_float qj); [|discriminate].
  destruct (Py.to_int ij); [|discriminate].
  inversion H; subst.
  rewrite !all_cons in Hall.
  repeat (apply andb_prop in Hall; destruct Hall as [? Hall]).
  apply truthy_side_nonempty. assumption.
Qed.

(** [create_order] on a connection that works, for an order that can
    be signed: the clock and the generator are read, two records are
    logged and one frame goes out. *)
Lemma create_order_healthy L i b p q po c w h lp am sb sg :
  connection c = Some h ->
  is_closed h w = false ->
  faults w = [] ->
  fixed_point p (10 ^ 6) b = Ok lp ->
  fixed_point q (10 ^ 6) b = Ok am ->
  let ts := fst (next_clock w) in
  let salt0 := fst (next_random w) mod (10 ^ 10 + 1) in
  signable_bytes L (mkOrder (wallet_address c) b lp am salt0 i ts)
                 (signing_domain c) = Ok sb ->
  sign_hash L (keccak L sb) (signing_key c) = Ok sg ->
  let payload :=
    create_order_payload
      (JDict [("instrument", JInt i);
              ("maker", JStr (wallet_address c));
              ("is_buy", JBool b);
              ("amount", JStr (PyStr.str_of_Z am));
              ("limit_price", JStr (PyStr.str_of_Z lp));
              ("salt", JStr (PyStr.str_of_Z salt0));
              ("signature", JStr sg);
              ("post_only", JBool po);
              ("mmp", JBool true);
              ("timestamp", JInt ts)])
      JNull in
  create_order L i b p q po JNull true (c, w)
    = (Ok ("0x" ++ PyStr.hex (keccak L sb))%string,
       (c,
        mkWorld
          (trace w
             ++ [ELog INFO (LogStr "signing_domain" (name (signing_domain c)));
                 ELog INFO (LogJson "" payload);
                 ESend h (json_dumps L payload) None])
          (closed w) (fresh w) [] (inbox w)
          (clock (snd (next_clock w))) (rng (snd (next_random w))))).
Proof.
  intros Hc Hcl Hf Hlp Ham ts salt0 Hsb Hsg payload.
  destruct w as [tr cl fr fl inb ck rg]. cbn [faults] in Hf. subst fl.
  unfold is_closed in Hcl. cbn [closed] in Hcl.
  unfold create_order, create_order_ws_json.
  unfold bind at 1. unfold bind at 1. unfold time_now at 1, outside at 1.
  cbn [snd fst].
  destruct (next_clock (mkWorld tr cl fr [] inb ck rg)) as [t0 wc] eqn:Eclock.
  assert (Hwc : wc = mkWorld tr cl fr [] inb (clock wc) rg).
  { unfold next_clock in Eclock. cbn in Eclock.
    destruct ck; inversion Eclock; reflexivity. }
  cbn [fst] in ts. subst ts.
  unfold bind at 1. rewrite sign_order_run. cbv zeta.
  assert (Hrand : next_random wc
                  = (fst (next_random (mkWorld tr cl fr [] inb ck rg)),
                     mkWorld tr cl fr [] inb (clock wc)
                             (rng (snd (next_random (mkWorld tr cl fr [] inb ck rg)))))).
  { rewrite Hwc. unfold next_random. cbn. destruct rg; reflexivity. }
  rewrite Hrand. cbn [fst snd]. fold salt0.
  rewrite Hlp, Ham. unfold wallet_address at 1.
  fold (wallet_address c). rewrite Hsb, Hsg.
  unfold bind, self, lift, ret. cbn [fst snd].
  subst payload. unfold log, record. cbn [fst snd].
  rewrite send_unfold. rewrite Hc. unfold ws_send, next_fault, is_closed.
  cbn. rewrite Hcl. cbn. unfold emit. cbn. norm_app. reflexivity.
Qed.

Lemma next_clock_emit e w : fst (next_clock (emit e w)) = fst (next_clock w).
Proof. unfold next_clock. cbn. destruct (clock w); reflexivity. Qed.

Lemma next_random_emit e w : fst (next_random (emit e w)) = fst (next_random w).
Proof. unfold next_random. cbn. destruct (rng w); reflexivity. Qed.

Lemma place_opposite_order_raised L i b p q s e s1 :
  create_order L i b (PyNum.PFloat p) (PyNum.PFloat q) true JNull true s
    = (Raise e, s1) ->
  place_opposite_order L i b p q s
    = (Ok tt,
       (fst s1,
        emit (ELog ERROR (LogExn "Error while creating the opposite order" e))
             (snd s1))).
Proof.
  intros H. unfold place_opposite_order, catch, bind. rewrite H. reflexivity.
Qed.

Lemma handed_over_app a b :
  handed_over (a ++ b) = (handed_over a ++ handed_over b)%list.
Proof. unfold handed_over. apply flat_map_app. Qed.

(** C2.  On a fill with all its required fields present and
    convertible the handler makes exactly one call of [create_order]:
    for the instrument and the quantity of the fill, post-only, on the
    side opposite to the fill's; an exception that the call raises is
    logged and the handler returns normally.  On a connection that
    works, for an order that can be signed, exactly one frame is handed
    to the transport: the [create_order] frame of that order. *)
Theorem fill_places_one_post_only_order L msg gi pd fd p q sd i np :
  valid_fill msg = Some (fd, p, q, sd, i) ->
  let fill_is_buy := String.eqb (PyStr.lower sd) "buy" in
  calculate_opposite_price p (negb fill_is_buy) gi pd = Ok np ->
  (forall s,
     handle_fills_message L msg gi pd s
       = (log INFO (LogJson "Fill" fd) ;;
          catch
            (new_order_id <-
               create_order L i (negb fill_is_buy) (PyNum.PFloat np)
                            (PyNum.PFloat q) true JNull true ;;
             log INFO (LogStr "Opposite order created" new_order_id))
            (fun e =>
               log ERROR (LogExn "Error while creating the opposite order" e)))
           s) /\
  (forall s, exists s', handle_fills_message L msg gi pd s = (Ok tt, s')) /\
  (forall s e s1,
     create_order L i (negb fill_is_buy) (PyNum.PFloat np) (PyNum.PFloat q)
                  true JNull true s = (Raise e, s1) ->
     place_opposite_order L i (negb fill_is_buy) np q s
       = (Ok tt,
          (fst s1,
           emit (ELog ERROR (LogExn "Error while creating the opposite order" e))
                (snd s1)))) /\
  (forall c w h lp am sb sg,
     connection c = Some h ->
     is_closed h w = false ->
     faults w = [] ->
     fixed_point (PyNum.PFloat np) (10 ^ 6) (negb fill_is_buy) = Ok lp ->
     fixed_point (PyNum.PFloat q) (10 ^ 6) (negb fill_is_buy) = Ok am ->
     let ts := fst (next_clock w) in
     let salt0 := fst (next_random w) mod (10 ^ 10 + 1) in
     signable_bytes L
       (mkOrder (wallet_address c) (negb fill_is_buy) lp am salt0 i ts)
       (signing_domain c) = Ok sb ->
     sign_hash L (keccak L sb) (signing_key c) = Ok sg ->
     let frame_sent :=
       json_dumps L
         (JDict [("op", JStr "create_order");
                 ("data",
                  JDict [("instrument", JInt i);
                         ("maker", JStr (wallet_address c));
                         ("is_buy", JBool (negb fill_is_buy));
                         ("amount", JStr (PyStr.str_of_Z am));
                         ("limit_price", JStr (PyStr.str_of_Z lp));
                         ("salt", JStr (PyStr.str_of_Z salt0));
                         ("signature", JStr sg);
                         ("post_only", JBool true);
                         ("mmp", JBool true);
                         ("timestamp", JInt ts)])]) in
     exists s',
       handle_fills_message L msg gi pd (c, w) = (Ok tt, s') /\
       handed_over (trace (snd s')) = (handed_over (trace w) ++ [frame_sent])%list /\
       delivered (trace (snd s'))
         = (delivered (trace w) ++ [(h, frame_sent)])%list).
Proof.
  intros Hv fill_is_buy Hprice.
  pose proof (fun s => @handle_fills_valid L msg gi pd fd p q sd i np s Hv Hprice)
    as Hrun.
  fold fill_is_buy in Hrun.
  split; [exact Hrun|]. split; [|split].
  - intros s. rewrite Hrun. rewrite bind_log.
    apply (returns_unit _ (place_opposite_order_returns L i (negb fill_is_buy) np q)).
  - intros s e s1. apply place_opposite_order_raised.
  - intros c w h lp am sb sg Hc Hcl Hf Hlp Ham ts salt0 Hsb Hsg frame_sent.
    rewrite Hrun. rewrite bind_log. cbn [fst snd].
    set (w0 := emit (ELog INFO (LogJson "Fill" fd)) w).
    assert (Hsb0 : signable_bytes L
                     (mkOrder (wallet_address c) (negb fill_is_buy) lp am
                              (fst (next_random w0) mod (10 ^ 10 + 1)) i
                              (fst (next_clock w0)))
                     (signing_domain c) = Ok sb).
    { subst w0. rewrite next_clock_emit, next_random_emit. exact Hsb. }
    pose proof (@create_order_healthy L i (negb fill_is_buy) (PyNum.PFloat np)
                  (PyNum.PFloat q) true c w0 h lp am sb sg Hc Hcl Hf Hlp Ham
                  Hsb0 Hsg) as Hco.
    cbv zeta in Hco. subst w0.
    rewrite next_clock_emit, next_random_emit in Hco. fold ts salt0 in Hco.
    unfold place_opposite_order, catch, bind. rewrite Hco.
    unfold log, record. cbn [fst snd]. eexists. split; [reflexivity|].
    cbn [snd trace emit]. unfold create_order_payload. cbn [Py.truthy app].
    fold frame_sent. split.
    + rewrite !handed_over_app. cbn. rewrite !app_nil_r. reflexivity.
    + rewrite !delivered_app. cbn. rewrite !app_nil_r. reflexivity.
Qed.

(** The handler on a fill that can be used, on a connection that
    works, for an order that can be signed: one frame is handed over,
    the [create_order] frame of the opposite order. *)
Lemma handle_fills_healthy L msg gi pd fd p q sd i np c w h lp am sb sg :
  valid_fill msg = Some (fd, p, q, sd, i) ->
  let order_is_buy := negb (String.eqb (PyStr.lower sd) "buy") in
  calculate_opposite_price p order_is_buy gi pd = Ok np ->
  connection c = Some h ->
  is_closed h w = false ->
  faults w = [] ->
  fixed_point (PyNum.PFloat np) (10 ^ 6) order_is_buy = Ok lp ->
  fixed_point (PyNum.PFloat q) (10 ^ 6) order_is_buy = Ok am ->
  let ts := fst (next_clock w) in
  let salt0 := fst (next_random w) mod (10 ^ 10 + 1) in
  signable_bytes L (mkOrder (wallet_address c) order_is_buy lp am salt0 i ts)
                 (signing_domain c) = Ok sb ->
  sign_hash L (keccak L sb) (signing_key c) = Ok sg ->
  let frame_sent :=
    json_dumps L
      (JDict [("op", JStr "create_order");
              ("data",
               JDict [("instrument", JInt i);
                      ("maker", JStr (wallet_address c));
                      ("is_buy", JBool order_is_buy);
                      ("amount", JStr (PyStr.str_of_Z am));
                      ("limit_price", JStr (PyStr.str_of_Z lp));
                      ("salt", JStr (PyStr.str_of_Z salt0));
                      ("signature", JStr sg);
                      ("post_only", JBool true);
                      ("mmp", JBool true);
                      ("timestamp", JInt ts)])]) in
  exists s',
    handle_fills_message L msg gi pd (c, w) = (Ok tt, s') /\
    handed_over (trace (snd s')) = (handed_over (trace w) ++ [frame_sent])%list /\
    delivered (trace (snd s'))
      = (delivered (trace w) ++ [(h, frame_sent)])%list.
Proof.
  intros Hv order_is_buy Hprice Hc Hcl Hf Hlp Ham ts salt0 Hsb Hsg frame_sent.
  rewrite (@handle_fills_valid L msg gi pd fd p q sd i np (c, w) Hv Hprice).
  fold order_is_buy. rewrite bind_log. cbn [fst snd].
  set (w0 := emit (ELog INFO (LogJson "Fill" fd)) w).
  assert (Hsb0 : signable_bytes L
                   (mkOrder (wallet_address c) order_is_buy lp am
                            (fst (next_random w0) mod (10 ^ 10 + 1)) i
                            (fst (next_clock w0)))
                   (signing_domain c) = Ok sb).
  { subst w0. rewrite next_clock_emit, next_random_emit. exact Hsb. }
  pose proof (@create_order_healthy L i order_is_buy (PyNum.PFloat np)
                (PyNum.PFloat q) true c w0 h lp am sb sg Hc Hcl Hf Hlp Ham
                Hsb0 Hsg) as Hco.
  cbv zeta in Hco. subst w0.
  rewrite next_clock_emit, next_random_emit in Hco. fold ts salt0 in Hco.
  unfold place_opposite_order, catch, bind. rewrite Hco.
  unfold log, record. cbn [fst snd]. eexists. split; [reflexivity|].
  cbn [snd trace emit]. unfold create_order_payload. cbn [Py.truthy app].
  fold frame_sent. split.
  - rewrite !handed_over_app. cbn. rewrite !app_nil_r. reflexivity.
  - rewrite !delivered_app. cbn. rewrite !app_nil_r. reflexivity.
Qed.

(** C9.  A fill whose side is a non-empty string that is not a spelling
    of "buy" is not rejected: the handler logs the fill and returns
    normally, having made the one call of [create_order] that a sell
    fill gets, an order to buy at the fill price less the grid
    interval.  On a connection that works, for an order that can be
    signed, that buy order is issued: exactly one frame is handed to
    the transport, the [create_order] frame with [is_buy] true. *)
Theorem unknown_side_treated_as_sell L msg gi pd fd p q sd i np :
  valid_fill msg = Some (fd, p, q, sd, i) ->
  PyStr.lower sd <> "buy" ->
  calculate_opposite_price p true gi pd = Ok np ->
  sd <> "" /\
  (forall s,
     handle_fills_message L msg gi pd s
       = (log INFO (LogJson "Fill" fd) ;;
          catch
            (new_order_id <-
               create_order L i true (PyNum.PFloat np) (PyNum.PFloat q)
                            true JNull true ;;
             log INFO (LogStr "Opposite order created" new_order_id))
            (fun e =>
               log ERROR (LogExn "Error while creating the opposite order" e)))
           s) /\
  (exists g,
     PyNum.float_of_Z gi = Ok g /\
     PyNum.round_float (p - g)%float pd = Ok np) /\
  (forall s, exists s', handle_fills_message L msg gi pd s = (Ok tt, s')) /\
  (forall c w h lp am sb sg,
     connection c = Some h ->
     is_closed h w = false ->
     faults w = [] ->
     fixed_point (PyNum.PFloat np) (10 ^ 6) true = Ok lp ->
     fixed_point (PyNum.PFloat q) (10 ^ 6) true = Ok am ->
     let ts := fst (next_clock w) in
     let salt0 := fst (next_random w) mod (10 ^ 10 + 1) in
     signable_bytes L (mkOrder (wallet_address c) true lp am salt0 i ts)
                    (signing_domain c) = Ok sb ->
     sign_hash L (keccak L sb) (signing_key c) = Ok sg ->
     let frame_sent :=
       json_dumps L
         (JDict [("op", JStr "create_order");
                 ("data",
                  JDict [("instrument", JInt i);
                         ("maker", JStr (wallet_address c));
                         ("is_buy", JBool true);
                         ("amount", JStr (PyStr.str_of_Z am));
                         ("limit_price", JStr (PyStr.str_of_Z lp));
                         ("salt", JStr (PyStr.str_of_Z salt0));
                         ("signature", JStr sg);
                         ("post_only", JBool true);
                         ("mmp", JBool true);
                         ("timestamp", JInt ts)])]) in
     exists s',
       handle_fills_message L msg gi pd (c, w) = (Ok tt, s') /\
       handed_over (trace (snd s')) = (handed_over (trace w) ++ [frame_sent])%list /\
       delivered (trace (snd s'))
         = (delivered (trace w) ++ [(h, frame_sent)])%list).
Proof.
  intros Hv Hside Hprice.
  assert (Hb : String.eqb (PyStr.lower sd) "buy" = false)
    by (apply String.eqb_neq; exact Hside).
  assert (Hrun : forall s,
             handle_fills_message L msg gi pd s
             = (log INFO (LogJson "Fill" fd) ;;
                place_opposite_order L i true np q) s).
  { intros s. rewrite (@handle_fills_valid L msg gi pd fd p q sd i np s Hv);
      rewrite Hb; [reflexivity|exact Hprice]. }
  split; [exact (valid_fill_side _ Hv)|]. split; [exact Hrun|].
  split; [|split].
  - unfold calculate_opposite_price, rbind in Hprice.
    destruct (PyNum.float_of_Z gi) as [g|e]; [|discriminate].
    exists g. split; [reflexivity|exact Hprice].
  - intros s. rewrite Hrun. rewrite bind_log.
    apply (returns_unit _ (place_opposite_order_returns L i true np q)).
  - intros c w h lp am sb sg Hc Hcl Hf Hlp Ham ts salt0 Hsb Hsg frame_sent.
    pose proof (@handle_fills_healthy L msg gi pd fd p q sd i np c w h lp am
                  sb sg Hv) as H.
    cbv zeta in H. rewrite Hb in H. cbn [negb] in H.
    exact (H Hprice Hc Hcl Hf Hlp Ham Hsb Hsg).
Qed.

(** C1, at a fill of 3200.00 with a grid interval of 5 and two price
    decimals.  Called with [is_buy] set, [calculate_opposite_price]
    gives 3195, and 3205 otherwise; but the handler gives it the side of
    the new order, so a buy fill is answered by a sell order at 3205 and
    a sell fill by a buy order at 3195, where the grid rule of the
    specification gives 3195 for the buy fill and 3205 for the sell
    fill. *)
Theorem fill_replacement_price_inverted L s :
  calculate_opposite_price 3200 true 5 2 = Ok 3195%float /\
  calculate_opposite_price 3200 false 5 2 = Ok 3205%float /\
  spec_opposite_price 3200 true 5 = 3195%float /\
  spec_opposite_price 3200 false 5 = 3205%float /\
  handle_fills_message L (Demo.fill_message "buy" "3200.00" "0.003") 5 2 s
    = (log INFO (LogJson "Fill" (Demo.fill_data "buy" "3200.00" "0.003")) ;;
       place_opposite_order L 1 false 3205 0x1.89374bc6a7efap-9) s /\
  handle_fills_message L (Demo.fill_message "sell" "3200.00" "0.003") 5 2 s
    = (log INFO (LogJson "Fill" (Demo.fill_data "sell" "3200.00" "0.003")) ;;
       place_opposite_order L 1 true 3195 0x1.89374bc6a7efap-9) s.
Proof.
  repeat split; vm_compute; reflexivity.
Qed.

(* ================================================================= *)
(** ** The theorems at sample inputs *)

(** C2 at a buy fill of 0.003 at 3200.00 on a connected client. *)
Lemma fill_places_one_post_only_order_witness :
  valid_fill (Demo.fill_message "buy" "3200.00" "0.003")
    = Some (Demo.fill_data "buy" "3200.00" "0.003", 3200%float,
            0x1.89374bc6a7efap-9%float, "buy", 1) /\
  calculate_opposite_price 3200 (negb (String.eqb (PyStr.lower "buy") "buy")) 5 2
    = Ok 3205%float /\
  exists s',
    handle_fills_message Demo.lib (Demo.fill_message "buy" "3200.00" "0.003")
                         5 2
                         (Demo.online, Demo.serving [] [] [1700000000] [42])
      = (Ok tt, s').
Proof.
  assert (H1 : valid_fill (Demo.fill_message "buy" "3200.00" "0.003")
               = Some (Demo.fill_data "buy" "3200.00" "0.003", 3200%float,
                       0x1.89374bc6a7efap-9%float, "buy", 1))
    by (vm_compute; reflexivity).
  assert (H2 : calculate_opposite_price
                 3200 (negb (String.eqb (PyStr.lower "buy") "buy")) 5 2
               = Ok 3205%float)
    by (vm_compute; reflexivity).
  split; [exact H1|]. split; [exact H2|].
  destruct (@fill_places_one_post_only_order Demo.lib _ 5 2 _ _ _ _ _ _ H1 H2)
    as [_ [H _]].
  apply H.
Defined.

(** C9 at a fill whose side reads "hold", on a connected client: the
    handler returns normally and has handed one frame to connection 0,
    an order to buy 0.003 at 3195. *)
Lemma unknown_side_treated_as_sell_witness :
  valid_fill (Demo.fill_message "hold" "3200.00" "0.003")
    = Some (Demo.fill_data "hold" "3200.00" "0.003", 3200%float,
            0x1.89374bc6a7efap-9%float, "hold", 1) /\
  calculate_opposite_price 3200 true 5 2 = Ok 3195%float /\
  (exists g,
     PyNum.float_of_Z 5 = Ok g /\
     PyNum.round_float (3200 - g)%float 2 = Ok 3195%float) /\
  exists sb sg s',
    signable_bytes Demo.lib
      (mkOrder "0xW" true 3195000000 3000 42 1 1700000000)
      (signing_domain Demo.online) = Ok sb /\
    sign_hash Demo.lib (keccak Demo.lib sb) "k1" = Ok sg /\
    handle_fills_message Demo.lib (Demo.fill_message "hold" "3200.00" "0.003")
                         5 2
                         (Demo.online, Demo.serving [] [] [1700000000] [42])
      = (Ok tt, s') /\
    handed_over (trace (snd s'))
      = [Demo.dumps
           (JDict [("op", JStr "create_order");
                   ("data",
                    JDict [("instrument", JInt 1);
                           ("maker", JStr "0xW");
                           ("is_buy", JBool true);
                           ("amount", JStr "3000");
                           ("limit_price", JStr "3195000000");
                           ("salt", JStr "42");
                           ("signature", JStr sg);
                           ("post_only", JBool true);
                           ("mmp", JBool true);
                           ("timestamp", JInt 1700000000)])])] /\
    map fst (delivered (trace (snd s'))) = [0%nat].
Proof.
  assert (H1 : valid_fill (Demo.fill_message "hold" "3200.00" "0.003")
               = Some (Demo.fill_data "hold" "3200.00" "0.003", 3200%float,
                       0x1.89374bc6a7efap-9%float, "hold", 1))
    by (vm_compute; reflexivity).
  assert (H2 : PyStr.lower "hold" <> "buy") by (vm_compute; discriminate).
  assert (H3 : calculate_opposite_price 3200 true 5 2 = Ok 3195%float)
    by (vm_compute; reflexivity).
  split; [exact H1|]. split; [exact H3|].
  destruct (@unknown_side_treated_as_sell Demo.lib _ 5 2 _ _ _ _ _ _ H1 H2 H3)
    as [_ [_ [H [_ Hframe]]]].
  split; [exact H|].
  assert (Hlp : fixed_point (PyNum.PFloat 3195) (10 ^ 6) true = Ok 3195000000)
    by (vm_compute; reflexivity).
  assert (Ham : fixed_point (PyNum.PFloat 0x1.89374bc6a7efap-9) (10 ^ 6) true
                = Ok 3000)
    by (vm_compute; reflexivity).
  destruct (Demo.encode (mkOrder "0xW" true 3195000000 3000 42 1 1700000000)
                        (signing_domain Demo.online)) as [sb|e] eqn:Hsb;
    [|vm_compute in Hsb; discriminate Hsb].
  destruct (Demo.sign (Demo.digest sb) "k1") as [sg|e] eqn:Hsg;
    [|vm_compute in Hsg; discriminate Hsg].
  destruct (Hframe Demo.online (Demo.serving [] [] [1700000000] [42]) 0%nat
              3195000000 3000 sb sg eq_refl eq_refl eq_refl Hlp Ham Hsb Hsg)
    as [s' [R [Ho Hd]]].
  exists sb, sg, s'. split; [exact Hsb|]. split; [exact Hsg|].
  split; [exact R|]. split; [exact Ho|].
  rewrite Hd. reflexivity.
Defined.


(** C10 at a ticker subscription answered by an undecodable frame. *)
Lemma subscription_registered_unconditionally_witness :
  let s := (Demo.online, Demo.serving [] [Frame "garbage"] [] []) in
  let frame0 :=
    json_dumps Demo.lib (subscribe_message (channel_name (Ticker "ETH-PERP"))) in
  wf_state s = true /\
  connection_send frame0 s = (Ok tt, snd (connection_send frame0 s)) /\
  fst (subscribe Demo.lib (Ticker "ETH-PERP") s) = Raise JSONDecodeError /\
  subscribed_channels (fst (snd (subscribe Demo.lib (Ticker "ETH-PERP") s)))
    = (subscribed_channels (fst s) ++ [channel_name (Ticker "ETH-PERP")])%list.
Proof.
  intros s frame0.
  assert (H1 : connection_send frame0 s = (Ok tt, snd (connection_send frame0 s)))
    by (vm_compute; reflexivity).
  assert (H0 : wf_state s = true) by (vm_compute; reflexivity).
  split; [exact H0|]. split; [exact H1|]. split; [vm_compute; reflexivity|].
  destruct (@subscription_registered_unconditionally Demo.lib
              (Ticker "ETH-PERP") s _ H0 H1) as [_ [H _]].
  exact H.
Defined.

(** C7 at an undecodable frame followed by a ticker frame. *)
Lemma malformed_frame_isolated_witness :
  let w :=
    Demo.serving [] [Frame "garbage"; Frame (Demo.dumps Demo.ticker_message)]
                 [] [] in
  is_closed 0%nat w = false /\
  json_loads Demo.lib "garbage" = None /\
  message_handler_turn Demo.lib 5 2 (Demo.online, w)
    = (Ok tt,
       (Demo.online,
        mkWorld
          [ERecv 0%nat 20 (Frame "garbage");
           ELog ERROR (LogExn "Error while parsing the JSON response" JSONDecodeError)]
          [] 1%nat [] [Frame (Demo.dumps Demo.ticker_message)] [] [])).
Proof.
  intros w.
  assert (H1 : connection Demo.online = Some 0%nat) by reflexivity.
  assert (H2 : is_closed 0%nat w = false) by reflexivity.
  assert (H3 : json_loads Demo.lib "garbage" = None)
    by (vm_compute; reflexivity).
  split; [exact H2|]. split; [exact H3|].
  destruct (@malformed_frame_isolated Demo.lib 5 2 Demo.online w 0%nat
              "garbage" H1 H2 H3) as [H _].
  apply (H [Frame (Demo.dumps Demo.ticker_message)]). reflexivity.
Defined.

(** C8 at two clients that share their credentials and differ in
    everything else, and two worlds that agree on the next draw only:
    both runs succeed, with the salt 42, the signature of the hash and
    the id made of the hash. *)
Lemma signing_deterministic_witness :
  credentials Demo.idle = credentials Demo.online /\
  fst (next_random (Demo.scripted [] [] [] [42]))
    = fst (next_random (Demo.serving [Some OSError] [Silence] [7] [42; 43])) /\
  Demo.signed Demo.idle (Demo.scripted [] [] [] [42])
    = Demo.signed Demo.online (Demo.serving [Some OSError] [Silence] [7] [42; 43]) /\
  exists sb sg,
    fixed_point (PyNum.PFloat 0x1p-7) (10 ^ 6) false = Ok 7812 /\
    signable_bytes Demo.lib (mkOrder "0xW" false 7812 7812 42 1 1700000000)
                   (signing_domain Demo.idle) = Ok sb /\
    sign_hash Demo.lib (keccak Demo.lib sb) "k1" = Ok sg /\
    Demo.signed Demo.idle (Demo.scripted [] [] [] [42])
      = Ok (42, sg, "0x" ++ PyStr.hex (keccak Demo.lib sb))%string /\
    Demo.signed Demo.online (Demo.serving [Some OSError] [Silence] [7] [42; 43])
      = Ok (42, sg, "0x" ++ PyStr.hex (keccak Demo.lib sb))%string /\
    handed_over
      (trace (snd (snd (sign_order Demo.lib 1 false (PyNum.PFloat 0x1p-7)
                                   (PyNum.PFloat 0x1p-7) 1700000000
                                   (10 ^ 6) (10 ^ 6)
                                   (Demo.idle, Demo.scripted [] [] [] [42])))))
      = [].
Proof.
  assert (H1 : credentials Demo.idle = credentials Demo.online) by reflexivity.
  assert (H2 : fst (next_random (Demo.scripted [] [] [] [42]))
               = fst (next_random
                        (Demo.serving [Some OSError] [Silence] [7] [42; 43])))
    by reflexivity.
  split; [exact H1|]. split; [exact H2|].
  destruct (@signing_deterministic Demo.lib 1 false (PyNum.PFloat 0x1p-7)
              (PyNum.PFloat 0x1p-7) 1700000000 (10 ^ 6) (10 ^ 6)
              Demo.idle (Demo.scripted [] [] [] [42])
              Demo.online (Demo.serving [Some OSError] [Silence] [7] [42; 43])
              H1 H2) as [H [_ [_ Hrun]]].
  split; [exact H|].
  assert (Hfp : fixed_point (PyNum.PFloat 0x1p-7) (10 ^ 6) false = Ok 7812)
    by (vm_compute; reflexivity).
  destruct (Demo.encode (mkOrder "0xW" false 7812 7812 42 1 1700000000)
                        (signing_domain Demo.idle)) as [sb|e] eqn:Hsb;
    [|vm_compute in Hsb; discriminate Hsb].
  destruct (Demo.sign (Demo.digest sb) "k1") as [sg|e] eqn:Hsg;
    [|vm_compute in Hsg; discriminate Hsg].
  destruct (Hrun 7812 7812 sb sg Hfp Hfp Hsb Hsg) as [R1 [R2 R3]].
  exists sb, sg. split; [exact Hfp|]. split; [exact Hsb|]. split; [exact Hsg|].
  split; [exact (f_equal fst R1)|]. split; [exact (f_equal fst R2)|].
  exact R3.
Defined.

(** C4 at a sell order of 1/128 at 1/128. *)
Lemma sell_order_fixed_point_witness :
  let r := Demo.signed Demo.idle (Demo.scripted [] [] [] [42]) in
  r = Ok (42, Demo.signature_of r, Demo.order_id_of r) /\
  exists lp am sb,
    rbind (PyNum.mul_int (PyNum.PFloat 0x1p-7) (10 ^ 6))
          (fun x => rbind (PyNum.round_num x 0) PyNum.int_num) = Ok lp /\
    rbind (PyNum.mul_int (PyNum.PFloat 0x1p-7) (10 ^ 6))
          (fun x => rbind (PyNum.round_num x 0) PyNum.int_num) = Ok am /\
    signable_bytes Demo.lib
      (mkOrder (wallet_address Demo.idle) false lp am 42 1 1700000000)
      (signing_domain Demo.idle) = Ok sb /\
    Demo.order_id_of r = ("0x" ++ PyStr.hex (keccak Demo.lib sb))%string.
Proof.
  intros r.
  assert (H : r = Ok (42, Demo.signature_of r, Demo.order_id_of r))
    by (vm_compute; reflexivity).
  split; [exact H|].
  destruct (@sell_order_fixed_point Demo.lib 1 (PyNum.PFloat 0x1p-7)
              (PyNum.PFloat 0x1p-7) 1700000000 (10 ^ 6) (10 ^ 6)
              Demo.idle (Demo.scripted [] [] [] [42]) 42
              (Demo.signature_of r) (Demo.order_id_of r) H) as [H0 _].
  exact H0.
Defined.

(* ================================================================= *)
(** ** Where the specification and the code part *)

(** C3: with no connection object and a transport that works, [send]
    reconnects, and the new connection is there, but the only frame
    handed to the transport is the authentication frame of the
    reconnect: the payload is never sent. *)
Lemma send_without_connection_drops_payload :
  let r := send Demo.lib "ping" (Demo.idle, Demo.calm) in
  fst r = Ok tt /\
  connection (fst (snd r)) = Some 0%nat /\
  is_closed 0%nat (snd (snd r)) = false /\
  handed_over (trace (snd (snd r)))
    = [json_dumps Demo.lib (auth_message Demo.idle)] /\
  existsb (String.eqb "ping") (handed_over (trace (snd (snd r)))) = false.
Proof. vm_compute. repeat split. Qed.

(** C6: when the connect raises, [open_connection] ends with the
    ten-second pause, one attempt to connect made and none after the
    pause; and when the authentication frame cannot be sent, it leaves
    the new connection object, still open, in the client. *)
Lemma open_connection_makes_one_attempt :
  open_connection Demo.lib
                  (Demo.idle, Demo.scripted [Some OSError] [] [] [])
    = (Ok tt,
       (Demo.idle,
        mkWorld
          [ELog INFO (LogText "Opening Aevo websocket connection...");
           EConnect (ws_url Demo.idle) (Raise OSError);
           ELog ERROR (LogText "Error occurred while opening websocket connection.");
           ELog ERROR (LogExn "" OSError);
           ELog ERROR (LogText "traceback");
           ESleep 10]
          [] 0%nat [] [] [] [])) /\
  (let r := open_connection Demo.lib
              (Demo.idle, Demo.scripted [None; Some OSError] [] [] []) in
   fst r = Ok tt /\
   connection (fst (snd r)) = Some 0%nat /\
   is_closed 0%nat (snd (snd r)) = false /\
   connect_attempts (trace (snd (snd r))) = 1%nat).
Proof. vm_compute. repeat split. Qed.

(** C4: 1/128 scales to 7812.5 and 3/128 to 23437.5, exactly.  The
    code converts the first to 7812 where rounding half away from zero
    gives 7813, and the second to 23438 for a sell order but to 23437
    for a buy order; the struct that [sign_order] signs for the sell
    order of 1/128 carries 7812. *)
Lemma fixed_point_is_not_half_away :
  fixed_point (PyNum.PFloat 0x1p-7) (10 ^ 6) false = Ok 7812 /\
  spec_fixed_point 0x1p-7 6 = Some 7813 /\
  fixed_point (PyNum.PFloat 0x1.8p-6) (10 ^ 6) false = Ok 23438 /\
  fixed_point (PyNum.PFloat 0x1.8p-6) (10 ^ 6) true = Ok 23437 /\
  spec_fixed_point 0x1.8p-6 6 = Some 23438 /\
  Demo.signed Demo.idle (Demo.scripted [] [] [] [42])
    = rbind (Demo.encode (mkOrder "0xW" false 7812 7812 42 1 1700000000)
                         (signing_domain Demo.idle))
            (fun sb =>
               rbind (Demo.sign (Demo.digest sb) "k1")
                     (fun sg =>
                        Ok (42, sg, ("0x" ++ PyStr.hex (Demo.digest sb))%string))).
Proof. vm_compute. repeat split. Qed.

(* ================================================================= *)
(** * Further properties of the client *)

(** ** Closing the connection *)

(** X1.  [close_connection] never raises, and afterwards the client
    holds no open connection: an open connection is closed (at most one
    close is attempted) and dropped even when the close itself fails; a
    connection object that is already closed stays in place and only a
    line is logged. *)
Theorem close_connection_releases c w :
  let r := close_connection (c, w) in
  fst r = Ok tt /\
  (fst (snd r) = c \/ fst (snd r) = set_connection None c) /\
  (forall h, connection (fst (snd r)) = Some h ->
             is_closed h (snd (snd r)) = true) /\
  (forall h,
     connection c = Some h -> is_closed h w = false ->
     connection (fst (snd r)) = None /\
     trace (snd (snd r))
       = (trace w
            ++ [ELog INFO (LogText "Closing the existing WebSocket connection...");
                EClose h (fst (next_fault w))]
            ++ match fst (next_fault w) with
               | Some e =>
                   [ELog ERROR (LogExn "Error while closing the connection" e)]
               | None => []
               end)%list) /\
  ((connection c = None \/
    exists h, connection c = Some h /\ is_closed h w = true) ->
   snd r
     = (c, emit (ELog INFO (LogText "No active WebSocket connection to close."))
                w)).
Proof.
  destruct w as [tr cl fr fl inb ck rg].
  destruct c as [sk wa ak asec conn ords tks ltk chans en].
  unfold close_connection. run.
  destruct conn as [h|]; cbn;
    [destruct (existsb (Nat.eqb h) cl) eqn:Hc; cbn;
     [|rewrite Hc; cbn; destruct fl as [|[e|] fl]; cbn]|].
  all: repeat split; auto; intros;
    repeat match goal with
           | H : Some _ = Some _ |- _ => inversion H; subst; clear H
           | H : _ \/ _ |- _ => destruct H
           | H : exists _, _ |- _ => destruct H
           | H : _ /\ _ |- _ => destruct H
           end;
    try discriminate; try congruence; norm_app; try split;
    try reflexivity; try congruence.
Qed.

(* ================================================================= *)
(** ** A reconnect that cannot open a connection *)

(** X2.  When the client has no connection and the attempt to connect
    fails, a reconnect returns normally after the two pauses (5 s and
    10 s) with the client as it was, still without connection: it makes
    this one attempt only and hands nothing to the transport.  If
    channels are registered, their replay fails on the missing
    connection and that failure is logged too. *)
Theorem reconnect_failure_leaves_no_connection L c w e fl :
  connection c = None ->
  faults w = Some e :: fl ->
  reconnect L (c, w)
    = (Ok tt,
       (c,
        mkWorld
          (trace w
             ++ [ELog INFO (LogText "Trying to reconnect the WebSocket...");
                 ELog INFO (LogText "No active WebSocket connection to close.");
                 ESleep 5;
                 ELog INFO (LogText "Opening Aevo websocket connection...");
                 EConnect (ws_url c) (Raise e);
                 ELog ERROR
                   (LogText "Error occurred while opening websocket connection.");
                 ELog ERROR (LogExn "" e);
                 ELog ERROR (LogText "traceback");
                 ESleep 10]
             ++ match subscribed_channels c with
                | [] => []
                | _ :: _ => [ELog ERROR (LogExn "Reconnect failed" AttributeError)]
                end)
          (closed w) (fresh w) fl (inbox w) (clock w) (rng w))).
Proof.
  destruct w as [tr cl fr fl0 inb ck rg].
  destruct c as [sk wa ak asec conn ords tks ltk chans en].
  cbn [connection faults]. intros -> ->.
  unfold reconnect, close_connection, open_connection, open_attempt,
    open_failed, resubscribe_channels.
  run. destruct chans as [|ch rest]; cbn [resubscribe_loop]; run; norm_app;
    reflexivity.
Qed.

(* ================================================================= *)
(** ** A replay of the registry that fails on the way *)

Lemma resubscribe_loop_fails L c tr cl fr inb ck rg h sent ch rest e fl :
  connection c = Some h -> existsb (Nat.eqb h) cl = false ->
  resubscribe_loop L (sent ++ ch :: rest)
    (c, mkWorld tr cl fr (repeat None (List.length sent) ++ Some e :: fl)
                inb ck rg)
  = (Raise e,
     (c,
      mkWorld (tr ++ replay L h sent
                 ++ [ESend h (json_dumps L (subscribe_message ch)) (Some e)])
              (if is_ConnectionClosed e then h :: cl else cl)
              fr fl inb ck rg)).
Proof.
  intros Hc Hcl. revert tr. induction sent as [|x sent IH]; intros tr.
  - cbn [app List.length repeat resubscribe_loop replay flat_map].
    run. rewrite Hc. cbn. rewrite Hcl. cbn.
    destruct (is_ConnectionClosed e); reflexivity.
  - cbn [app List.length repeat resubscribe_loop]. unfold bind at 1.
    unfold connection_send, bind, self, ws_send, log, record.
    cbn. rewrite Hc. cbn. rewrite Hcl. cbn. unfold emit. cbn.
    rewrite IH. norm_app. reflexivity.
Qed.

Lemma handed_over_replay L h chans :
  handed_over (replay L h chans)
    = map (fun ch => json_dumps L (subscribe_message ch)) chans.
Proof.
  induction chans as [|ch rest IH]; [reflexivity|].
  cbn. f_equal. exact IH.
Qed.

(** X3.  [resubscribe_channels] replays the registry in order and stops
    at the first subscribe frame that the transport refuses: the
    exception leaves the method, and the channels registered after that
    one are not replayed. *)
Theorem resubscribe_stops_at_first_failure L c w h sent ch rest e fl :
  connection c = Some h ->
  is_closed h w = false ->
  subscribed_channels c = (sent ++ ch :: rest)%list ->
  faults w = (repeat None (List.length sent) ++ Some e :: fl)%list ->
  resubscribe_channels L (c, w)
    = (Raise e,
       (c,
        mkWorld (trace w ++ replay L h sent
                   ++ [ESend h (json_dumps L (subscribe_message ch)) (Some e)])
                (if is_ConnectionClosed e then h :: closed w else closed w)
                (fresh w) fl (inbox w) (clock w) (rng w))) /\
  handed_over (replay L h sent
                 ++ [ESend h (json_dumps L (subscribe_message ch)) (Some e)])
    = map (fun x => json_dumps L (subscribe_message x)) (sent ++ [ch]).
Proof.
  destruct w as [tr cl fr fl0 inb ck rg].
  cbn [faults trace closed fresh inbox clock rng]. unfold is_closed.
  cbn [closed]. intros Hc Hcl Hreg ->. split.
  - unfold resubscribe_channels, bind, self. cbn [fst snd]. rewrite Hreg.
    apply resubscribe_loop_fails; assumption.
  - rewrite handed_over_app, map_app, handed_over_replay. reflexivity.
Qed.

(* ================================================================= *)
(** ** A subscribe call whose frame is refused *)

(** X4.  When the transport refuses the subscribe frame (or the client
    has no connection), the subscribe method raises that exception at
    once: the channel is not registered, so no later reconnect replays
    it, and no confirmation is awaited. *)
Theorem subscription_refused_is_not_registered L sub s e s1 :
  connection_send (json_dumps L (subscribe_message (channel_name sub))) s
    = (Raise e, s1) ->
  subscribe L sub s = (Raise e, s1) /\
  fst s1 = fst s /\
  subscribed_channels (fst (snd (subscribe L sub s)))
    = subscribed_channels (fst s) /\
  (connection (fst s) = None -> e = AttributeError /\ s1 = s).
Proof.
  intros E. pose proof (@subscribe_raises L sub s e s1 E) as H.
  pose proof (connection_send_client
                (json_dumps L (subscribe_message (channel_name sub))) s) as Hc.
  rewrite E in Hc. cbn [snd] in Hc.
  split; [exact H|]. split; [exact Hc|]. split.
  - rewrite H. cbn [snd]. rewrite Hc. reflexivity.
  - intros Hn. unfold connection_send, bind, self in E. cbn [fst snd] in E.
    rewrite Hn in E. unfold raise in E. inversion E. split; reflexivity.
Qed.

(* ================================================================= *)
(** ** Order updates *)

Lemma set_orders_same c : set_orders (orders c) c = c.
Proof. destruct c. reflexivity. Qed.

Lemma append_orders_run items c w :
  append_orders items (c, w)
    = (Ok tt,
       (set_orders (orders c ++ items) c,
        mkWorld
          (trace w ++ map (fun o => ELog INFO (LogJson "Order update" o)) items)
          (closed w) (fresh w) (faults w) (inbox w) (clock w) (rng w))).
Proof.
  revert c w. induction items as [|o rest IH]; intros c w.
  - cbn. rewrite !app_nil_r, set_orders_same. destruct w. reflexivity.
  - cbn [append_orders]. rewrite bind_log. unfold bind at 1, update at 1.
    cbn [fst snd]. rewrite IH. destruct c. cbn. norm_app. reflexivity.
Qed.

(** X5.  [handle_order_message] logs every order of the message and
    appends it to the list of known orders, in the order of the message,
    and then writes the whole list to [data/orders.pkl]; a message
    without orders appends nothing and still writes the file.  When the
    file cannot be written the exception leaves the handler, and the
    orders stay appended. *)
Theorem handle_order_message_appends msg data items c w :
  Py.get msg "data" (JDict []) = Ok data ->
  Py.get data "orders" (JList []) = Ok (JList items) ->
  let outcome := fst (next_fault w) in
  handle_order_message msg (c, w)
    = (match outcome with
       | None => Ok tt
       | Some e => Raise e
       end,
       (set_orders (orders c ++ items) c,
        mkWorld
          (trace w
             ++ map (fun o => ELog INFO (LogJson "Order update" o)) items
             ++ [ESave "data/orders.pkl" (JList (orders c ++ items)) outcome])
          (closed w) (fresh w) (faults (snd (next_fault w))) (inbox w)
          (clock w) (rng w))).
Proof.
  intros Hd Ho outcome. subst outcome. unfold handle_order_message.
  rewrite Hd. unfold bind at 1, lift at 1. rewrite Ho.
  unfold bind at 1, lift at 1. cbn [Py.iterate].
  unfold bind at 1, lift at 1. unfold bind at 1. rewrite append_orders_run.
  unfold bind, self, save_to_file. cbn [fst snd].
  destruct w as [tr cl fr fl inb ck rg]. unfold next_fault.
  cbn [faults trace closed fresh inbox clock rng].
  destruct c as [sk wa ak asec conn ords tks ltk chans en].
  destruct fl as [|[e|] fl]; cbn; unfold emit; cbn; norm_app; reflexivity.
Qed.

(* ================================================================= *)
(** ** Ticker updates *)

Lemma lookup_setitem_same k v d : Py.lookup k (Py.setitem k v d) = Some v.
Proof.
  induction d as [|[k' v'] r IH]; cbn.
  - rewrite String.eqb_refl. reflexivity.
  - destruct (String.eqb k k') eqn:E; cbn.
    + rewrite String.eqb_refl. reflexivity.
    + rewrite E. exact IH.
Qed.

Lemma lookup_setitem_other k k' v d :
  k' <> k -> Py.lookup k' (Py.setitem k v d) = Py.lookup k' d.
Proof.
  intros N. induction d as [|[k0 v0] r IH]; cbn.
  - apply String.eqb_neq in N. rewrite N. reflexivity.
  - destruct (String.eqb k k0) eqn:E; cbn.
    + apply String.eqb_eq in E. subst k0. apply String.eqb_neq in N.
      rewrite N. reflexivity.
    + destruct (String.eqb k' k0); [reflexivity|exact IH].
Qed.

Lemma free_of_app sep a b :
  free_of sep (a ++ b) = free_of sep a && free_of sep b.
Proof.
  induction a as [|c a IH]; cbn; [reflexivity|].
  rewrite IH, andb_assoc. reflexivity.
Qed.

Lemma append_assoc (a b c : string) : ((a ++ b) ++ c = a ++ (b ++ c))%string.
Proof. induction a as [|x a IH]; cbn; [reflexivity|]. rewrite IH. reflexivity. Qed.

Lemma append_nil_r (a : string) : (a ++ "")%string = a.
Proof. induction a as [|x a IH]; cbn; [reflexivity|]. rewrite IH. reflexivity. Qed.

Lemma last_segment_from_free acc s :
  free_of ":" s = true -> PyStr.last_segment_from acc s = (acc ++ s)%string.
Proof.
  revert acc. induction s as [|c s IH]; intros acc H; cbn in *.
  - symmetry. apply append_nil_r.
  - apply andb_prop in H. destruct H as [H1 H2].
    apply negb_true_iff in H1. rewrite H1, IH by exact H2.
    rewrite append_assoc. reflexivity.
Qed.

Lemma last_segment_from_keeps acc s :
  free_of ":" acc = true -> free_of ":" (PyStr.last_segment_from acc s) = true.
Proof.
  revert acc. induction s as [|c s IH]; intros acc H; cbn; [exact H|].
  destruct (Ascii.eqb c ":") eqn:E.
  - apply IH. reflexivity.
  - apply IH. rewrite free_of_app, H. cbn. rewrite E. reflexivity.
Qed.

Lemma last_segment_from_colon acc p a :
  free_of ":" a = true ->
  PyStr.last_segment_from acc (p ++ String ":" a) = a.
Proof.
  intros H. revert acc. induction p as [|c p IH]; intros acc; cbn.
  - apply (last_segment_from_free EmptyString). exact H.
  - destruct (Ascii.eqb c ":"); apply IH.
Qed.

Lemma deque_append_window n q x :
  (0 < n)%nat ->
  Py.deque_append n q x = (skipn (S (List.length q) - n) q ++ [x])%list.
Proof.
  intros Hn. unfold Py.deque_append. rewrite length_app. cbn [List.length].
  replace (List.length q + 1 - n)%nat with (S (List.length q) - n)%nat by lia.
  rewrite skipn_app.
  replace (S (List.length q) - n - List.length q)%nat with 0%nat by lia.
  reflexivity.
Qed.

Lemma deque_append_length n q x :
  List.length (Py.deque_append n q x) = Nat.min n (S (List.length q)).
Proof.
  unfold Py.deque_append. rewrite length_skipn, length_app. cbn [List.length].
  lia.
Qed.

(** X6.  [handle_ticker_message] files the data of a ticker message
    under what follows the last colon of its channel name (so
    [ticker:ETH-PERP] is filed under [ETH-PERP], and every
    [ticker:...:OPTION] channel under [OPTION]), replacing what was
    filed there and nothing else; it appends the data to the window of
    latest tickers, which keeps the latest 100, and writes the window to
    [data/<asset>_tickers.pkl]. *)
Theorem ticker_stored_under_last_segment msg data ch c w :
  Py.get msg "data" (JDict []) = Ok data ->
  getitem_channel msg = Ok (JStr ch) ->
  let asset := PyStr.last_segment ch in
  let filed := Py.setitem asset data (tickers c) in
  let window := Py.deque_append 100 (latest_tickers c) data in
  let outcome := fst (next_fault w) in
  handle_ticker_message msg (c, w)
    = (match outcome with
       | None => Ok tt
       | Some e => Raise e
       end,
       (set_tickers filed window c,
        mkWorld
          (trace w
             ++ [ESave ("data/" ++ asset ++ "_tickers.pkl") (JList window)
                       outcome])
          (closed w) (fresh w) (faults (snd (next_fault w))) (inbox w)
          (clock w) (rng w))) /\
  Py.lookup asset filed = Some data /\
  (forall k, k <> asset -> Py.lookup k filed = Py.lookup k (tickers c)) /\
  free_of ":" asset = true /\
  (forall p a, free_of ":" a = true -> ch = (p ++ ":" ++ a)%string ->
               asset = a) /\
  window
    = (skipn (S (List.length (latest_tickers c)) - 100) (latest_tickers c)
         ++ [data])%list /\
  List.length window = Nat.min 100 (S (List.length (latest_tickers c))).
Proof.
  intros Hd Hch asset filed window outcome.
  split; [|split; [|split; [|split; [|split; [|split]]]]].
  - unfold handle_ticker_message. rewrite Hd, Hch.
    unfold bind at 1, lift at 1. unfold bind at 1, lift at 1.
    unfold bind at 1, lift at 1. fold asset.
    unfold bind, update, self, save_to_file. cbn [fst snd].
    destruct w as [tr cl fr fl inb ck rg]. subst outcome. unfold next_fault.
    cbn [faults trace closed fresh inbox clock rng].
    destruct c as [sk wa ak asec conn ords tks ltk chans en].
    destruct fl as [|[e|] fl]; cbn; unfold emit; cbn; reflexivity.
  - apply lookup_setitem_same.
  - intros k N. apply lookup_setitem_other. exact N.
  - apply last_segment_from_keeps. reflexivity.
  - intros p a Ha ->. apply last_segment_from_colon. exact Ha.
  - apply deque_append_window. lia.
  - apply deque_append_length.
Qed.

(* ================================================================= *)
(** ** Invariants of the client along a session *)

(** A relation on clients that the four assignments of the methods
    respect is respected by every call. *)
Section Invariant.

Variable L : Lib.
Variable RC : client -> client -> Prop.
Context {F : Framing RC anything}.

Hypothesis RC_connection : forall o c, RC c (set_connection o c).
Hypothesis RC_order : forall o c, RC c (set_orders (orders c ++ [o]) c).
Hypothesis RC_ticker :
  forall a d c,
    RC c (set_tickers (Py.setitem a d (tickers c))
                      (Py.deque_append 100 (latest_tickers c) d) c).
Hypothesis RC_register :
  forall ch c,
    RC c (set_subscribed_channels (subscribed_channels c ++ [ch]) c).

Lemma kept_set_connection o : framed RC anything (update (set_connection o)).
Proof. apply framed_update; try exact _. intros c. apply RC_connection. Qed.

Lemma kept_order o :
  framed RC anything (update (fun c => set_orders (orders c ++ [o]) c)).
Proof. apply framed_update; try exact _. intros c. apply RC_order. Qed.

Lemma kept_ticker a d :
  framed RC anything
    (update (fun c =>
               set_tickers (Py.setitem a d (tickers c))
                           (Py.deque_append 100 (latest_tickers c) d) c)).
Proof. apply framed_update; try exact _. intros c. apply RC_ticker. Qed.

Lemma kept_register ch :
  framed RC anything
    (update (fun c =>
               set_subscribed_channels (subscribed_channels c ++ [ch]) c)).
Proof. apply framed_update; try exact _. intros c. apply RC_register. Qed.

Lemma kept_connection_send d : framed RC anything (connection_send d).
Proof.
  intros s. apply framed_at_connection_send; try exact _. intros; exact I.
Qed.

#[local] Hint Resolve kept_set_connection kept_order kept_ticker
  kept_register kept_connection_send : framing.

Lemma kept_connection_recv t : framed RC anything (connection_recv t).
Proof. unfold connection_recv. framing. Qed.

Lemma kept_loads text : framed RC anything (loads L text).
Proof. unfold loads. framing. Qed.

Lemma kept_authenticate : framed RC anything (authenticate L).
Proof. unfold authenticate. framing. Qed.

#[local] Hint Resolve kept_connection_recv kept_loads kept_authenticate
  : framing.

Lemma kept_open_connection : framed RC anything (open_connection L).
Proof. unfold open_connection, open_attempt, open_failed. framing. Qed.

Lemma kept_close_connection : framed RC anything close_connection.
Proof. unfold close_connection. framing. Qed.

Lemma kept_resubscribe_loop l : framed RC anything (resubscribe_loop L l).
Proof. induction l; cbn [resubscribe_loop]; framing. Qed.

#[local] Hint Resolve kept_open_connection kept_close_connection
  kept_resubscribe_loop : framing.

Lemma kept_reconnect : framed RC anything (reconnect L).
Proof. unfold reconnect, resubscribe_channels. framing. Qed.

#[local] Hint Resolve kept_reconnect : framing.

Lemma kept_send data : framed RC anything (send L data).
Proof. unfold send. framing. Qed.

#[local] Hint Resolve kept_send : framing.

Lemma kept_create_order i b p q po id mmp :
  framed RC anything (create_order L i b p q po id mmp).
Proof. unfold create_order, create_order_ws_json, sign_order. framing. Qed.

#[local] Hint Resolve kept_create_order : framing.

Lemma kept_handle_fills_message msg gi pd :
  framed RC anything (handle_fills_message L msg gi pd).
Proof. unfold handle_fills_message, place_opposite_order. framing. Qed.

Lemma kept_append_orders l : framed RC anything (append_orders l).
Proof. induction l; cbn [append_orders]; framing. Qed.

#[local] Hint Resolve kept_handle_fills_message kept_append_orders : framing.

Lemma kept_message_handler_turn gi pd :
  framed RC anything (message_handler_turn L gi pd).
Proof.
  unfold message_handler_turn, dispatch_frame, on_error,
    handle_order_message, handle_ticker_message.
  framing.
Qed.

Lemma kept_subscribe sub : framed RC anything (subscribe L sub).
Proof.
  destruct sub; cbn [subscribe];
    unfold subscribe_ticker, subscribe_orders, subscribe_fills,
      send_and_register, await_confirmation; framing.
Qed.

#[local] Hint Resolve kept_message_handler_turn kept_subscribe : framing.

Lemma kept_run_call k : framed RC anything (run_call L k).
Proof. destruct k; cbn [run_call]; unfold resubscribe_channels; framing. Qed.

Lemma kept_run_session calls s : RC (fst s) (fst (run_session L calls s)).
Proof.
  revert s. induction calls as [|k rest IH]; intros s; cbn [run_session].
  - apply RC_refl.
  - eapply RC_trans; [|apply IH]. apply (kept_run_call k s).
Qed.

End Invariant.

#[export] Instance orders_extended_framing : Framing orders_extended anything.
Proof.
  split.
  - intros c. exists []. rewrite app_nil_r. reflexivity.
  - intros a b c [l1 E1] [l2 E2]. exists (l1 ++ l2)%list.
    rewrite E2, E1, app_assoc. reflexivity.
  - intros; exact I.
  - intros; exact I.
Qed.

#[export] Instance window_bounded_framing : Framing window_bounded anything.
Proof.
  split.
  - intros c H. exact H.
  - intros a b c H1 H2 H. apply H2, H1, H.
  - intros; exact I.
  - intros; exact I.
Qed.

(** X7.  Whatever the calls made on a client and whatever they meet,
    the list of known orders is only ever extended at its end: no
    method drops or reorders an order that was recorded. *)
Theorem orders_only_grow L calls s :
  exists l,
    orders (fst (run_session L calls s)) = (orders (fst s) ++ l)%list.
Proof.
  apply (@kept_run_session L orders_extended _).
  - intros o c. exists []. rewrite app_nil_r. reflexivity.
  - intros o c. exists [o]. reflexivity.
  - intros a d c. exists []. rewrite app_nil_r. reflexivity.
  - intros ch c. exists []. rewrite app_nil_r. reflexivity.
Qed.

(** X8.  The window of latest tickers of a client never holds more
    than 100 entries, whatever the calls made since the client was
    created and whatever they met. *)
Theorem latest_tickers_bounded L calls sk wa ak asec e w :
  (List.length
     (latest_tickers
        (fst (run_session L calls (new_client sk wa ak asec e, w))))
   <= 100)%nat.
Proof.
  refine (@kept_run_session L window_bounded _ _ _ _ _ calls
            (new_client sk wa ak asec e, w) _).
  - intros o c H. exact H.
  - intros o c H. exact H.
  - intros a d c _. cbn [set_tickers latest_tickers].
    rewrite deque_append_length. lia.
  - intros ch c H. exact H.
  - cbn. lia.
Qed.

(* ================================================================= *)
(** ** The message loop: frames that no handler takes *)

(** X9.  A decoded frame whose channel is missing, empty, or a string
    other than [orders], [fills] and the [ticker:] channels (the
    confirmation of a subscription, for one) is passed over by
    [message_handler]: nothing is logged, nothing is sent and the client
    is unchanged.  A channel that is neither empty nor a string is an
    error that the loop logs. *)
Theorem unhandled_channel_is_passed_over L gi pd c w h text d rest :
  connection c = Some h ->
  is_closed h w = false ->
  inbox w = Frame text :: rest ->
  json_loads L text = Some (JDict d) ->
  let channel :=
    match Py.lookup "channel" d with
    | Some v => v
    | None => JNull
    end in
  let after evs :=
    (Ok tt,
     (c, mkWorld (trace w ++ ERecv h 20 (Frame text) :: evs) (closed w)
                 (fresh w) (faults w) rest (clock w) (rng w))) in
  (passed_over channel = true ->
   message_handler_turn L gi pd (c, w) = after []) /\
  (Py.truthy channel = true ->
   match channel with JStr _ => False | _ => True end ->
   message_handler_turn L gi pd (c, w)
     = after [ELog ERROR
                (LogExn "Error while handling the message" AttributeError)]).
Proof.
  intros Hc Hcl Hin Hj channel after.
  destruct w as [tr cl fr fl inb ck rg]. unfold is_closed in Hcl.
  cbn [inbox closed trace fresh faults clock rng] in *. subst inb.
  assert (Hrecv : forall A (k : string -> M A),
             bind (connection_recv 20) k
               (c, mkWorld tr cl fr fl (Frame text :: rest) ck rg)
             = k text (c, mkWorld (tr ++ [ERecv h 20 (Frame text)]) cl fr fl
                                  rest ck rg)).
  { intros A k. unfold bind, connection_recv, self, ws_recv, is_closed.
    cbn. rewrite Hc. cbn. rewrite Hcl. reflexivity. }
  subst after. cbn beta.
  split; unfold message_handler_turn, dispatch_frame, catch; rewrite Hrecv;
    unfold loads; rewrite Hj; unfold bind at 1, ret at 1; cbn [Py.get];
    fold channel; unfold bind at 1, lift at 1; clearbody channel.
  - intros Hp.
    assert (Hq : match channel with
                 | JStr s =>
                     PyStr.startswith "ticker:" s = false /\
                     String.eqb s "orders" = false /\
                     String.eqb s "fills" = false
                 | _ => Py.truthy channel = false
                 end).
    { destruct channel; cbn [passed_over] in Hp;
        try (apply negb_true_iff in Hp; exact Hp).
      apply andb_prop in Hp. destruct Hp as [Hp H3].
      apply andb_prop in Hp. destruct Hp as [H1 H2].
      apply negb_true_iff in H1, H2, H3. auto. }
    unfold bind, lift, ret.
    destruct channel as [|b|z|f|s|l|d0];
      try (rewrite Hq; cbn [Py.eq_str]; reflexivity).
    destruct Hq as [H1 [H2 H3]].
    destruct (Py.truthy (JStr s)); cbn [Py.startswith Py.eq_str];
      rewrite ?H1, H2, H3; reflexivity.
  - intros Ht Hs. unfold bind, lift, ret. rewrite Ht.
    destruct channel; try contradiction; try discriminate Ht; cbn;
      unfold log, record, emit; cbn; norm_app; reflexivity.
Qed.

(* ================================================================= *)
(** ** The message loop without a connection *)

(** X10.  On a client that has no connection, [message_handler] does
    not try to get one: every turn of its loop fails on the missing
    connection, logs that error and goes on, so n turns leave n log
    records and nothing else. *)
Theorem handler_without_connection_only_logs L n gi pd c w :
  connection c = None ->
  message_handler_loop L n gi pd (c, w)
    = (Ok tt,
       (c,
        mkWorld
          (trace w
             ++ repeat (ELog ERROR
                          (LogExn "Error while handling the message"
                                  AttributeError)) n)
          (closed w) (fresh w) (faults w) (inbox w) (clock w) (rng w))) /\
  connect_attempts
    (repeat (ELog ERROR
               (LogExn "Error while handling the message" AttributeError)) n)
    = 0%nat.
Proof.
  intros Hc. split.
  - revert w. induction n as [|n IH]; intros w.
    + cbn. rewrite app_nil_r. destruct w. reflexivity.
    + cbn [message_handler_loop repeat]. unfold bind at 1.
      unfold message_handler_turn, dispatch_frame, catch, bind at 1.
      unfold connection_recv, bind at 1, self. cbn [fst snd]. rewrite Hc.
      unfold raise. cbn [on_error]. unfold log, record. cbn [fst snd].
      rewrite IH. cbn. norm_app. reflexivity.
  - induction n as [|n IH]; [reflexivity|exact IH].
Qed.

(* ================================================================= *)
(** ** The message loop and exceptions *)

Lemma message_handler_loop_returns L n gi pd :
  returns (message_handler_loop L n gi pd).
Proof.
  induction n as [|n IH]; cbn [message_handler_loop].
  - apply returns_ret.
  - apply returns_bind; [apply message_handler_turn_returns|].
    intros _. exact IH.
Qed.

(** X11.  [message_handler] can raise only before its loop starts, when
    [grid_interval] does not convert to an integer; nothing has been
    received then.  Once in the loop, no exception leaves it, whatever
    the transport, the frames and the handlers do. *)
Theorem message_handler_raises_only_at_start L n gi pd s :
  match Py.to_int gi with
  | Raise e => message_handler L n gi pd s = (Raise e, s)
  | Ok z =>
      message_handler L n gi pd s
        = (Ok tt, snd (message_handler_loop L n z pd s))
  end.
Proof.
  unfold message_handler, bind, lift. destruct (Py.to_int gi) as [z|e].
  - destruct (returns_unit s (message_handler_loop_returns L n z pd))
      as [s' E].
    rewrite E. reflexivity.
  - reflexivity.
Qed.

(** X12.  In the loop of [message_handler] only a
    [ConnectionClosedError] met while receiving leads to a reconnect
    (one per turn); a connection closed in good order
    ([ConnectionClosedOK]), like any other error of the transport, is
    logged and the loop goes on with the connection object it has. *)
Theorem handler_reconnects_on_closed_error_only L gi pd c w h e rest :
  connection c = Some h ->
  is_closed h w = false ->
  inbox w = Broken e :: rest ->
  let w1 :=
    mkWorld (trace w ++ [ERecv h 20 (Broken e)])
            (if is_ConnectionClosed e then h :: closed w else closed w)
            (fresh w) (faults w) rest (clock w) (rng w) in
  message_handler_turn L gi pd (c, w)
    = match e with
      | ConnectionClosedError =>
          reconnect L
            (c, emit (ELog ERROR
                        (LogText "WebSocket connection closed. Trying to reconnect..."))
                     w1)
      | TimeoutError =>
          (Ok tt, (c, emit (ELog ERROR (LogText "No new fills, waiting.")) w1))
      | JSONDecodeError =>
          (Ok tt,
           (c, emit (ELog ERROR
                       (LogExn "Error while parsing the JSON response" e)) w1))
      | _ =>
          (Ok tt,
           (c, emit (ELog ERROR (LogExn "Error while handling the message" e))
                    w1))
      end.
Proof.
  intros Hc Hcl Hin w1. subst w1.
  destruct w as [tr cl fr fl inb ck rg]. unfold is_closed in Hcl.
  cbn [inbox closed trace fresh faults clock rng] in *. subst inb.
  assert (Hr : connection_recv 20
                 (c, mkWorld tr cl fr fl (Broken e :: rest) ck rg)
               = (Raise e,
                  (c,
                   mkWorld (tr ++ [ERecv h 20 (Broken e)])
                           (if is_ConnectionClosed e then h :: cl else cl)
                           fr fl rest ck rg))).
  { unfold connection_recv, bind, self, ws_recv, is_closed. cbn.
    rewrite Hc. cbn. rewrite Hcl. cbn.
    destruct (is_ConnectionClosed e); reflexivity. }
  unfold message_handler_turn, dispatch_frame, catch, bind at 1.
  rewrite Hr.
  destruct e; cbn; unfold log, record, bind; cbn; reflexivity.
Qed.

(* ================================================================= *)
(** ** Subscriptions that go through [send] *)

Lemma send_healthy L data c w h :
  connection c = Some h ->
  is_closed h w = false ->
  fst (next_fault w) = None ->
  send L data (c, w)
    = (Ok tt, (c, emit (ESend h data None) (snd (next_fault w)))).
Proof.
  intros Hc Hcl Hf. rewrite send_unfold, Hc. unfold ws_send.
  cbn [fst snd]. rewrite Hcl. destruct (next_fault w) as [f w1].
  cbn [fst snd] in *. subst f. reflexivity.
Qed.

(** X13.  [subscribe_tickers], [subscribe_markprice],
    [subscribe_trades] and [subscribe_index] hand their subscribe frame
    to [send] and record nothing: whatever happens, the registry of
    subscribed channels is as before, so a later reconnect replays the
    channels registered before and not this one.  On a live connection
    that takes the frame, the frame is all that is sent. *)
Theorem public_subscriptions_are_not_registered L a :
  Forall
    (fun mc =>
       let m := fst mc in
       let frame0 := json_dumps L (subscribe_message (snd mc)) in
       (forall s, m s = send L frame0 s) /\
       (forall s, unchanged (fst s) (fst (snd (m s)))) /\
       (forall c w h,
          connection c = Some h -> is_closed h w = false ->
          fst (next_fault w) = None ->
          m (c, w)
            = (Ok tt, (c, emit (ESend h frame0 None) (snd (next_fault w))))) /\
       (forall s,
          wf_state s = true ->
          let s2 := snd (m s) in
          faults (snd s2) = [] ->
          exists s3,
            reconnect L s2 = (Ok tt, s3) /\
            trace (snd s3)
              = (trace (snd s2) ++ reopening L (fst s2) (snd s2)
                   ++ replay L (fresh (snd s2))
                             (subscribed_channels (fst s)))%list))
    (public_subscriptions L a).
Proof.
  assert (H : forall ch,
             let m := send L (json_dumps L (subscribe_message ch)) in
             (forall s, m s = m s) /\
             (forall s, unchanged (fst s) (fst (snd (m s)))) /\
             (forall c w h,
                connection c = Some h -> is_closed h w = false ->
                fst (next_fault w) = None ->
                m (c, w)
                  = (Ok tt,
                     (c, emit (ESend h (json_dumps L (subscribe_message ch)) None)
                              (snd (next_fault w))))) /\
             (forall s,
                wf_state s = true ->
                let s2 := snd (m s) in
                faults (snd s2) = [] ->
                exists s3,
                  reconnect L s2 = (Ok tt, s3) /\
                  trace (snd s3)
                    = (trace (snd s2) ++ reopening L (fst s2) (snd s2)
                         ++ replay L (fresh (snd s2))
                                   (subscribed_channels (fst s)))%list)).
  { intros ch m. split; [reflexivity|]. split; [|split].
    - intros s. apply (still_send L _ s).
    - intros c w h. apply send_healthy.
    - intros s Hwf s2 Hf.
      pose proof (keeps_wf_send L (json_dumps L (subscribe_message ch)) s Hwf)
        as Hwf2.
      fold m in Hwf2. fold s2 in Hwf2.
      destruct (still_send L (json_dumps L (subscribe_message ch)) s)
        as [[_ Hreg] _].
      fold m in Hreg. fold s2 in Hreg. rewrite <- Hreg.
      destruct s2 as [c2 w2]. cbn [fst snd] in *.
      eexists. split; [apply (reconnect_healthy L c2 w2 Hf Hwf2)|].
      reflexivity. }
  unfold public_subscriptions.
  repeat (apply Forall_cons; [apply H|]). apply Forall_nil.
Qed.

(** X14.  [subscribe_orderbook] never returns normally: once [send]
    has returned, the wait for the confirmation calls a method that the
    client does not have, and the [AttributeError] leaves the method
    (only a timeout is handled there).  Like the other subscriptions
    that go through [send], it records nothing. *)
Theorem subscribe_orderbook_never_confirms L name s :
  let frame0 :=
    json_dumps L (subscribe_message ("orderbook:" ++ name)) in
  subscribe_orderbook L name s
    = match send L frame0 s with
      | (Ok _, s1) => (Raise AttributeError, s1)
      | (Raise e, s1) => (Raise e, s1)
      end /\
  (exists e, fst (subscribe_orderbook L name s) = Raise e) /\
  unchanged (fst s) (fst (snd (subscribe_orderbook L name s))).
Proof.
  intros frame0.
  assert (E : subscribe_orderbook L name s
              = match send L frame0 s with
                | (Ok _, s1) => (Raise AttributeError, s1)
                | (Raise e, s1) => (Raise e, s1)
                end).
  { unfold subscribe_orderbook. cbn zeta. fold frame0. unfold bind at 1.
    destruct (send L frame0 s) as [[u|e] s1]; reflexivity. }
  split; [exact E|]. rewrite E.
  pose proof (still_send L frame0 s) as [U _].
  destruct (send L frame0 s) as [[u|e] s1]; cbn [fst snd] in *.
  - split; [eexists; reflexivity|exact U].
  - split; [eexists; reflexivity|exact U].
Qed.

(* ================================================================= *)
(** ** Orders on the websocket: cancelling *)



(* ================================================================= *)
(** ** Orders on the websocket: what is signed and what is sent *)

Lemma sign_order_client L i b p q t pd ad c w :
  fst (snd (sign_order L i b p q t pd ad (c, w))) = c.
Proof.
  rewrite sign_order_run. cbv zeta.
  destruct (fixed_point p pd b); [|reflexivity].
  destruct (fixed_point q ad b); [|reflexivity].
  destruct (signable_bytes L _ _); [|reflexivity].
  destruct (sign_hash L _ _); reflexivity.
Qed.

Lemma create_order_ws_json_run L i b p q po mmp pd ad c w :
  create_order_ws_json L i b p q po mmp pd ad (c, w) =
  match sign_order L i b p q (fst (next_clock w)) pd (10 ^ 6)
                   (c, snd (next_clock w)) with
  | (Ok (salt0, sg, oid), s1) =>
      match fixed_point q ad b with
      | Raise e => (Raise e, s1)
      | Ok am =>
          match fixed_point p pd b with
          | Raise e => (Raise e, s1)
          | Ok lp =>
              (Ok (JDict [("instrument", JInt i);
                          ("maker", JStr (wallet_address c));
                          ("is_buy", JBool b);
                          ("amount", JStr (PyStr.str_of_Z am));
                          ("limit_price", JStr (PyStr.str_of_Z lp));
                          ("salt", JStr (PyStr.str_of_Z salt0));
                          ("signature", JStr sg);
                          ("post_only", JBool po);
                          ("mmp", JBool mmp);
                          ("timestamp", JInt (fst (next_clock w)))],
                   oid),
               s1)
          end
      end
  | (Raise e, s1) => (Raise e, s1)
  end.
Proof.
  unfold create_order_ws_json, bind, time_now, outside, self, lift, ret.
  cbn [fst snd]. destruct (next_clock w) as [t w1]. cbn [fst snd].
  pose proof (sign_order_client L i b p q t pd (10 ^ 6) c w1) as Hc.
  destruct (sign_order L i b p q t pd (10 ^ 6) (c, w1))
    as [[[[salt0 sg] oid]|e] s1]; [|reflexivity].
  cbn [fst snd] in *. rewrite Hc.
  destruct (fixed_point q ad b); [|reflexivity].
  destruct (fixed_point p pd b); reflexivity.
Qed.

(** X16.  The payload that [create_order_ws_json] returns carries the
    very order that was signed: maker, side, instrument, salt and
    timestamp are those of the signed struct, the order id is the
    digest of its encoding, and the limit price is the signed price.
    The amount of the payload is scaled by [amount_decimals], the signed
    amount always by 10^6; they are the same when [amount_decimals] is
    left at 10^6, as [create_order] leaves it. *)
Theorem order_payload_matches_signed_order
  L i b p q po mmp pd ad c w payload oid s' :
  create_order_ws_json L i b p q po mmp pd ad (c, w)
    = (Ok (payload, oid), s') ->
  exists o sb sg am,
    signable_bytes L o (signing_domain c) = Ok sb /\
    sign_hash L (keccak L sb) (signing_key c) = Ok sg /\
    oid = ("0x" ++ PyStr.hex (keccak L sb))%string /\
    fixed_point p pd b = Ok (limitPrice o) /\
    fixed_point q (10 ^ 6) b = Ok (amount o) /\
    fixed_point q ad b = Ok am /\
    (ad = 10 ^ 6 -> am = amount o) /\
    payload
      = JDict [("instrument", JInt (instrument o));
               ("maker", JStr (maker o));
               ("is_buy", JBool (isBuy o));
               ("amount", JStr (PyStr.str_of_Z am));
               ("limit_price", JStr (PyStr.str_of_Z (limitPrice o)));
               ("salt", JStr (PyStr.str_of_Z (salt o)));
               ("signature", JStr sg);
               ("post_only", JBool po);
               ("mmp", JBool mmp);
               ("timestamp", JInt (timestamp o))].
Proof.
  rewrite create_order_ws_json_run. intros H.
  destruct (sign_order L i b p q (fst (next_clock w)) pd (10 ^ 6)
                       (c, snd (next_clock w)))
    as [[[[salt0 sg] oid0]|e] s1] eqn:Es; [|discriminate H].
  assert (Es' : fst (sign_order L i b p q (fst (next_clock w)) pd (10 ^ 6)
                                (c, snd (next_clock w)))
                = Ok (salt0, sg, oid0)) by (rewrite Es; reflexivity).
  destruct (sign_order_ok _ _ _ _ _ _ _ _ _ _ Es')
    as [lp [am6 [sb [Hs [Hlp [Ham [Hsb [Hsg Hoid]]]]]]]].
  destruct (fixed_point q ad b) as [am|e] eqn:Hq; [|discriminate H].
  rewrite Hlp in H. inversion H; subst payload oid s'. clear H.
  exists (mkOrder (wallet_address c) b lp am6 salt0 i (fst (next_clock w))),
         sb, sg, am.
  cbn [instrument maker isBuy amount limitPrice salt timestamp].
  repeat split; try assumption; try reflexivity.
  intros ->. congruence.
Qed.

(* ================================================================= *)
(** ** Orders for the REST interface *)

Lemma create_order_rest_json_run L i b p q po ro cp pd ad trg stp c w :
  create_order_rest_json L i b p q po ro cp pd ad trg stp (c, w) =
  match sign_order L i b p q (fst (next_clock w)) pd (10 ^ 6)
                   (c, snd (next_clock w)) with
  | (Ok (salt0, sg, oid), s1) =>
      match fixed_point p pd b with
      | Raise e => (Raise e, s1)
      | Ok lp =>
          match fixed_point q ad b with
          | Raise e => (Raise e, s1)
          | Ok am =>
              (Ok (JDict ([("maker", JStr (wallet_address c));
                           ("is_buy", JBool b);
                           ("instrument", JInt i);
                           ("limit_price", JStr (PyStr.str_of_Z lp));
                           ("amount", JStr (PyStr.str_of_Z am));
                           ("salt", JStr (PyStr.str_of_Z salt0));
                           ("signature", JStr sg);
                           ("post_only", JBool po);
                           ("reduce_only", JBool ro);
                           ("close_position", JBool cp);
                           ("timestamp", JInt (fst (next_clock w)))]
                          ++ (if Py.truthy trg && Py.truthy stp
                              then [("trigger", trg); ("stop", stp)]
                              else []))%list,
                   oid),
               s1)
          end
      end
  | (Raise e, s1) => (Raise e, s1)
  end.
Proof.
  unfold create_order_rest_json, bind, time_now, outside, self, lift, ret.
  cbn [fst snd]. destruct (next_clock w) as [t w1]. cbn [fst snd].
  pose proof (sign_order_client L i b p q t pd (10 ^ 6) c w1) as Hc.
  destruct (sign_order L i b p q t pd (10 ^ 6) (c, w1))
    as [[[[salt0 sg] oid]|e] s1]; [|reflexivity].
  cbn [fst snd] in *. rewrite Hc.
  destruct (fixed_point p pd b); [|reflexivity].
  destruct (fixed_point q ad b); reflexivity.
Qed.

(** X17.  In the same state and for the same order,
    [create_order_rest_json] and [create_order_ws_json] succeed
    together, each exactly when the other does, with the same order id
    and the same state after, and sign the same struct: the order id,
    the signature, the salt, the timestamp and the scaled price and
    amount are the same in both payloads.  The REST payload has no
    [mmp] entry; it has [reduce_only] and [close_position], and
    [trigger] and [stop] only when both are given. *)
Theorem rest_and_ws_orders_agree L i b p q po mmp ro cp pd ad trg stp s :
  (forall v oid s',
     create_order_ws_json L i b p q po mmp pd ad s = (Ok (v, oid), s') ->
     exists pw pr,
       v = JDict pw /\
       create_order_rest_json L i b p q po ro cp pd ad trg stp s
         = (Ok (JDict pr, oid), s') /\
       Forall (fun k => Py.lookup k pr = Py.lookup k pw)
              ["maker"; "is_buy"; "instrument"; "limit_price"; "amount";
               "salt"; "signature"; "post_only"; "timestamp"] /\
       Py.lookup "mmp" pr = None /\
       Py.lookup "reduce_only" pr = Some (JBool ro) /\
       Py.lookup "close_position" pr = Some (JBool cp) /\
       Py.lookup "trigger" pr
         = (if Py.truthy trg && Py.truthy stp then Some trg else None) /\
       Py.lookup "stop" pr
         = (if Py.truthy trg && Py.truthy stp then Some stp else None)) /\
  (forall v oid s',
     create_order_rest_json L i b p q po ro cp pd ad trg stp s
       = (Ok (v, oid), s') ->
     exists pr pw,
       v = JDict pr /\
       create_order_ws_json L i b p q po mmp pd ad s
         = (Ok (JDict pw, oid), s') /\
       Forall (fun k => Py.lookup k pw = Py.lookup k pr)
              ["maker"; "is_buy"; "instrument"; "limit_price"; "amount";
               "salt"; "signature"; "post_only"; "timestamp"] /\
       Py.lookup "mmp" pw = Some (JBool mmp)) /\
  (forall e s',
     create_order_ws_json L i b p q po mmp pd ad s = (Raise e, s') ->
     exists e',
       create_order_rest_json L i b p q po ro cp pd ad trg stp s
         = (Raise e', s')) /\
  (forall e s',
     create_order_rest_json L i b p q po ro cp pd ad trg stp s
       = (Raise e, s') ->
     exists e',
       create_order_ws_json L i b p q po mmp pd ad s = (Raise e', s')).
Proof.
  destruct s as [c w].
  rewrite create_order_ws_json_run, create_order_rest_json_run.
  destruct (sign_order L i b p q (fst (next_clock w)) pd (10 ^ 6)
                       (c, snd (next_clock w)))
    as [[[[salt0 sg] oid0]|e0] s1];
    [destruct (fixed_point q ad b) as [am|eq];
     destruct (fixed_point p pd b) as [lp|ep]|];
    (split; [|split; [|split]]);
    intros x y z; try intros H; try discriminate;
    try (inversion z; subst; eexists; reflexivity);
    inversion H; subst; clear H;
    eexists; eexists; (split; [reflexivity|]); (split; [reflexivity|]);
    destruct (Py.truthy trg && Py.truthy stp); cbn; repeat split;
    repeat constructor.
Qed.

(* ================================================================= *)
(** ** Orders on the websocket: editing *)


(* ================================================================= *)
(** ** Loops that only listen *)

Lemma listens_ret {A} (a : A) : listens (ret a).
Proof.
  intros c w. exists []. cbn. rewrite app_nil_r. repeat split; reflexivity.
Qed.

Lemma listens_raise {A} e : listens (@raise A e).
Proof.
  intros c w. exists []. cbn. rewrite app_nil_r. repeat split; reflexivity.
Qed.

Lemma listens_lift {A} (r : result A) : listens (lift r).
Proof.
  intros c w. exists []. cbn. rewrite app_nil_r. repeat split; reflexivity.
Qed.

Lemma listens_log lvl m : listens (log lvl m).
Proof. intros c w. exists [ELog lvl m]. cbn. repeat split; reflexivity. Qed.

Lemma listens_bind {A B} (m : M A) (k : A -> M B) :
  listens m -> (forall a, listens (k a)) -> listens (bind m k).
Proof.
  intros Hm Hk c w. unfold bind. destruct (Hm c w) as [e1 H1].
  destruct (m (c, w)) as [[a|e] [c1 w1]]; cbn [fst snd] in *.
  - destruct H1 as [-> [T1 [L1 [F1 R1]]]].
    destruct (Hk a c w1) as [e2 [C2 [T2 [L2 [F2 R2]]]]].
    exists (e1 ++ e2)%list. rewrite C2, T2, T1, F2, F1, R2, R1, app_assoc.
    rewrite forallb_app, L1, L2. repeat split; reflexivity.
  - exists e1. exact H1.
Qed.

Lemma listens_catch {A} (m : M A) (h : exn -> M A) :
  listens m -> (forall e, listens (h e)) -> listens (catch m h).
Proof.
  intros Hm Hh c w. unfold catch. destruct (Hm c w) as [e1 H1].
  destruct (m (c, w)) as [[a|e] [c1 w1]]; cbn [fst snd] in *.
  - exists e1. exact H1.
  - destruct H1 as [-> [T1 [L1 [F1 R1]]]].
    destruct (Hh e c w1) as [e2 [C2 [T2 [L2 [F2 R2]]]]].
    exists (e1 ++ e2)%list. rewrite C2, T2, T1, F2, F1, R2, R1, app_assoc.
    rewrite forallb_app, L1, L2. repeat split; reflexivity.
Qed.

Lemma listens_connection_recv t : listens (connection_recv t).
Proof.
  intros c w. destruct w as [tr cl fr fl inb ck rg].
  unfold connection_recv, bind, self, ws_recv, is_closed, next_incoming, raise.
  cbn [fst snd]. destruct (connection c) as [h|]; cbn.
  - destruct (existsb (Nat.eqb h) cl); cbn.
    + eexists [_]. repeat split; reflexivity.
    + destruct inb as [|[text| |e] inb]; cbn;
        try destruct (is_ConnectionClosed e); cbn;
        eexists [_]; repeat split; reflexivity.
  - exists []. rewrite app_nil_r. repeat split; reflexivity.
Qed.

Create HintDb listening.

#[export] Hint Resolve listens_connection_recv : listening.

Ltac listening :=
  repeat first
    [ apply listens_ret | apply listens_raise | apply listens_lift
    | apply listens_log
    | solve [auto 1 with listening nocore]
    | match goal with |- forall _, _ => intro end
    | apply listens_bind | apply listens_catch
    | match goal with
      | |- listens (match ?x with _ => _ end) => destruct x
      | |- listens (if ?x then _ else _) => destruct x
      end ].

Lemma listens_loads L text : listens (loads L text).
Proof. unfold loads. listening. Qed.

Lemma listens_log_tickers items : listens (log_tickers items).
Proof. induction items as [|x r IH]; cbn [log_tickers]; listening. Qed.

#[export] Hint Resolve listens_loads listens_log_tickers : listening.

Lemma listens_monitor_turn L : listens (monitor_turn L).
Proof. unfold monitor_turn, monitor_frame, monitor_error. listening. Qed.

Lemma monitor_turn_returns L : returns (monitor_turn L).
Proof. unfold monitor_turn, monitor_error. returning. Qed.

Lemma listens_monitor_tickers L n : listens (monitor_tickers L n).
Proof.
  induction n as [|n IH]; cbn [monitor_tickers].
  - apply listens_ret.
  - apply listens_bind; [apply listens_monitor_turn|]. intros _. exact IH.
Qed.

Lemma monitor_tickers_returns L n : returns (monitor_tickers L n).
Proof.
  induction n as [|n IH]; cbn [monitor_tickers].
  - apply returns_ret.
  - apply returns_bind; [apply monitor_turn_returns|]. intros _. exact IH.
Qed.

(** X19.  [monitor_tickers] only listens: whatever arrives and whatever
    the transport does, its loop never raises, leaves the client as it
    is (it stores no ticker), and makes no call into the world but
    receiving and logging: it sends nothing and never reconnects, not
    even when the connection is closed. *)
Theorem monitor_tickers_only_listens L n c w :
  exists evs w',
    monitor_tickers L n (c, w) = (Ok tt, (c, w')) /\
    trace w' = (trace w ++ evs)%list /\
    forallb is_listening evs = true /\
    connect_attempts evs = 0%nat /\
    handed_over evs = [] /\
    faults w' = faults w /\
    fresh w' = fresh w.
Proof.
  destruct (returns_unit (c, w) (monitor_tickers_returns L n)) as [[c' w'] E].
  destruct (listens_monitor_tickers L n c w) as [evs [C [T [Hl [F R]]]]].
  rewrite E in C, T, F, R. cbn [fst snd] in *. subst c'.
  exists evs, w'. repeat split; try assumption.
  - clear -Hl. induction evs as [|e r IH]; [reflexivity|].
    cbn in Hl. apply andb_prop in Hl. destruct Hl as [H1 H2].
    destruct e; try discriminate H1; exact (IH H2).
  - clear -Hl. induction evs as [|e r IH]; [reflexivity|].
    cbn in Hl. apply andb_prop in Hl. destruct Hl as [H1 H2].
    destruct e; try discriminate H1; exact (IH H2).
Qed.

(* ================================================================= *)
(** ** The dispatcher loop *)

(** X20.  [start_message_dispatcher] cannot react to fills: a fill
    notification ends in the [TypeError] of the call of
    [handle_fills_message] without its arguments, which the loop logs;
    no order is placed and the client is unchanged.  On a
    [ConnectionClosedError] the loop logs and ends: it does not
    reconnect and reads no further frame. *)
Theorem dispatcher_drops_fills_and_stops_when_closed L c w h :
  connection c = Some h ->
  is_closed h w = false ->
  let after i evs closed_now rest :=
    (c, mkWorld (trace w ++ ERecv h 20 i :: evs) closed_now (fresh w)
                (faults w) rest (clock w) (rng w)) in
  (forall text msg rest,
     inbox w = Frame text :: rest ->
     json_loads L text = Some msg ->
     Py.get msg "channel" JNull = Ok (JStr "fills") ->
     dispatcher_turn L (c, w)
       = (Ok true,
          after (Frame text)
                [ELog ERROR (LogExn "Error while handling the message" TypeError)]
                (closed w) rest)) /\
  (forall n rest,
     inbox w = Broken ConnectionClosedError :: rest ->
     start_message_dispatcher L (S n) (c, w)
       = (Ok tt,
          after (Broken ConnectionClosedError)
                [ELog ERROR (LogText "WebSocket connection closed.")]
                (h :: closed w) rest)).
Proof.
  intros Hc Hcl after. subst after. cbn beta.
  destruct w as [tr cl fr fl inb ck rg]. unfold is_closed in Hcl.
  cbn [inbox closed trace fresh faults clock rng] in *.
  split.
  - intros text msg rest -> Hj Hch.
    unfold dispatcher_turn, catch, bind at 1.
    unfold connection_recv, bind at 1, self, ws_recv, is_closed, next_incoming.
    cbn. rewrite Hc. cbn. rewrite Hcl. cbn.
    unfold bind at 1, loads. rewrite Hj. unfold ret at 1.
    unfold bind at 1, handle_message, bind at 1. rewrite Hch.
    unfold lift at 1. cbn. unfold bind, log, record, ret, emit. cbn.
    norm_app. reflexivity.
  - intros n rest ->. cbn [start_message_dispatcher].
    unfold bind at 1, dispatcher_turn, catch, bind at 1.
    unfold connection_recv, bind at 1, self, ws_recv, is_closed, next_incoming.
    cbn. rewrite Hc. cbn. rewrite Hcl. cbn.
    unfold bind, log, record, ret, emit, mark_closed. cbn.
    norm_app. reflexivity.
Qed.

(* ================================================================= *)
(** ** Starting the client *)

(** X21.  [start] never reaches the message loop: after it has opened
    the connection and made its two subscriptions, the call of
    [message_handler] without its arguments raises [TypeError]; an
    exception of one of the subscriptions leaves [start] before that. *)
Theorem start_never_reaches_the_loop L asset s :
  start L asset s
    = match (open_connection L ;; subscribe_orders L ;;
             subscribe_ticker L (asset ++ "-PERP")) s with
      | (Ok _, s1) => (Raise TypeError, s1)
      | (Raise e, s1) => (Raise e, s1)
      end /\
  exists e, fst (start L asset s) = Raise e.
Proof.
  assert (E : start L asset s
              = match (open_connection L ;; subscribe_orders L ;;
                       subscribe_ticker L (asset ++ "-PERP")) s with
                | (Ok _, s1) => (Raise TypeError, s1)
                | (Raise e, s1) => (Raise e, s1)
                end).
  { unfold start, bind, raise.
    destruct (open_connection L s) as [[u|e] s1]; [|reflexivity].
    destruct (subscribe_orders L s1) as [[u1|e] s2]; [|reflexivity].
    destruct (subscribe_ticker L (asset ++ "-PERP") s2) as [[u2|e] s3];
      reflexivity. }
  split; [exact E|]. rewrite E.
  destruct ((open_connection L ;; subscribe_orders L ;;
             subscribe_ticker L (asset ++ "-PERP")) s) as [[u|e] s1];
    eexists; reflexivity.
Qed.

(* ================================================================= *)
(** ** Opening a connection *)

(** X22.  [connect] opens a connection and puts it in place of the one
    the client holds, which it does not close: the connection objects
    that are closed are the same before and after.  When the transport
    refuses, the exception leaves the method and the client is
    unchanged. *)
Theorem connect_replaces_without_closing c w :
  let w1 := snd (next_fault w) in
  connect (c, w)
    = match fst (next_fault w) with
      | None =>
          (Ok tt,
           (set_connection (Some (fresh w)) c,
            mkWorld (trace w
                       ++ [EConnect (ws_url c) (Ok (fresh w));
                           ELog INFO (LogText "Connected to the WebSocket server.")])
                    (closed w) (S (fresh w)) (faults w1) (inbox w) (clock w)
                    (rng w)))
      | Some e =>
          (Raise e,
           (c,
            mkWorld (trace w ++ [EConnect (ws_url c) (Raise e)])
                    (closed w) (fresh w) (faults w1) (inbox w) (clock w)
                    (rng w)))
      end /\
  (forall h, is_closed h (snd (snd (connect (c, w)))) = is_closed h w).
Proof.
  destruct w as [tr cl fr fl inb ck rg].
  destruct c as [sk wa ak asec conn ords tks ltk chans en].
  unfold connect. run.
  destruct fl as [|[e|] fl]; cbn; split; try reflexivity;
    norm_app; reflexivity.
Qed.

(** X23.  [open_connection] hands at most one frame to the transport,
    the authentication frame, and none at all when the API key or the
    wallet address is empty. *)
Theorem open_connection_sends_the_credentials_only L c w :
  exists l,
    handed_over (trace (snd (snd (open_connection L (c, w)))))
      = (handed_over (trace w) ++ l)%list /\
    (l = [] \/ l = [json_dumps L (auth_message c)]) /\
    (nonempty (api_key c) && nonempty (wallet_address c) = false -> l = []).
Proof.
  destruct w as [tr cl fr fl inb ck rg].
  destruct c as [sk wa ak asec conn ords tks ltk chans en].
  unfold open_connection, open_attempt, open_failed, authenticate,
    auth_message.
  cbn [api_key wallet_address api_secret].
  destruct (nonempty ak && nonempty wa) eqn:Hk; run; explore;
    repeat rewrite handed_over_app; cbn [handed_over flat_map app];
    repeat rewrite app_nil_r;
    first [ exists []; rewrite app_nil_r; split; [reflexivity|];
            split; [left; reflexivity|intros; reflexivity]
          | eexists [_]; split; [reflexivity|];
            split; [right; reflexivity|intros; discriminate] ].
Qed.

(* ================================================================= *)
(** ** Sending when the reconnect fails too *)

(** X24.  When the transport answers a send with
    [ConnectionClosedError] and the reconnect that follows cannot open
    a connection, [send] raises: the closed connection object is still
    in place, the second attempt to send on it fails with
    [ConnectionClosedError], and nothing catches that.  The payload is
    not delivered. *)
Theorem send_raises_when_reconnect_fails L data c w h e :
  connection c = Some h ->
  is_closed h w = false ->
  faults w = [Some ConnectionClosedError; Some e] ->
  let replayed :=
    match subscribed_channels c with
    | [] => []
    | ch :: _ =>
        [ESend h (json_dumps L (subscribe_message ch))
               (Some ConnectionClosedError);
         ELog ERROR (LogExn "Reconnect failed" ConnectionClosedError)]
    end in
  let tr :=
    (trace w
       ++ [ESend h data (Some ConnectionClosedError);
           ELog DEBUG (LogText "Restarted Aevo websocket connection");
           ELog INFO (LogText "Trying to reconnect the WebSocket...");
           ELog INFO (LogText "No active WebSocket connection to close.");
           ESleep 5;
           ELog INFO (LogText "Opening Aevo websocket connection...");
           EClose h None;
           EConnect (ws_url c) (Raise e);
           ELog ERROR
             (LogText "Error occurred while opening websocket connection.");
           ELog ERROR (LogExn "" e);
           ELog ERROR (LogText "traceback");
           ESleep 10]
       ++ replayed
       ++ [ESend h data (Some ConnectionClosedError)])%list in
  fst (send L data (c, w)) = Raise ConnectionClosedError /\
  fst (snd (send L data (c, w))) = c /\
  trace (snd (snd (send L data (c, w)))) = tr /\
  delivered tr = delivered (trace w).
Proof.
  intros Hc Hcl Hf replayed tr. subst replayed tr.
  destruct w as [tr0 cl fr fl inb ck rg].
  destruct c as [sk wa ak asec conn ords tks ltk chans en].
  unfold is_closed in Hcl.
  cbn [connection faults closed trace subscribed_channels] in *.
  subst conn fl.
  unfold send, reconnect, close_connection, open_connection, open_attempt,
    open_failed, resubscribe_channels.
  run. repeat (progress (rewrite ?Hcl, ?Nat.eqb_refl; cbn)).
  destruct chans as [|ch rest]; cbn [resubscribe_loop]; run;
    repeat (progress (rewrite ?Hcl, ?Nat.eqb_refl; cbn));
    norm_app; repeat split;
    repeat rewrite delivered_app; cbn [delivered flat_map app];
    repeat rewrite app_nil_r; reflexivity.
Qed.

(* ================================================================= *)
(** ** An order made without a connection *)

Lemma create_order_ws_json_client L i b p q po mmp pd ad c w :
  fst (snd (create_order_ws_json L i b p q po mmp pd ad (c, w))) = c.
Proof.
  rewrite create_order_ws_json_run.
  pose proof (sign_order_client L i b p q (fst (next_clock w)) pd (10 ^ 6) c
                                (snd (next_clock w))) as Hc.
  destruct (sign_order L i b p q (fst (next_clock w)) pd (10 ^ 6)
                       (c, snd (next_clock w)))
    as [[[[salt0 sg] oid]|e] s1]; [|exact Hc].
  destruct (fixed_point q ad b); [|exact Hc].
  destruct (fixed_point p pd b); exact Hc.
Qed.

(** X25.  On a client without connection, [create_order] returns the
    id of the signed order as if it had been submitted, although [send]
    only logs, reconnects and drops the payload: all that is handed to
    the transport is what the reconnect sends by itself, the
    authentication frame and the subscribe frames of the registered
    channels. *)
Theorem create_order_without_connection_returns_id
  L i b p q po id mmp c w data oid s1 :
  connection c = None ->
  create_order_ws_json L i b p q po mmp (10 ^ 6) (10 ^ 6) (c, w)
    = (Ok (data, oid), s1) ->
  exists s2,
    create_order L i b p q po id mmp (c, w) = (Ok oid, s2) /\
    frame unchanged (housekeeping L) s1 s2.
Proof.
  intros Hc H.
  pose proof (create_order_ws_json_client L i b p q po mmp (10 ^ 6) (10 ^ 6)
                                          c w) as Hs.
  rewrite H in Hs. cbn [fst snd] in Hs. destruct s1 as [c1 w1].
  cbn [fst] in Hs. subst c1.
  unfold create_order. unfold bind at 1. rewrite H. rewrite bind_log.
  cbn [fst snd]. unfold bind at 1. rewrite send_unfold, Hc.
  set (w2 := emit _ (emit _ w1)).
  destruct (returns_unit (c, w2) (reconnect_returns L)) as [s2 E].
  rewrite E. exists s2. split; [reflexivity|].
  pose proof (tidy_reconnect L (c, w2)) as Hf. unfold framed_at in Hf.
  rewrite E in Hf. cbn [snd] in Hf.
  refine (frame_trans _ Hf). subst w2.
  eapply (@frame_trans unchanged (housekeeping L) _);
    apply frame_emit; first [exact I | exact _].
Qed.

(* ================================================================= *)
(** ** Fills that cannot be used *)

(** X26.  A fill notification without fill data, with a required field
    missing or empty, or with a field that does not convert
    ([ValueError]) places no order: the handler logs the reason and
    returns, handing nothing to the transport.  A conversion that fails
    with another exception (a price that is a list, a side that is not
    a string) leaves the handler as that exception. *)
Theorem unusable_fill_places_no_order L msg gi pd data fd c w :
  Py.get msg "data" (JDict []) = Ok data ->
  Py.get data "fill" JNull = Ok fd ->
  let logged evs :=
    (c, mkWorld (trace w ++ evs) (closed w) (fresh w) (faults w) (inbox w)
                (clock w) (rng w)) in
  (Py.truthy fd = false ->
   handle_fills_message L msg gi pd (c, w)
     = (Ok tt,
        logged [ELog ERROR (LogText "The fill message has no 'fill' data.")])) /\
  (forall d,
     fd = JDict d -> d <> [] ->
     let field k :=
       match Py.lookup k d with
       | Some v => v
       | None => JNull
       end in
     (Py.all [field "order_id"; field "price"; field "filled"; field "side";
              field "instrument_id"] = false ->
      handle_fills_message L msg gi pd (c, w)
        = (Ok tt,
           logged [ELog INFO (LogJson "Fill" fd);
                   ELog ERROR (LogText "The fill message lacks required data.")])) /\
     (forall e,
        Py.all [field "order_id"; field "price"; field "filled"; field "side";
                field "instrument_id"] = true ->
        convert_fill (field "price") (field "filled") (field "side")
                     (field "instrument_id") = Raise e ->
        handle_fills_message L msg gi pd (c, w)
          = if is_ValueError e
            then (Ok tt,
                  logged [ELog INFO (LogJson "Fill" fd);
                          ELog ERROR
                            (LogExn "Type conversion error in the fill data" e)])
            else (Raise e, logged [ELog INFO (LogJson "Fill" fd)]))).
Proof.
  intros Hd Hf logged. subst logged. cbn beta.
  destruct w as [tr cl fr fl inb ck rg].
  cbn [trace closed fresh faults inbox clock rng].
  split.
  - intros Ht. unfold handle_fills_message. rewrite Hd.
    unfold bind at 1, lift at 1. rewrite Hf. unfold bind at 1, lift at 1.
    rewrite Ht. reflexivity.
  - intros d Efd Hne. subst fd.
    assert (Ht : Py.truthy (JDict d) = true)
      by (destruct d; [contradiction|reflexivity]).
    split; [intros Ha|intros e Ha Hconv];
      unfold handle_fills_message; rewrite Hd;
      unfold bind at 1, lift at 1; rewrite Hf; unfold bind at 1, lift at 1;
      rewrite Ht; cbn [negb]; rewrite bind_log; cbn [fst snd Py.get];
      do 5 (unfold bind at 1, lift at 1).
    + rewrite Ha. cbn. unfold log, record, bind, ret, raise, emit. cbn. norm_app.
      reflexivity.
    + rewrite Ha. cbn [negb].
      unfold convert_fill, rbind in Hconv.
      unfold bind at 1, catch, bind at 1, lift at 1.
      destruct (Py.to_float _) as [fp|e1];
        [|inversion Hconv; subst e1;
          destruct (is_ValueError e); cbn;
          unfold log, record, bind, ret, raise, emit; cbn; norm_app;
          reflexivity].
      unfold bind at 1, lift at 1.
      destruct (Py.to_float _) as [fq|e1];
        [|inversion Hconv; subst e1;
          destruct (is_ValueError e); cbn;
          unfold log, record, bind, ret, raise, emit; cbn; norm_app;
          reflexivity].
      unfold bind at 1, lift at 1.
      destruct (Py.lower _) as [lw|e1];
        [|inversion Hconv; subst e1;
          destruct (is_ValueError e); cbn;
          unfold log, record, bind, ret, raise, emit; cbn; norm_app;
          reflexivity].
      unfold bind at 1, lift at 1.
      destruct (Py.to_int _) as [ii|e1];
        [discriminate Hconv|].
      inversion Hconv; subst e1.
      destruct (is_ValueError e); cbn;
        unfold log, record, bind, ret, raise, emit; cbn; norm_app;
        reflexivity.
Qed.

(* ================================================================= *)
(** ** The helpers of the trading script *)

(** X27.  [get_value_safe] never raises: for a dict it returns the
    value of the key, or the default when the key is missing; for
    anything that is not a dict (a list, a string, [None]) it prints the
    error and returns the default.  A value stored under a key is the
    value read back. *)
Theorem get_value_safe_never_raises data key default :
  Trade.get_value_safe data key default
    = match data with
      | JDict d =>
          (Ok match Py.lookup key d with
              | Some v => v
              | None => default
              end,
           false)
      | _ => (Ok default, true)
      end /\
  (forall d v,
     Trade.get_value_safe (JDict (Py.setitem key v d)) key default
       = (Ok v, false)).
Proof.
  split.
  - destruct data; reflexivity.
  - intros d v. unfold Trade.get_value_safe. cbn [Py.get].
    rewrite lookup_setitem_same. reflexivity.
Qed.

Lemma is_substring_dot s :
  Py.is_substring "." s = negb (free_of "." s).
Proof.
  induction s as [|c s IH]; [reflexivity|].
  cbn [Py.is_substring free_of String.prefix].
  rewrite IH. destruct (ascii_dec "." c) as [E|N].
  - subst c. rewrite Ascii.eqb_refl. destruct s; reflexivity.
  - assert (E : Ascii.eqb c "." = false)
      by (apply Ascii.eqb_neq; congruence).
    rewrite E. cbn. reflexivity.
Qed.

Lemma split_from_free sep acc s :
  free_of sep s = true -> Trade.split_from sep acc s = [(acc ++ s)%string].
Proof.
  revert acc. induction s as [|c s IH]; intros acc H; cbn in *.
  - rewrite append_nil_r. reflexivity.
  - apply andb_prop in H. destruct H as [H1 H2].
    apply negb_true_iff in H1. rewrite H1, IH by exact H2.
    rewrite append_assoc. reflexivity.
Qed.

Lemma split_from_sep sep acc a rest :
  free_of sep a = true ->
  Trade.split_from sep acc (a ++ String sep rest)
    = (acc ++ a)%string :: Trade.split_from sep EmptyString rest.
Proof.
  revert acc. induction a as [|c a IH]; intros acc H; cbn in *.
  - rewrite Ascii.eqb_refl, append_nil_r. reflexivity.
  - apply andb_prop in H. destruct H as [H1 H2].
    apply negb_true_iff in H1. rewrite H1, IH by exact H2.
    rewrite append_assoc. reflexivity.
Qed.

Lemma free_of_uint d :
  free_of "." (DecimalString.NilEmpty.string_of_uint d) = true.
Proof. induction d; cbn; try reflexivity; exact IHd. Qed.

Lemma free_of_str_of_Z z : free_of "." (PyStr.str_of_Z z) = true.
Proof.
  unfold PyStr.str_of_Z, DecimalString.NilZero.string_of_int,
    DecimalString.NilZero.string_of_uint.
  destruct (Z.to_int z) as [d|d]; destruct d; cbn; try reflexivity;
    apply free_of_uint.
Qed.

(** X28.  [count_decimal_places] counts the characters between the
    first dot of [str(number)] and the next dot or the end: the number
    of decimals of a decimal literal given as a string.  Without a dot
    the answer is 0, which is the case of every [int]. *)
Theorem count_decimal_places_counts_after_the_dot :
  (forall s, free_of "." s = true -> Trade.count_decimal_places s = Ok 0) /\
  (forall z, Trade.count_decimal_places (PyStr.str_of_Z z) = Ok 0) /\
  (forall a b,
     free_of "." a = true -> free_of "." b = true ->
     Trade.count_decimal_places (a ++ "." ++ b)
       = Ok (Z.of_nat (String.length b))) /\
  (forall a b c,
     free_of "." a = true -> free_of "." b = true ->
     Trade.count_decimal_places (a ++ "." ++ b ++ "." ++ c)
       = Ok (Z.of_nat (String.length b))).
Proof.
  assert (H0 : forall s, free_of "." s = true ->
                         Trade.count_decimal_places s = Ok 0).
  { intros s H. unfold Trade.count_decimal_places.
    rewrite is_substring_dot, H. reflexivity. }
  assert (Hdot : forall a r, Py.is_substring "." (a ++ String "." r) = true).
  { intros a r. rewrite is_substring_dot, free_of_app. cbn.
    rewrite andb_false_r. reflexivity. }
  split; [exact H0|]. split; [|split].
  - intros z. apply H0, free_of_str_of_Z.
  - intros a b Ha Hb. unfold Trade.count_decimal_places.
    change (a ++ "." ++ b)%string with (a ++ String "." b)%string.
    rewrite Hdot. unfold Trade.split.
    rewrite split_from_sep by exact Ha.
    rewrite split_from_free by exact Hb. reflexivity.
  - intros a b c Ha Hb. unfold Trade.count_decimal_places.
    change (a ++ "." ++ b ++ "." ++ c)%string
      with (a ++ String "." (b ++ String "." c))%string.
    rewrite Hdot. unfold Trade.split.
    rewrite split_from_sep by exact Ha.
    rewrite split_from_sep by exact Hb. reflexivity.
Qed.

(* ================================================================= *)
(** ** The frame taken for the confirmation of a ticker subscription *)

(** X29.  [subscribe_ticker] takes the next incoming frame for the
    answer to its request, whatever that frame is: a notification that
    arrives at that moment (a fill, for one: a message without [id]) is
    read there, reported as a failed subscription and gone; it never
    reaches the handlers of the message loop, so no order follows it.
    The channel is registered all the same. *)
Theorem subscribe_ticker_consumes_the_next_frame L asset c w h text d rest :
  connection c = Some h ->
  is_closed h w = false ->
  fst (next_fault w) = None ->
  inbox w = Frame text :: rest ->
  json_loads L text = Some (JDict d) ->
  Py.lookup "id" d = None ->
  let ch := ("ticker:" ++ asset)%string in
  subscribe_ticker L asset (c, w)
    = (Ok tt,
       (set_subscribed_channels (subscribed_channels c ++ [ch]) c,
        mkWorld
          (trace w
             ++ [ESend h (json_dumps L (subscribe_message ch)) None;
                 ERecv h 5 (Frame text);
                 ELog ERROR (LogStr "Ticker subscription failed" ch)])
          (closed w) (fresh w) (faults (snd (next_fault w))) rest (clock w)
          (rng w))).
Proof.
  intros Hc Hcl Hf Hin Hj Hid ch. subst ch.
  destruct w as [tr cl fr fl inb ck rg]. unfold is_closed in Hcl.
  destruct c as [sk wa ak asec conn ords tks ltk chans en].
  cbn [connection inbox closed trace fresh faults clock rng
       subscribed_channels] in *.
  subst conn inb.
  assert (Hfl : fl = [] \/ exists fl', fl = None :: fl').
  { destruct fl as [|[e|] fl']; cbn in Hf;
      [left; reflexivity|discriminate Hf|right; eexists; reflexivity]. }
  unfold subscribe_ticker, send_and_register, await_confirmation, loads.
  destruct Hfl as [->|[fl' ->]]; run; rewrite Hcl; cbn; rewrite Hcl; cbn;
    rewrite Hj; cbn; rewrite Hid; cbn; norm_app; reflexivity.
Qed.

(* ================================================================= *)
(** ** The further properties at sample inputs *)

(** X2 at a client without connection and a transport that refuses
    the connection. *)
Lemma reconnect_failure_leaves_no_connection_witness :
  connection Demo.idle = None /\
  faults (Demo.scripted [Some OSError] [] [] []) = [Some OSError] /\
  fst (reconnect Demo.lib (Demo.idle, Demo.scripted [Some OSError] [] [] []))
    = Ok tt /\
  fst (snd (reconnect Demo.lib
              (Demo.idle, Demo.scripted [Some OSError] [] [] [])))
    = Demo.idle.
Proof.
  assert (H1 : connection Demo.idle = None) by reflexivity.
  assert (H2 : faults (Demo.scripted [Some OSError] [] [] []) = [Some OSError])
    by reflexivity.
  split; [exact H1|]. split; [exact H2|].
  rewrite (@reconnect_failure_leaves_no_connection Demo.lib Demo.idle
             (Demo.scripted [Some OSError] [] [] []) OSError [] H1 H2).
  split; reflexivity.
Defined.

(** X3 at three registered channels, the second of which the transport
    refuses. *)
Lemma resubscribe_stops_at_first_failure_witness :
  let w := Demo.serving [None; Some OSError] [] [] [] in
  connection Sample.subscribed = Some 0%nat /\
  is_closed 0%nat w = false /\
  subscribed_channels Sample.subscribed
    = (["orders"] ++ "ticker:ETH-PERP" :: ["fills"])%list /\
  faults w = (repeat None (List.length ["orders"]) ++ Some OSError :: [])%list /\
  fst (resubscribe_channels Demo.lib (Sample.subscribed, w)) = Raise OSError.
Proof.
  intros w.
  assert (H1 : connection Sample.subscribed = Some 0%nat) by reflexivity.
  assert (H2 : is_closed 0%nat w = false) by reflexivity.
  assert (H3 : subscribed_channels Sample.subscribed
               = (["orders"] ++ "ticker:ETH-PERP" :: ["fills"])%list)
    by reflexivity.
  assert (H4 : faults w
               = (repeat None (List.length ["orders"])
                    ++ Some OSError :: [])%list)
    by reflexivity.
  split; [exact H1|]. split; [exact H2|]. split; [exact H3|].
  split; [exact H4|].
  destruct (@resubscribe_stops_at_first_failure Demo.lib Sample.subscribed w
              0%nat ["orders"] "ticker:ETH-PERP" ["fills"] OSError []
              H1 H2 H3 H4) as [H _].
  rewrite H. reflexivity.
Defined.

(** X4 at a subscription to the fills made without a connection. *)
Lemma subscription_refused_is_not_registered_witness :
  connection_send
    (json_dumps Demo.lib (subscribe_message (channel_name Fills)))
    (Demo.idle, Demo.calm)
    = (Raise AttributeError, (Demo.idle, Demo.calm)) /\
  subscribe Demo.lib Fills (Demo.idle, Demo.calm)
    = (Raise AttributeError, (Demo.idle, Demo.calm)).
Proof.
  assert (H1 : connection_send
                 (json_dumps Demo.lib (subscribe_message (channel_name Fills)))
                 (Demo.idle, Demo.calm)
               = (Raise AttributeError, (Demo.idle, Demo.calm)))
    by reflexivity.
  split; [exact H1|].
  destruct (@subscription_refused_is_not_registered Demo.lib Fills _ _ _ H1)
    as [H _].
  exact H.
Defined.

(** X5 at the sample order update. *)
Lemma handle_order_message_appends_witness :
  let data := JDict [("orders", JList [JDict [("order_id", JStr "0xabc")]])] in
  Py.get Demo.orders_message "data" (JDict []) = Ok data /\
  Py.get data "orders" (JList [])
    = Ok (JList [JDict [("order_id", JStr "0xabc")]]) /\
  orders (fst (snd (handle_order_message Demo.orders_message
                      (Demo.online, Demo.serving [] [] [] []))))
    = [JDict [("order_id", JStr "0xabc")]].
Proof.
  intros data.
  assert (H1 : Py.get Demo.orders_message "data" (JDict []) = Ok data)
    by reflexivity.
  assert (H2 : Py.get data "orders" (JList [])
               = Ok (JList [JDict [("order_id", JStr "0xabc")]]))
    by reflexivity.
  split; [exact H1|]. split; [exact H2|].
  rewrite (@handle_order_message_appends Demo.orders_message data _
             Demo.online (Demo.serving [] [] [] []) H1 H2).
  reflexivity.
Defined.

(** X6 at the sample ticker. *)
Lemma ticker_stored_under_last_segment_witness :
  let data := JDict [("mark", JStr "3200.5")] in
  Py.get Demo.ticker_message "data" (JDict []) = Ok data /\
  getitem_channel Demo.ticker_message = Ok (JStr "ticker:ETH-PERP") /\
  PyStr.last_segment "ticker:ETH-PERP" = "ETH-PERP" /\
  Py.lookup "ETH-PERP"
    (Py.setitem (PyStr.last_segment "ticker:ETH-PERP") data (tickers Demo.online))
    = Some data.
Proof.
  intros data.
  assert (H1 : Py.get Demo.ticker_message "data" (JDict []) = Ok data)
    by reflexivity.
  assert (H2 : getitem_channel Demo.ticker_message
               = Ok (JStr "ticker:ETH-PERP"))
    by reflexivity.
  split; [exact H1|]. split; [exact H2|]. split; [reflexivity|].
  destruct (@ticker_stored_under_last_segment Demo.ticker_message data
              "ticker:ETH-PERP" Demo.online (Demo.serving [] [] [] []) H1 H2)
    as [_ [H _]].
  exact H.
Defined.

(** X9 at the confirmation of a subscription. *)
Lemma unhandled_channel_is_passed_over_witness :
  let text := Demo.dumps Sample.confirmation in
  let w := Demo.serving [] [Frame text] [] [] in
  connection Demo.online = Some 0%nat /\
  is_closed 0%nat w = false /\
  inbox w = [Frame text] /\
  json_loads Sample.lib text
    = Some (JDict [("id", JInt 1); ("data", JDict [("success", JBool true)])]) /\
  message_handler_turn Sample.lib 5 2 (Demo.online, w)
    = (Ok tt,
       (Demo.online,
        mkWorld [ERecv 0%nat 20 (Frame text)] [] 1%nat [] [] [] [])).
Proof.
  intros text w.
  assert (H1 : connection Demo.online = Some 0%nat) by reflexivity.
  assert (H2 : is_closed 0%nat w = false) by reflexivity.
  assert (H3 : inbox w = [Frame text]) by reflexivity.
  assert (H4 : json_loads Sample.lib text
               = Some (JDict [("id", JInt 1);
                              ("data", JDict [("success", JBool true)])]))
    by (vm_compute; reflexivity).
  split; [exact H1|]. split; [exact H2|]. split; [exact H3|].
  split; [exact H4|].
  destruct (@unhandled_channel_is_passed_over Sample.lib 5 2 Demo.online w
              0%nat text _ [] H1 H2 H3 H4) as [H _].
  apply H. reflexivity.
Defined.

(** X10 at three turns of the loop on a client without connection. *)
Lemma handler_without_connection_only_logs_witness :
  connection Demo.idle = None /\
  fst (message_handler_loop Demo.lib 3 5 2 (Demo.idle, Demo.calm)) = Ok tt /\
  fst (snd (message_handler_loop Demo.lib 3 5 2 (Demo.idle, Demo.calm)))
    = Demo.idle.
Proof.
  assert (H1 : connection Demo.idle = None) by reflexivity.
  split; [exact H1|].
  destruct (@handler_without_connection_only_logs Demo.lib 3 5 2 Demo.idle
              Demo.calm H1) as [H _].
  rewrite H. split; reflexivity.
Defined.

(** X12 at a connection that the server closes in good order. *)
Lemma handler_reconnects_on_closed_error_only_witness :
  let w := Demo.serving [] [Broken ConnectionClosedOK] [] [] in
  connection Demo.online = Some 0%nat /\
  is_closed 0%nat w = false /\
  inbox w = [Broken ConnectionClosedOK] /\
  message_handler_turn Demo.lib 5 2 (Demo.online, w)
    = (Ok tt,
       (Demo.online,
        mkWorld
          [ERecv 0%nat 20 (Broken ConnectionClosedOK);
           ELog ERROR
             (LogExn "Error while handling the message" ConnectionClosedOK)]
          [0%nat] 1%nat [] [] [] [])).
Proof.
  intros w.
  assert (H1 : connection Demo.online = Some 0%nat) by reflexivity.
  assert (H2 : is_closed 0%nat w = false) by reflexivity.
  assert (H3 : inbox w = [Broken ConnectionClosedOK]) by reflexivity.
  split; [exact H1|]. split; [exact H2|]. split; [exact H3|].
  rewrite (@handler_reconnects_on_closed_error_only Demo.lib 5 2 Demo.online
             w 0%nat ConnectionClosedOK [] H1 H2 H3).
  reflexivity.
Defined.

(** X16 at a sell order of 1/128 at 1/128. *)
Lemma order_payload_matches_signed_order_witness :
  Sample.order_json
    = (Ok (JDict (Sample.payload_of (fst Sample.order_json)),
           Sample.id_of (fst Sample.order_json)),
       snd Sample.order_json) /\
  Py.lookup "amount" (Sample.payload_of (fst Sample.order_json))
    = Some (JStr "7812") /\
  exists o sb,
    signable_bytes Demo.lib o (signing_domain Demo.online) = Ok sb /\
    Sample.id_of (fst Sample.order_json)
      = ("0x" ++ PyStr.hex (keccak Demo.lib sb))%string /\
    fixed_point (PyNum.PFloat 0x1p-7) (10 ^ 6) false = Ok (amount o).
Proof.
  assert (H : Sample.order_json
              = (Ok (JDict (Sample.payload_of (fst Sample.order_json)),
                     Sample.id_of (fst Sample.order_json)),
                 snd Sample.order_json))
    by (vm_compute; reflexivity).
  split; [exact H|]. split; [vm_compute; reflexivity|].
  destruct (@order_payload_matches_signed_order Demo.lib _ _ _ _ _ _ _ _ _ _
              _ _ _ H)
    as [o [sb [sg [am [H1 [_ [H3 [_ [H5 _]]]]]]]]].
  exists o, sb. split; [exact H1|]. split; [exact H3|exact H5].
Defined.

(** X17 at the same order: the REST call succeeds as the websocket
    call does, and the websocket call as the REST call does. *)
Lemma rest_and_ws_orders_agree_witness :
  Sample.order_json
    = (Ok (JDict (Sample.payload_of (fst Sample.order_json)),
           Sample.id_of (fst Sample.order_json)),
       snd Sample.order_json) /\
  exists pr pw,
    create_order_rest_json Demo.lib 1 false (PyNum.PFloat 0x1p-7)
                           (PyNum.PFloat 0x1p-7) true false false
                           (10 ^ 6) (10 ^ 6) JNull JNull Sample.order_state
      = (Ok (JDict pr, Sample.id_of (fst Sample.order_json)),
         snd Sample.order_json) /\
    Py.lookup "mmp" pr = None /\
    create_order_ws_json Demo.lib 1 false (PyNum.PFloat 0x1p-7)
                         (PyNum.PFloat 0x1p-7) true true
                         (10 ^ 6) (10 ^ 6) Sample.order_state
      = (Ok (JDict pw, Sample.id_of (fst Sample.order_json)),
         snd Sample.order_json) /\
    Py.lookup "signature" pw = Py.lookup "signature" pr /\
    Py.lookup "mmp" pw = Some (JBool true).
Proof.
  assert (H : Sample.order_json
              = (Ok (JDict (Sample.payload_of (fst Sample.order_json)),
                     Sample.id_of (fst Sample.order_json)),
                 snd Sample.order_json))
    by (vm_compute; reflexivity).
  split; [exact H|].
  destruct (@rest_and_ws_orders_agree Demo.lib 1 false (PyNum.PFloat 0x1p-7)
              (PyNum.PFloat 0x1p-7) true true false false (10 ^ 6) (10 ^ 6)
              JNull JNull Sample.order_state)
    as [Hws [Hrest _]].
  destruct (Hws _ _ _ H) as [pw [pr [_ [H1 [_ [H3 _]]]]]].
  destruct (Hrest _ _ _ H1) as [pr' [pw' [E [H4 [H5 H6]]]]].
  injection E as E. subst pr'.
  exists pr, pw'. split; [exact H1|]. split; [exact H3|]. split; [exact H4|].
  split; [|exact H6].
  inversion H5 as [|k1 l1 _ T1]. inversion T1 as [|k2 l2 _ T2].
  inversion T2 as [|k3 l3 _ T3]. inversion T3 as [|k4 l4 _ T4].
  inversion T4 as [|k5 l5 _ T5]. inversion T5 as [|k6 l6 _ T6].
  inversion T6 as [|k7 l7 Hsig _]. exact Hsig.
Defined.

(** X20 at a fill notification. *)
Lemma dispatcher_drops_fills_and_stops_when_closed_witness :
  let text := Demo.dumps (Demo.fill_message "buy" "3200.00" "0.003") in
  let w := Demo.serving [] [Frame text] [1700000000] [42] in
  connection Demo.online = Some 0%nat /\
  is_closed 0%nat w = false /\
  json_loads Demo.lib text = Some (Demo.fill_message "buy" "3200.00" "0.003") /\
  fst (dispatcher_turn Demo.lib (Demo.online, w)) = Ok true /\
  handed_over (trace (snd (snd (dispatcher_turn Demo.lib (Demo.online, w)))))
    = [].
Proof.
  intros text w.
  assert (H1 : connection Demo.online = Some 0%nat) by reflexivity.
  assert (H2 : is_closed 0%nat w = false) by reflexivity.
  assert (H3 : json_loads Demo.lib text
               = Some (Demo.fill_message "buy" "3200.00" "0.003"))
    by (vm_compute; reflexivity).
  split; [exact H1|]. split; [exact H2|]. split; [exact H3|].
  destruct (@dispatcher_drops_fills_and_stops_when_closed Demo.lib
              Demo.online w 0%nat H1 H2) as [H _].
  rewrite (H text _ [] eq_refl H3 eq_refl). split; reflexivity.
Defined.

(** X24 at a payload on a connection that breaks, with a transport
    that refuses to connect again. *)
Lemma send_raises_when_reconnect_fails_witness :
  let w := Demo.serving [Some ConnectionClosedError; Some OSError] [] [] [] in
  connection Demo.online = Some 0%nat /\
  is_closed 0%nat w = false /\
  faults w = [Some ConnectionClosedError; Some OSError] /\
  fst (send Demo.lib "payload" (Demo.online, w)) = Raise ConnectionClosedError.
Proof.
  intros w.
  assert (H1 : connection Demo.online = Some 0%nat) by reflexivity.
  assert (H2 : is_closed 0%nat w = false) by reflexivity.
  assert (H3 : faults w = [Some ConnectionClosedError; Some OSError])
    by reflexivity.
  split; [exact H1|]. split; [exact H2|]. split; [exact H3|].
  destruct (@send_raises_when_reconnect_fails Demo.lib "payload" Demo.online
              w 0%nat OSError H1 H2 H3) as [H _].
  exact H.
Defined.

(** X25 at a sell order made on a client without connection. *)
Lemma create_order_without_connection_returns_id_witness :
  connection Demo.idle = None /\
  Sample.offline_json
    = (Ok (JDict (Sample.payload_of (fst Sample.offline_json)),
           Sample.id_of (fst Sample.offline_json)),
       snd Sample.offline_json) /\
  exists s2,
    create_order Demo.lib 1 false (PyNum.PFloat 0x1p-7) (PyNum.PFloat 0x1p-7)
                 true JNull true Sample.offline_state
      = (Ok (Sample.id_of (fst Sample.offline_json)), s2).
Proof.
  assert (H1 : connection Demo.idle = None) by reflexivity.
  assert (H2 : Sample.offline_json
               = (Ok (JDict (Sample.payload_of (fst Sample.offline_json)),
                      Sample.id_of (fst Sample.offline_json)),
                  snd Sample.offline_json))
    by (vm_compute; reflexivity).
  split; [exact H1|]. split; [exact H2|].
  destruct (@create_order_without_connection_returns_id Demo.lib 1 false
              (PyNum.PFloat 0x1p-7) (PyNum.PFloat 0x1p-7) true JNull true
              Demo.idle (Demo.scripted [] [] [1700000000] [42]) _ _ _ H1 H2)
    as [s2 [H _]].
  exists s2. exact H.
Defined.

(** X26 at a fill notification that lacks its price. *)
Lemma unusable_fill_places_no_order_witness :
  let fd := JDict [("order_id", JStr "0xabc")] in
  Py.get Sample.bare_fill "data" (JDict []) = Ok (JDict [("fill", fd)]) /\
  Py.get (JDict [("fill", fd)]) "fill" JNull = Ok fd /\
  handle_fills_message Demo.lib Sample.bare_fill 5 2 (Demo.online, Demo.calm)
    = (Ok tt,
       (Demo.online,
        mkWorld [ELog INFO (LogJson "Fill" fd);
                 ELog ERROR (LogText "The fill message lacks required data.")]
                [] 0%nat [] [] [] [])).
Proof.
  intros fd.
  assert (H1 : Py.get Sample.bare_fill "data" (JDict [])
               = Ok (JDict [("fill", fd)])) by reflexivity.
  assert (H2 : Py.get (JDict [("fill", fd)]) "fill" JNull = Ok fd)
    by reflexivity.
  split; [exact H1|]. split; [exact H2|].
  destruct (@unusable_fill_places_no_order Demo.lib Sample.bare_fill 5 2 _ _
              Demo.online Demo.calm H1 H2) as [_ H].
  assert (Hne : [("order_id", JStr "0xabc")] <> ([] : list (string * json)))
    by discriminate.
  destruct (H _ eq_refl Hne) as [H3 _].
  apply H3. reflexivity.
Defined.

(** X29 at a fill notification that arrives right after the request. *)
Lemma subscribe_ticker_consumes_the_next_frame_witness :
  let text := Demo.dumps (Demo.fill_message "buy" "3200.00" "0.003") in
  let w := Demo.serving [] [Frame text] [1700000000] [42] in
  connection Demo.online = Some 0%nat /\
  is_closed 0%nat w = false /\
  fst (next_fault w) = None /\
  json_loads Demo.lib text = Some (Demo.fill_message "buy" "3200.00" "0.003") /\
  fst (subscribe_ticker Demo.lib "ETH-PERP" (Demo.online, w)) = Ok tt /\
  inbox (snd (snd (subscribe_ticker Demo.lib "ETH-PERP" (Demo.online, w))))
    = [] /\
  handed_over
    (trace (snd (snd (subscribe_ticker Demo.lib "ETH-PERP" (Demo.online, w)))))
    = [json_dumps Demo.lib (subscribe_message "ticker:ETH-PERP")].
Proof.
  intros text w.
  assert (H1 : connection Demo.online = Some 0%nat) by reflexivity.
  assert (H2 : is_closed 0%nat w = false) by reflexivity.
  assert (H3 : fst (next_fault w) = None) by reflexivity.
  assert (H4 : json_loads Demo.lib text
               = Some (Demo.fill_message "buy" "3200.00" "0.003"))
    by (vm_compute; reflexivity).
  split; [exact H1|]. split; [exact H2|]. split; [exact H3|].
  split; [exact H4|].
  rewrite (@subscribe_ticker_consumes_the_next_frame Demo.lib "ETH-PERP"
             Demo.online w 0%nat text _ [] H1 H2 H3 eq_refl H4 eq_refl).
  repeat split.
Defined.
